(** * Lucky for Life analyzer: draw statistics, strategies, prize table
      and walk-forward backtest

    Shallow embedding of [lucky_for_life_analyzer.py] and of the
    recommendation route of [web_app.py].

    - A pandas [DataFrame] is a list of labelled rows: [iterrows()] yields
      the index *label* of a row together with the row, and [head]/[iloc]
      slicing keeps the labels of the rows it retains.
    - A [Counter] / [dict] is an association list in insertion order, because
      [most_common], [sorted] and [max] break ties by iteration order.
    - Exceptions ([IndexError], [ValueError], [ZeroDivisionError]) are results
      of a small error monad.
    - [np.mean] and the overdue ratio are computed over exact rationals [Q];
      dollar prizes are whole numbers and are kept in [Z]. *)

From Stdlib Require Import String ZArith QArith Qround List Bool Lia.
From Stdlib Require Import Sorting.Sorted Sorting.Permutation.
Import ListNotations.

Local Open Scope Z_scope.

(* ================================================================== *)
(** ** Draw records and data frames *)

(** One CSV row: the drawing date (as a day number, the value of the parsed
    [Timestamp]) and the columns ['Number 1'] .. ['Number 5'], ['Lucky Ball']. *)
Record Row : Type := mkRow {
  Date : Z;
  Number1 : Z;
  Number2 : Z;
  Number3 : Z;
  Number4 : Z;
  Number5 : Z;
  LuckyBall : Z
}.

(** [[int(row[f'Number {i}']) for i in range(1, 6)]] *)
Definition numbers_in_draw (row : Row) : list Z :=
  [Number1 row; Number2 row; Number3 row; Number4 row; Number5 row].

(** A data frame: rows with their index labels, in positional order. *)
Definition DataFrame : Type := list (Z * Row).

(** [df.head(n)] for a non-negative [n]. *)
Definition head (n : nat) (df : DataFrame) : DataFrame := firstn n df.

(** [df.head(n)] for any integer [n], as [backtest_strategies] hands its
    [lookback_draws] to it: a negative [n] keeps all rows but the last [|n|]
    (pandas: [df[:n]]). *)
Definition head_signed (n : Z) (df : DataFrame) : DataFrame :=
  if n <? 0 then head (length df - Z.to_nat (- n)) df else head (Z.to_nat n) df.

(** [df.iloc[k:]]: positional slice, labels are kept. *)
Definition iloc_from (k : nat) (df : DataFrame) : DataFrame := skipn k df.

(** [reset_index(drop=True)]: labels become the positions 0, 1, 2, ... *)
Fixpoint label_from (start : Z) (rows : list Row) : DataFrame :=
  match rows with
  | [] => []
  | r :: rows' => (start, r) :: label_from (start + 1) rows'
  end.

Definition reset_index (rows : list Row) : DataFrame := label_from 0 rows.

(** The ranges fixed by [__init__]. *)
Definition range (lo hi : Z) : list Z :=
  map (fun i => lo + Z.of_nat i) (seq 0 (Z.to_nat (hi - lo))).

Definition main_numbers_range : list Z := range 1 49.
Definition lucky_ball_range : list Z := range 1 19.

(** The data invariant of a draw (checked by the repository's
    [TestDataIntegrity]): five pairwise distinct main numbers in 1..48 and a
    lucky ball in 1..18. *)
Definition well_formed_row (r : Row) : Prop :=
  NoDup (numbers_in_draw r) /\
  Forall (fun n => 1 <= n <= 48) (numbers_in_draw r) /\
  1 <= LuckyBall r <= 18.

(* ================================================================== *)
(** ** Counters and dictionaries (insertion-ordered) *)

Definition Counter : Type := list (Z * Z).

(** [c[k] += 1]: an existing key keeps its place, a new key goes last. *)
Fixpoint counter_incr (k : Z) (c : Counter) : Counter :=
  match c with
  | [] => [(k, 1)]
  | (k', v) :: c' =>
      if k =? k' then (k', v + 1) :: c' else (k', v) :: counter_incr k c'
  end.

(** [c[k]] on a [Counter]: a missing key counts 0. *)
Fixpoint counter_get (k : Z) (c : Counter) : Z :=
  match c with
  | [] => 0
  | (k', v) :: c' => if k =? k' then v else counter_get k c'
  end.

Definition counter_values (c : Counter) : list Z := map snd c.

(** [sum(c.values())] *)
Definition sum_values (c : Counter) : Z := fold_right Z.add 0 (counter_values c).

Section Dict.
Context {V : Type}.

Definition dict : Type := list (Z * V).

Fixpoint dict_get (k : Z) (d : dict) : option V :=
  match d with
  | [] => None
  | (k', v) :: d' => if k =? k' then Some v else dict_get k d'
  end.

(** [d[k] = v] *)
Fixpoint dict_set (k : Z) (v : V) (d : dict) : dict :=
  match d with
  | [] => [(k, v)]
  | (k', v') :: d' =>
      if k =? k' then (k', v) :: d' else (k', v') :: dict_set k v d'
  end.

(** [k in d] *)
Definition dict_mem (k : Z) (d : dict) : bool :=
  match dict_get k d with Some _ => true | None => false end.
End Dict.

Arguments dict V : clear implicits.

(* ================================================================== *)
(** ** Frequency engine *)

(** The body of the row loop shared by [frequency_analysis] and
    [recent_analysis]: five increments of the main counter, one of the
    lucky-ball counter. *)
Definition tally_row (acc : Counter * Counter) (lr : Z * Row) : Counter * Counter :=
  let '(main_freq, lucky_ball_freq) := acc in
  let row := snd lr in
  (fold_left (fun m n => counter_incr n m) (numbers_in_draw row) main_freq,
   counter_incr (LuckyBall row) lucky_ball_freq).

Definition frequency_analysis (df : DataFrame) : Counter * Counter :=
  fold_left tally_row df ([], []).

Definition recent_analysis (df : DataFrame) (last_n_draws : nat) : Counter * Counter :=
  let recent_df := head last_n_draws df in
  fold_left tally_row recent_df ([], []).

(* ================================================================== *)
(** ** Python built-ins used by the analyzer *)

Inductive exn : Type :=
| IndexError
| ValueError
| KeyError
| ZeroDivisionError.

Inductive result (A : Type) : Type :=
| Ok (a : A)
| Raise (e : exn).

Arguments Ok {A} a.
Arguments Raise {A} e.

Definition bind {A B : Type} (c : result A) (k : A -> result B) : result B :=
  match c with
  | Ok a => k a
  | Raise e => Raise e
  end.

Notation "x <- c ;; k" := (bind c (fun x => k))
  (at level 61, c at next level, right associativity).

(** [l[i]] for a non-negative literal [i]. *)
Definition index {A : Type} (l : list A) (i : nat) : result A :=
  match nth_error l i with
  | Some a => Ok a
  | None => Raise IndexError
  end.

Section StableSort.
Context {A : Type}.
(** [before y x]: [y] sorts strictly before [x]. *)
Variable before : A -> A -> bool.

Fixpoint insert_by (x : A) (l : list A) : list A :=
  match l with
  | [] => [x]
  | y :: l' => if before y x then y :: insert_by x l' else x :: y :: l'
  end.

(** Stable sort: among elements neither of which sorts strictly before
    the other, the original order is kept, as [sorted] does (also with
    [reverse=True]). *)
Definition sort_by (l : list A) : list A := fold_right insert_by [] l.
End StableSort.

(** [sorted(l)] on integers. *)
Definition sorted (l : list Z) : list Z := sort_by (fun y x => y <? x) l.

(** [sorted(c.items(), key=lambda x: x[1])] *)
Definition sorted_by_count (c : Counter) : list (Z * Z) :=
  sort_by (fun y x => snd y <? snd x) c.

(** [c.most_common(n)]: [sorted(c.items(), key=itemgetter(1), reverse=True)[:n]];
    [heapq.nlargest] breaks ties the same way. *)
Definition most_common (n : nat) (c : Counter) : list (Z * Z) :=
  firstn n (sort_by (fun y x => snd x <? snd y) c).

(** [max(l, key=key)]: the first maximal element; [ValueError] on an empty
    sequence. *)
Fixpoint max_from {A : Type} (key : A -> Z) (best : A) (l : list A) : A :=
  match l with
  | [] => best
  | x :: l' => max_from key (if key best <? key x then x else best) l'
  end.

Definition py_max {A : Type} (key : A -> Z) (l : list A) : result A :=
  match l with
  | [] => Raise ValueError
  | x :: l' => Ok (max_from key x l')
  end.

(** [x in l] *)
Definition mem (x : Z) (l : list Z) : bool := existsb (Z.eqb x) l.

(** [len(set(a) & set(b))] *)
Definition set_of (l : list Z) : list Z := nodup Z.eq_dec l.

Definition inter_size (a b : list Z) : Z :=
  Z.of_nat (length (filter (fun x => mem x b) (set_of a))).

(* ------------------------------------------------------------------ *)
(** *** Rational arithmetic standing in for floats *)

Definition Qltb (a b : Q) : bool := (Qnum a * QDen b <? Qnum b * QDen a)%Z.

(** Round to the nearest integer, ties to even. *)
Definition round_half_even (q : Q) : Z :=
  let f := Qfloor q in
  let twice_rem := (2 * (q - inject_Z f))%Q in
  if Qltb twice_rem 1 then f
  else if Qltb 1 twice_rem then f + 1
  else if Z.even f then f else f + 1.

(** [round(q, d)] *)
Definition round_decimals (d : nat) (q : Q) : Q :=
  let scale := (10 ^ Z.of_nat d)%Z in
  Qred (inject_Z (round_half_even (q * inject_Z scale)) / inject_Z scale).

(** A float that may be [float('inf')]. *)
Inductive efloat : Type :=
| Finite (q : Q)
| Infinity.

(** [np.mean(gap_list)] of a non-empty list of integers. *)
Definition mean (l : list Z) : Q :=
  Qred (Qmake (fold_right Z.add 0 l) (Pos.of_nat (length l))).

(* ================================================================== *)
(** ** Gap and overdue analyzer *)

(** [gaps[num].append(g)] on a [defaultdict(list)]. *)
Definition gaps_append (num g : Z) (gaps : dict (list Z)) : dict (list Z) :=
  match dict_get num gaps with
  | Some l => dict_set num (l ++ [g]) gaps
  | None => dict_set num [g] gaps
  end.

(** Inner loop body of [gap_analysis] for one number of the draw at
    label [idx]. *)
Definition gap_step (idx : Z) (st : dict Z * dict (list Z)) (num : Z)
  : dict Z * dict (list Z) :=
  let '(last_seen, gaps) := st in
  let gaps' :=
    match dict_get num last_seen with
    | Some seen => gaps_append num (idx - seen) gaps
    | None => gaps
    end in
  (dict_set num idx last_seen, gaps').

(** The row loop of [gap_analysis]: the final [last_seen] and [gaps]. *)
Definition gap_scan (df : DataFrame) : dict Z * dict (list Z) :=
  fold_left (fun st lr => fold_left (gap_step (fst lr)) (numbers_in_draw (snd lr)) st)
            df ([], []).

Definition gap_analysis (df : DataFrame) : dict efloat * dict Z :=
  let '(last_seen, gaps) := gap_scan df in
  let avg_gaps :=
    map (fun ng : Z * list Z =>
           let '(num, gap_list) := ng in
           (num, match gap_list with
                 | [] => Infinity
                 | _ :: _ => Finite (mean gap_list)
                 end)) gaps in
  let current_gap :=
    map (fun num =>
           (num, match dict_get num last_seen with
                 | Some seen => 0 - seen
                 | None => Z.of_nat (length df)
                 end)) main_numbers_range in
  (avg_gaps, current_gap).

Record OverdueEntry : Type := mkOverdue {
  current_gap : Z;
  avg_gap : Q;
  ratio : Q
}.

(** One iteration of the loop of [get_overdue_numbers].  With a positive
    multiplier, [current > inf * multiplier] is false. *)
Definition overdue_step (avg_gaps : dict efloat) (current_gaps : dict Z)
           (threshold_multiplier : Q) (overdue : dict OverdueEntry) (num : Z)
  : dict OverdueEntry :=
  match dict_get num avg_gaps, dict_get num current_gaps with
  | Some avg, Some cg =>
      let current := Z.abs cg in
      match avg with
      | Finite a =>
          if Qltb (a * threshold_multiplier) (inject_Z current) then
            dict_set num {| current_gap := current;
                            avg_gap := round_decimals 1 a;
                            ratio := round_decimals 2 (inject_Z current / a) |}
                     overdue
          else overdue
      | Infinity => overdue
      end
  | _, _ => overdue
  end.

Definition get_overdue_numbers (df : DataFrame) (threshold_multiplier : Q)
  : dict OverdueEntry :=
  let '(avg_gaps, current_gaps) := gap_analysis df in
  fold_left (overdue_step avg_gaps current_gaps threshold_multiplier)
            main_numbers_range [].

(* ================================================================== *)
(** ** Strategy engine *)

Record Recommendation : Type := mkRec {
  main_numbers : list Z;
  lucky_ball : list Z;
  reasoning : string
}.

(** [_get_overdue_lucky_ball]: the first label at which each lucky ball is
    met, then the ball whose label has the largest absolute value. *)
Definition get_overdue_lucky_ball (df : DataFrame) : result Z :=
  let last_seen :=
    fold_left (fun (seen : dict Z) (lr : Z * Row) =>
                 let lb := LuckyBall (snd lr) in
                 if dict_mem lb seen then seen else dict_set lb (fst lr) seen)
              df [] in
  overdue_lb <- py_max (fun x : Z * Z => Z.abs (snd x)) last_seen ;;
  Ok (fst overdue_lb).

(** [sorted(overdue.items(), key=lambda x: x[1]['ratio'], reverse=True)] *)
Definition overdue_sorted (overdue : dict OverdueEntry) : list (Z * OverdueEntry) :=
  sort_by (fun y x => Qltb (ratio (snd x)) (ratio (snd y))) overdue.

(** [{n: main_freq[n] for n in region if n in main_freq}] *)
Definition region_freq (region : list Z) (main_freq : Counter) : Counter :=
  map (fun n => (n, counter_get n main_freq))
      (filter (fun n => dict_mem n main_freq) region).

(** The [for ... break] loop that appends the first recent-hot number not
    yet selected. *)
Fixpoint append_first_new (candidates selected : list Z) : list Z :=
  match candidates with
  | [] => selected
  | num :: rest =>
      if negb (mem num selected) then selected ++ [num]
      else append_first_new rest selected
  end.

(** [selected.extend([n for n in nums if n not in selected][:k])] *)
Definition extend_new (k : nat) (nums selected : list Z) : list Z :=
  selected ++ firstn k (filter (fun n => negb (mem n selected)) nums).

Definition generate_recommendations (df : DataFrame) (strategy : string)
  : result Recommendation :=
  let '(main_freq, lucky_freq) := frequency_analysis df in
  let '(recent_main, recent_lucky) := recent_analysis df 50 in
  let overdue := get_overdue_numbers df (3 # 2) in
  if (strategy =? "hot")%string then
    let hot_numbers := map fst (most_common 10 main_freq) in
    top <- index (most_common 1 lucky_freq) 0 ;;
    Ok {| main_numbers := firstn 5 hot_numbers;
          lucky_ball := [fst top];
          reasoning := "Hot numbers: Most frequently drawn overall" |}
  else if (strategy =? "cold")%string then
    let cold_numbers := map fst (firstn 10 (sorted_by_count main_freq)) in
    bottom <- index (sorted_by_count lucky_freq) 0 ;;
    Ok {| main_numbers := firstn 5 cold_numbers;
          lucky_ball := [fst bottom];
          reasoning := "Cold numbers: Least frequently drawn" |}
  else if (strategy =? "overdue")%string then
    let picked := map fst (firstn 5 (overdue_sorted overdue)) in
    lb <- get_overdue_lucky_ball df ;;
    Ok {| main_numbers := picked;
          lucky_ball := [lb];
          reasoning := "Overdue numbers: Haven't appeared in longer than average" |}
  else if (strategy =? "recent_hot")%string then
    let hot_recent := map fst (most_common 10 recent_main) in
    top <- index (most_common 1 recent_lucky) 0 ;;
    Ok {| main_numbers := firstn 5 hot_recent;
          lucky_ball := [fst top];
          reasoning := "Recent hot: Most frequent in last 50 draws" |}
  else if (strategy =? "jackpot_spread")%string then
    let low_freq := region_freq (range 1 13) main_freq in
    let mid_low_freq := region_freq (range 13 25) main_freq in
    let mid_high_freq := region_freq (range 25 37) main_freq in
    let high_freq := region_freq (range 37 49) main_freq in
    s1 <- py_max snd low_freq ;;
    s2 <- py_max snd mid_low_freq ;;
    s3 <- py_max snd mid_high_freq ;;
    s4 <- py_max snd high_freq ;;
    let selected := [fst s1; fst s2; fst s3; fst s4] in
    let selected := append_first_new (map fst (most_common 20 recent_main)) selected in
    top <- index (most_common 1 lucky_freq) 0 ;;
    Ok {| main_numbers := sorted (firstn 5 selected);
          lucky_ball := [fst top];
          reasoning := "Jackpot spread: Maximum coverage across number ranges" |}
  else
    let hot_nums := map fst (most_common 15 main_freq) in
    let overdue_nums := map fst (firstn 10 (overdue_sorted overdue)) in
    let recent_nums := map fst (most_common 10 recent_main) in
    let selected := extend_new 2 hot_nums [] in
    let selected := extend_new 2 overdue_nums selected in
    let selected := extend_new 1 recent_nums selected in
    second <- index (most_common 3 lucky_freq) 1 ;;
    Ok {| main_numbers := firstn 5 selected;
          lucky_ball := [fst second];
          reasoning := "Balanced: Mix of hot, overdue, and recent numbers" |}.

Record NumberSet : Type := mkSet {
  set_number : Z;
  set_strategy : string;
  set_numbers : list Z;
  set_lucky_ball : Z;
  set_reasoning : string
}.

(** The loop of [generate_multiple_sets] over [enumerate(..., 1)]. *)
Fixpoint multiple_sets_from (df : DataFrame) (i : Z) (strategies : list string)
  : result (list NumberSet) :=
  match strategies with
  | [] => Ok []
  | strategy :: rest =>
      rec <- generate_recommendations df strategy ;;
      lb <- index (lucky_ball rec) 0 ;;
      sets <- multiple_sets_from df (i + 1) rest ;;
      Ok ({| set_number := i;
             set_strategy := strategy;
             set_numbers := sorted (main_numbers rec);
             set_lucky_ball := lb;
             set_reasoning := reasoning rec |} :: sets)
  end.

(** [generate_multiple_sets(num_sets, strategies)]; [None] stands for the
    default strategy list. *)
Definition generate_multiple_sets (df : DataFrame) (num_sets : nat)
           (strategies : option (list string)) : result (list NumberSet) :=
  let strategies :=
    match strategies with
    | None => ["balanced"; "hot"; "overdue"]%string
    | Some l => l
    end in
  multiple_sets_from df 1 (firstn num_sets strategies).

(* ================================================================== *)
(** ** Prize evaluator *)

(** The [if/elif] cascade of [check_ticket]: prize in dollars and its
    description.  The two top tiers keep [prize = 0.00]. *)
Definition ticket_prize (main_matches : Z) (lucky_match : bool) : Z * string :=
  if (main_matches =? 5) && lucky_match then (0, "JACKPOT! $1,000/Day for Life"%string)
  else if main_matches =? 5 then (0, "2nd Prize! $25,000/Year for Life"%string)
  else if (main_matches =? 4) && lucky_match then (5000, "$5,000"%string)
  else if main_matches =? 4 then (200, "$200"%string)
  else if (main_matches =? 3) && lucky_match then (150, "$150"%string)
  else if main_matches =? 3 then (20, "$20"%string)
  else if (main_matches =? 2) && lucky_match then (25, "$25"%string)
  else if main_matches =? 2 then (3, "$3"%string)
  else if (main_matches =? 1) && lucky_match then (6, "$6"%string)
  else if lucky_match then (4, "$4"%string)
  else (0, "No win"%string).

(** The cascade inside the loop of [backtest_strategies]. *)
Definition backtest_prize (main_matches : Z) (lucky_match : bool) : Z :=
  if (main_matches =? 5) && lucky_match then 1000000
  else if main_matches =? 5 then 25000
  else if (main_matches =? 4) && lucky_match then 5000
  else if main_matches =? 4 then 200
  else if (main_matches =? 3) && lucky_match then 150
  else if main_matches =? 3 then 20
  else if (main_matches =? 2) && lucky_match then 25
  else if main_matches =? 2 then 3
  else if (main_matches =? 1) && lucky_match then 6
  else if lucky_match then 4
  else 0.

Record CheckResult : Type := mkCheck {
  res_main_matches : Z;
  res_lucky_match : bool;
  res_prize : Z;
  res_prize_description : string;
  res_winning_numbers : list Z;
  res_winning_lucky : Z;
  res_your_numbers : list Z;
  res_your_lucky : Z
}.

(** [self.df[self.df['Date'] == date]] *)
Definition rows_on (date : Z) (df : DataFrame) : DataFrame :=
  filter (fun lr => Date (snd lr) =? date) df.

(** [check_ticket]: the Python pair [(result, error)]. *)
Definition check_ticket (df : DataFrame) (numbers : list Z) (lucky : Z)
           (drawing_date : Z) : option CheckResult * option string :=
  match rows_on drawing_date df with
  | [] => (None, Some "Drawing date not found"%string)
  | (_, drawing) :: _ =>
      let winning_numbers := numbers_in_draw drawing in
      let winning_lucky := LuckyBall drawing in
      let main_matches := inter_size numbers winning_numbers in
      let lucky_match := lucky =? winning_lucky in
      let '(prize, prize_description) := ticket_prize main_matches lucky_match in
      (Some {| res_main_matches := main_matches;
               res_lucky_match := lucky_match;
               res_prize := prize;
               res_prize_description := prize_description;
               res_winning_numbers := winning_numbers;
               res_winning_lucky := winning_lucky;
               res_your_numbers := numbers;
               res_your_lucky := lucky |},
       None)
  end.

(** The analyzer object: its only mutable attribute is [df] (the two ranges
    are constants).  A method call is a state transformer on it. *)
Record Analyzer : Type := mkAnalyzer { df : DataFrame }.

Definition method (A : Type) : Type := Analyzer -> A * Analyzer.

(** [self.check_ticket(numbers, lucky_ball, drawing_date)]: reads [self.df],
    assigns nothing. *)
Definition check_ticket_method (numbers : list Z) (lucky : Z) (drawing_date : Z)
  : method (option CheckResult * option string) :=
  fun self => (check_ticket (df self) numbers lucky drawing_date, self).

(* ================================================================== *)
(** ** Walk-forward backtester *)

Record StrategyResult : Type := mkResult {
  wins : Z;
  total_prize : Z;
  tickets : Z;
  matches_dist : Counter
}.

(** [strategy_results]: a dict keyed by strategy name. *)
Definition Results : Type := list (string * StrategyResult).

Fixpoint results_get (s : string) (d : Results) : option StrategyResult :=
  match d with
  | [] => None
  | (s', r) :: d' => if (s =? s')%string then Some r else results_get s d'
  end.

Fixpoint results_set (s : string) (r : StrategyResult) (d : Results) : Results :=
  match d with
  | [] => [(s, r)]
  | (s', r') :: d' =>
      if (s =? s')%string then (s', r) :: d' else (s', r') :: results_set s r d'
  end.

(** [{s: {'wins': 0, 'total_prize': 0, 'tickets': 0, 'matches_dist': Counter()}
      for s in strategies}] *)
Definition initial_results (strategies : list string) : Results :=
  fold_left (fun d s => results_set s {| wins := 0; total_prize := 0;
                                         tickets := 0; matches_dist := [] |} d)
            strategies [].

(** The minimum number of draws a suffix must hold to be simulated. *)
Definition min_history : nat := 50.

(** Body of [for strategy in strategies]: recommend from [historical_data]
    only, score against the actual draw, accumulate. *)
Definition backtest_strategy (historical_data : DataFrame)
           (winning_numbers : list Z) (winning_lucky : Z)
           (strategy_results : Results) (strategy : string) : result Results :=
  rec <- generate_recommendations historical_data strategy ;;
  let predicted_numbers := main_numbers rec in
  predicted_lucky <- index (lucky_ball rec) 0 ;;
  let main_matches := inter_size predicted_numbers winning_numbers in
  let lucky_match := predicted_lucky =? winning_lucky in
  let prize := backtest_prize main_matches lucky_match in
  match results_get strategy strategy_results with
  | None => Raise KeyError
  | Some r =>
      Ok (results_set strategy
            {| wins := if 0 <? prize then wins r + 1 else wins r;
               total_prize := total_prize r + prize;
               tickets := tickets r + 1;
               matches_dist := counter_incr main_matches (matches_dist r) |}
            strategy_results)
  end.

(** A left fold whose step may raise. *)
Fixpoint foldM {A B : Type} (f : A -> B -> result A) (l : list B) (a : A)
  : result A :=
  match l with
  | [] => Ok a
  | b :: l' => a' <- f a b ;; foldM f l' a'
  end.

(** Body of [for idx in range(len(test_draws))]. *)
Definition backtest_index (full : DataFrame) (test_draws : DataFrame)
           (strategies : list string) (strategy_results : Results) (idx : nat)
  : result Results :=
  let historical_data := iloc_from (idx + 1) full in
  if (length historical_data <? min_history)%nat then Ok strategy_results
  else
    actual_draw <- index test_draws idx ;;
    let winning_numbers := numbers_in_draw (snd actual_draw) in
    let winning_lucky := LuckyBall (snd actual_draw) in
    foldM (backtest_strategy historical_data winning_numbers winning_lucky)
          strategies strategy_results.

(** The report loop divides [wins] by [tickets] for every strategy. *)
Definition report_strategy (strategy_results : Results) (_ : unit)
           (strategy : string) : result unit :=
  match results_get strategy strategy_results with
  | None => Raise KeyError
  | Some r => if tickets r =? 0 then Raise ZeroDivisionError else Ok tt
  end.

(** Net result in dollars, the key of the final [max]. *)
Definition net_result (sr : string * StrategyResult) : Z :=
  total_prize (snd sr) - tickets (snd sr) * 2.

Definition backtest_strategies (full : DataFrame) (lookback_draws : Z)
           (strategies : option (list string)) : result Results :=
  let strategies :=
    match strategies with
    | None => ["balanced"; "hot"; "overdue"; "recent_hot"]%string
    | Some l => l
    end in
  let strategy_results := initial_results strategies in
  let test_draws := head_signed lookback_draws full in
  strategy_results <-
    foldM (backtest_index full test_draws strategies)
          (seq 0 (length test_draws)) strategy_results ;;
  _ <- foldM (report_strategy strategy_results) strategies tt ;;
  _ <- py_max net_result strategy_results ;;
  Ok strategy_results.

(** The recommendation that the backtest scores against the draw at
    position [idx]: it is computed by a temporary analyzer whose [df] is
    [self.df.iloc[idx+1:]]. *)
Definition backtest_recommendation (full : DataFrame) (idx : nat)
           (strategy : string) : result Recommendation :=
  generate_recommendations (iloc_from (idx + 1) full) strategy.

(** The frame built by [__init__] from the rows of the file, already in
    most-recent-first order. *)
Definition load (rows : list Row) : Analyzer := {| df := reset_index rows |}.

(* ================================================================== *)
(** ** Reference notions and concrete histories *)

(** Position of the first row of a frame that holds [num]: with the frame in
    most-recent-first order this is the number of draws since [num] was last
    seen.  [None] when no row holds it. *)
Fixpoint draws_since_last_seen (num : Z) (rows : list Row) : option Z :=
  match rows with
  | [] => None
  | r :: rows' =>
      if mem num (numbers_in_draw r) then Some 0
      else option_map Z.succ (draws_since_last_seen num rows')
  end.

(** Boolean form of [well_formed_row]. *)
Fixpoint distinctb (l : list Z) : bool :=
  match l with
  | [] => true
  | x :: l' => negb (mem x l') && distinctb l'
  end.

Definition well_formed_rowb (r : Row) : bool :=
  distinctb (numbers_in_draw r)
  && forallb (fun n => (1 <=? n) && (n <=? 48)) (numbers_in_draw r)
  && (1 <=? LuckyBall r) && (LuckyBall r <=? 18).

(** How many times [num] is drawn in a frame. *)
Definition appearances (num : Z) (frame : DataFrame) : nat :=
  fold_right (fun lr acc => (count_occ Z.eq_dec (numbers_in_draw (snd lr)) num + acc)%nat)
             0%nat frame.

(** State of the scan after [c] appearances of [n]: [n] is in [last_seen]
    from the first appearance on, in [gaps] from the second on, and no
    recorded gap list is empty. *)
Definition scanned (n : Z) (c : nat) (st : dict Z * dict (list Z)) : Prop :=
  dict_mem n (fst st) = (1 <=? c)%nat /\
  dict_mem n (snd st) = (2 <=? c)%nat /\
  (forall l, dict_get n (snd st) = Some l -> l <> []).

(** Label of the last row of a frame (the oldest draw) that holds [num]. *)
Fixpoint oldest_label (num : Z) (frame : DataFrame) : option Z :=
  match frame with
  | [] => None
  | (label, r) :: rest =>
      match oldest_label num rest with
      | Some l => Some l
      | None => if mem num (numbers_in_draw r) then Some label else None
      end
  end.

(** The entry that one iteration of [get_overdue_numbers] stores for [num],
    if it stores one. *)
Definition overdue_entry (avg_gaps : dict efloat) (current_gaps : dict Z)
           (threshold_multiplier : Q) (num : Z) : option OverdueEntry :=
  match dict_get num avg_gaps, dict_get num current_gaps with
  | Some (Finite a), Some cg =>
      let current := Z.abs cg in
      if Qltb (a * threshold_multiplier) (inject_Z current) then
        Some {| current_gap := current;
                avg_gap := round_decimals 1 a;
                ratio := round_decimals 2 (inject_Z current / a) |}
      else None
  | _, _ => None
  end.

(** The tickets recorded for a strategy, when the strategy is a key. *)
Definition tickets_of (s : string) (d : Results) : option Z :=
  option_map tickets (results_get s d).

(** The guard of the backtest loop, negated: position [idx] is simulated
    when the frame holds at least [min_history] rows after it. *)
Definition simulated (full : DataFrame) (idx : nat) : bool :=
  negb (length (iloc_from (idx + 1) full) <? min_history)%nat.

(** The three-draw data set that the test fixture writes when the CSV file
    is absent (dates as yyyymmdd day numbers). *)
Definition fixture_rows : list Row :=
  [ mkRow 20260121 3 10 22 32 38 11;
    mkRow 20260120 6 9 28 41 45 8;
    mkRow 20260119 5 17 22 42 48 16 ].

Definition fixture : Analyzer := load fixture_rows.

(** Three consecutive draws that all hold the number 7. *)
Definition streak_rows : list Row :=
  [ mkRow 20260103 7 1 2 3 4 1;
    mkRow 20260102 7 11 12 13 14 2;
    mkRow 20260101 7 21 22 23 24 3 ].

(** Fifty older draws: 1, 2, 3, 4 in every draw; the fifth number is 6 at
    positions 0 and 2 and otherwise a number met at most twice, far apart. *)
Definition fifth_number (p : nat) : Z :=
  match p with
  | 0%nat => 6
  | 1%nat => 5
  | 2%nat => 6
  | 45%nat => 5
  | 46%nat => 7
  | 47%nat => 8
  | 48%nat => 9
  | 49%nat => 10
  | _ => Z.of_nat p + 4
  end.

Definition older_rows : list Row :=
  map (fun p => mkRow (1000 - Z.of_nat p) 1 2 3 4 (fifth_number p)
                      (1 + Z.of_nat (p mod 18)))
      (seq 0 50).

Definition target_row : Row := mkRow 1001 1 2 3 6 20 5.
Definition newest_row : Row := mkRow 1002 11 12 13 14 15 9.

(** A 52-draw history, and the same history without its newest draw. *)
Definition history_full : Analyzer := load (newest_row :: target_row :: older_rows).
Definition history_trimmed : Analyzer := load (target_row :: older_rows).

(* ================================================================== *)
(** ** Positional and pair tables *)

(** [int(row[f'Number {i}'])] for a column number [i]. *)
Definition number_at (row : Row) (i : Z) : Z :=
  nth (Z.to_nat (i - 1)) (numbers_in_draw row) 0.

(** [position_freq[i][int(row[f'Number {i}'])] += 1]; the keys 1..5 are in
    the table from the start. *)
Definition position_step (row : Row) (position_freq : dict Counter) (i : Z)
  : dict Counter :=
  match dict_get i position_freq with
  | Some c => dict_set i (counter_incr (number_at row i) c) position_freq
  | None => position_freq
  end.

Definition positional_analysis (frame : DataFrame) : dict Counter :=
  let position_freq := map (fun i => (i, [] : Counter)) (range 1 6) in
  fold_left (fun pf lr => fold_left (position_step (snd lr)) (range 1 6) pf)
            frame position_freq.

(** A [Counter] keyed by pairs of numbers. *)
Definition PairCounter : Type := list ((Z * Z) * Z).

Definition pair_eqb (p q : Z * Z) : bool :=
  (fst p =? fst q) && (snd p =? snd q).

Fixpoint pair_incr (k : Z * Z) (c : PairCounter) : PairCounter :=
  match c with
  | [] => [(k, 1)]
  | (k', v) :: c' =>
      if pair_eqb k k' then (k', v + 1) :: c' else (k', v) :: pair_incr k c'
  end.

(** The two nested index loops over a list: every [(numbers[i], numbers[j])]
    with [i < j], in loop order. *)
Fixpoint pairs_of (numbers : list Z) : list (Z * Z) :=
  match numbers with
  | [] => []
  | x :: rest => map (fun y => (x, y)) rest ++ pairs_of rest
  end.

Definition pair_analysis (frame : DataFrame) : PairCounter :=
  fold_left (fun pair_freq lr =>
               let numbers := sorted (numbers_in_draw (snd lr)) in
               fold_left (fun c p => pair_incr p c) (pairs_of numbers) pair_freq)
            frame [].

(** How many rows carry [lb] as their lucky ball. *)
Definition lucky_appearances (lb : Z) (frame : DataFrame) : nat :=
  length (filter (fun lr => LuckyBall (snd lr) =? lb) frame).

(** How many rows carry [num] in column [i]. *)
Definition appearances_at (i num : Z) (frame : DataFrame) : nat :=
  length (filter (fun lr => number_at (snd lr) i =? num) frame).


(** [sum(pair_freq.values())] *)
Definition pair_sum_values (c : PairCounter) : Z :=
  fold_right Z.add 0 (map snd c).

(** The invariant of a [Counter] built by increments: every key once, every
    stored count at least 1. *)
Definition counter_ok (c : Counter) : Prop :=
  NoDup (map fst c) /\ Forall (fun kv => 1 <= snd kv) c.


(** What every returned recommendation satisfies with respect to the slice
    it was computed from: at most five main numbers, pairwise distinct, each
    drawn in the slice, and one lucky ball that was drawn in the slice. *)
Definition valid_pick (frame : DataFrame) (rec : Recommendation) : Prop :=
  NoDup (main_numbers rec) /\
  (length (main_numbers rec) <= 5)%nat /\
  (forall x, In x (main_numbers rec) -> (0 < appearances x frame)%nat) /\
  exists lb, lucky_ball rec = [lb] /\ (0 < lucky_appearances lb frame)%nat.


(** Label of the first row of a frame (the most recent draw) that holds
    [num]. *)
Fixpoint newest_label (num : Z) (frame : DataFrame) : option Z :=
  match frame with
  | [] => None
  | (label, r) :: rest =>
      if mem num (numbers_in_draw r) then Some label else newest_label num rest
  end.

(** What the scan of [gap_analysis] has met of one number: the label of its
    first and of its latest appearance and the number of appearances. *)
Definition bump (idx : Z) (s : option (Z * Z * nat)) : option (Z * Z * nat) :=
  match s with
  | None => Some (idx, idx, 1%nat)
  | Some (f, _, c) => Some (f, idx, S c)
  end.

Definition frame_summary (n : Z) (frame : DataFrame) (s : option (Z * Z * nat))
  : option (Z * Z * nat) :=
  fold_left
    (fun s lr =>
       Nat.iter (count_occ Z.eq_dec (numbers_in_draw (snd lr)) n) (bump (fst lr)) s)
    frame s.

(** The scan state agrees with a summary: [last_seen] holds the latest
    label, and from the second appearance on [gaps] holds one gap per
    further appearance, adding up to the distance between the latest and
    the first label. *)
Definition summary_ok (n : Z) (s : option (Z * Z * nat))
           (st : dict Z * dict (list Z)) : Prop :=
  match s with
  | None => dict_get n (fst st) = None /\ dict_get n (snd st) = None
  | Some (f, l, c) =>
      dict_get n (fst st) = Some l /\
      ((c = 1%nat /\ f = l /\ dict_get n (snd st) = None) \/
       (exists g, dict_get n (snd st) = Some g /\
                  S (length g) = c /\ g <> [] /\
                  fold_right Z.add 0 g = l - f))
  end.


(** What the accumulation of [backtest_strategies] keeps true of one
    strategy's record. *)
Definition result_ok (r : StrategyResult) : Prop :=
  sum_values (matches_dist r) = tickets r /\
  0 <= wins r <= tickets r /\
  0 <= total_prize r <= 1000000 * tickets r /\
  Forall (fun kv => 0 <= fst kv <= 5 /\ 1 <= snd kv) (matches_dist r).

Definition results_ok (d : Results) : Prop :=
  NoDup (map fst d) /\ Forall (fun sr => result_ok (snd sr)) d.


(* ================================================================== *)
(** ** Ticket ledger *)

(** A saved ticket.  [date_played] is kept as the day it denotes; the JSON
    file is the list of tickets it holds, [None] when the file is absent. *)
Record Ticket : Type := mkTicket {
  ticket_date_played : Z;
  ticket_numbers : list Z;
  ticket_lucky_ball : Z;
  ticket_strategy : string;
  ticket_cost : Q;
  ticket_result : option CheckResult;
  ticket_winnings : Z
}.

Definition TicketFile : Type := option (list Ticket).

(** [save_ticket]: the returned ticket and the new content of the file. *)
Definition save_ticket (numbers : list Z) (lucky : Z) (strategy : string)
           (date_played : Z) (cost : Q) (ticket_file : TicketFile)
  : Ticket * TicketFile :=
  let ticket := {| ticket_date_played := date_played;
                   ticket_numbers := sorted numbers;
                   ticket_lucky_ball := lucky;
                   ticket_strategy := strategy;
                   ticket_cost := cost;
                   ticket_result := None;
                   ticket_winnings := 0 |} in
  let tickets := match ticket_file with
                 | Some saved => saved
                 | None => []
                 end in
  (ticket, Some (tickets ++ [ticket])).

(** [self.df[self.df['Date'] >= play_date].sort_values('Date')] *)
Definition next_drawings (frame : DataFrame) (play_date : Z) : DataFrame :=
  sort_by (fun y x => Date (snd y) <? Date (snd x))
          (filter (fun lr => play_date <=? Date (snd lr)) frame).

(** Body of the loop of [check_all_tickets] for one ticket: the entry it
    appends to [results], if any. *)
Definition check_saved_ticket (frame : DataFrame) (ticket : Ticket) : option Ticket :=
  match rev (next_drawings frame (ticket_date_played ticket)) with
  | [] => None
  | (_, latest) :: _ =>
      let drawing_date := Date latest in
      match check_ticket frame (ticket_numbers ticket) (ticket_lucky_ball ticket)
                         drawing_date with
      | (Some result, _) =>
          Some {| ticket_date_played := ticket_date_played ticket;
                  ticket_numbers := ticket_numbers ticket;
                  ticket_lucky_ball := ticket_lucky_ball ticket;
                  ticket_strategy := ticket_strategy ticket;
                  ticket_cost := ticket_cost ticket;
                  ticket_result := Some result;
                  ticket_winnings := res_prize result |}
      | (None, _) => None
      end
  end.

(** [check_all_tickets]: the returned [results]. *)
Definition check_all_tickets (frame : DataFrame) (ticket_file : TicketFile)
  : list Ticket :=
  match ticket_file with
  | None => []
  | Some tickets =>
      fold_left (fun results ticket =>
                   match check_saved_ticket frame ticket with
                   | Some entry => results ++ [entry]
                   | None => results
                   end)
                tickets []
  end.

(** The result of scoring a ticket against one given draw. *)
Definition score_against (drawing : Row) (numbers : list Z) (lucky : Z) : CheckResult :=
  let main_matches := inter_size numbers (numbers_in_draw drawing) in
  let lucky_match := lucky =? LuckyBall drawing in
  {| res_main_matches := main_matches;
     res_lucky_match := lucky_match;
     res_prize := fst (ticket_prize main_matches lucky_match);
     res_prize_description := snd (ticket_prize main_matches lucky_match);
     res_winning_numbers := numbers_in_draw drawing;
     res_winning_lucky := LuckyBall drawing;
     res_your_numbers := numbers;
     res_your_lucky := lucky |}.

(** The loop body of [_get_overdue_lucky_ball]. *)
Definition overdue_lucky_step (seen : dict Z) (lr : Z * Row) : dict Z :=
  let lb := LuckyBall (snd lr) in
  if dict_mem lb seen then seen else dict_set lb (fst lr) seen.

(** Label of the first row of a frame (the most recent draw) that carries
    the lucky ball [lb]. *)
Fixpoint lucky_newest_label (lb : Z) (frame : DataFrame) : option Z :=
  match frame with
  | [] => None
  | (label, r) :: rest =>
      if LuckyBall r =? lb then Some label else lucky_newest_label lb rest
  end.

(* ================================================================== *)
(** ** Web interface ([web_app.py]) *)

(** The JSON body of a successful [GET /api/recommendations/<strategy>]. *)
Record RecommendationJson : Type := mkRecJson {
  json_numbers : list Z;
  json_lucky_ball : Z;
  json_strategy : string
}.

(** The response of the route: status 200 with the body, or status 400 with
    the exception that the [try] block caught. *)
Inductive Response : Type :=
| Success (body : RecommendationJson)
| Failure (error : exn).

(** [get_recommendations(strategy)]: the pick of
    [ANALYZER.generate_recommendations(strategy)] is handed on as it is,
    ['numbers': rec['main_numbers']]. *)
Definition get_recommendations (ANALYZER : Analyzer) (strategy : string)
  : Response :=
  match (rec <- generate_recommendations (df ANALYZER) strategy ;;
         lb <- index (lucky_ball rec) 0 ;;
         Ok {| json_numbers := main_numbers rec;
               json_lucky_ball := lb;
               json_strategy := reasoning rec |}) with
  | Ok body => Success body
  | Raise error => Failure error
  end.

(* ================================================================== *)
(** ** Jackpot coverage portfolio *)

Record CoverageTicket : Type := mkCoverage {
  coverage_numbers : list Z;
  coverage_lucky_ball : Z;
  coverage_strategy : string;
  coverage_reasoning : string
}.

(** [int(x)] on a finite float: truncation toward zero. *)
Definition int_of_float (x : Q) : Z := Z.quot (Qnum x) (Z.pos (Qden x)).

(** [l[i] = v] for a non-negative literal [i]. *)
Definition setitem (l : list Z) (i : nat) (v : Z) : result (list Z) :=
  if (i <? length l)%nat then Ok (firstn i l ++ v :: skipn (S i) l)
  else Raise IndexError.

(** [t in used_combinations], a set of tuples. *)
Definition in_used (t : list Z) (used_combinations : list (list Z)) : bool :=
  existsb (fun u => if list_eq_dec Z.eq_dec u t then true else false)
          used_combinations.

(** How a [while] loop ends: it exits with its state, or its state has
    stopped changing while its condition holds and it never exits. *)
Inductive loop (A : Type) : Type :=
| Exits (a : A)
| Spins.

Arguments Exits {A} a.
Arguments Spins {A}.

(** The [while] loop on ticket 2.  The value its body assigns to position 4
    does not depend on the loop state ([tickets] and [recent_main] are not
    changed by the loop), so after one pass the state is fixed. *)
Definition vary_fifth (used_combinations : list (list Z)) (recent_main : Counter)
           (tickets : list CoverageTicket) (numbers : list Z)
  : result (loop (list Z)) :=
  if in_used (sorted numbers) used_combinations then
    swap <- index (most_common 15 recent_main) (length tickets + 5) ;;
    numbers <- setitem numbers 4 (fst swap) ;;
    Ok (if in_used (sorted numbers) used_combinations then Spins
        else Exits numbers)
  else Ok (Exits numbers).

(** The loop of ticket 5 that tops [selected] up to five numbers. *)
Fixpoint fill_selected (candidates selected : list Z) : list Z :=
  match candidates with
  | [] => selected
  | num :: rest =>
      fill_selected rest
        (if negb (mem num selected) && (length selected <? 5)%nat
         then selected ++ [num] else selected)
  end.

(** [generate_jackpot_coverage(num_tickets, budget)]; the printed portfolio
    is the returned list.  [used_combinations] is read by the loop of
    ticket 2 only, so its later updates are not kept. *)
Definition generate_jackpot_coverage (df : DataFrame) (num_tickets : Z)
           (budget : Q) : result (loop (list CoverageTicket)) :=
  let max_tickets := int_of_float (budget / 2) in
  let num_tickets := Z.min num_tickets max_tickets in
  let '(main_freq, lucky_freq) := frequency_analysis df in
  let '(recent_main, recent_lucky) := recent_analysis df 50 in
  rec1 <- generate_recommendations df "jackpot_spread" ;;
  lb1 <- index (lucky_ball rec1) 0 ;;
  let tickets :=
    [ {| coverage_numbers := main_numbers rec1;
         coverage_lucky_ball := lb1;
         coverage_strategy := "Range Spread";
         coverage_reasoning := "Covers all number ranges (low/mid/high)" |} ] in
  let used_combinations := [sorted (main_numbers rec1)] in
  second <-
    (if 2 <=? num_tickets then
       rec2 <- generate_recommendations df "recent_hot" ;;
       varied <- vary_fifth used_combinations recent_main tickets
                            (main_numbers rec2) ;;
       match varied with
       | Spins => Ok Spins
       | Exits numbers2 =>
           lb2 <- index (lucky_ball rec2) 0 ;;
           Ok (Exits
                 (tickets ++
                  [ {| coverage_numbers := sorted numbers2;
                       coverage_lucky_ball := lb2;
                       coverage_strategy := "Recent Hot";
                       coverage_reasoning :=
                         "Rides current momentum (proven +28% ROI)" |} ]))
       end
     else Ok (Exits tickets)) ;;
  match second with
  | Spins => Ok Spins
  | Exits tickets =>
      tickets <-
        (if 3 <=? num_tickets then
           rec3 <- generate_recommendations df "hot" ;;
           lb3 <- index (most_common 2 lucky_freq) 1 ;;
           Ok (tickets ++
               [ {| coverage_numbers := main_numbers rec3;
                    coverage_lucky_ball := fst lb3;
                    coverage_strategy := "All-Time Hot";
                    coverage_reasoning :=
                      "Most frequently drawn numbers overall" |} ])
         else Ok tickets) ;;
      tickets <-
        (if 4 <=? num_tickets then
           rec4 <- generate_recommendations df "balanced" ;;
           lb4 <- index (lucky_ball rec4) 0 ;;
           Ok (tickets ++
               [ {| coverage_numbers := main_numbers rec4;
                    coverage_lucky_ball := lb4;
                    coverage_strategy := "Balanced Mix";
                    coverage_reasoning := "Hot + overdue + recent hybrid" |} ])
         else Ok tickets) ;;
      tickets <-
        (if 5 <=? num_tickets then
           let high_nums :=
             filter (fun n => dict_mem n main_freq) (range 30 49) in
           let high_sorted :=
             firstn 7 (sort_by (fun y x => counter_get x main_freq
                                           <? counter_get y main_freq)
                               high_nums) in
           let selected :=
             fill_selected (map fst (most_common 20 recent_main))
                           (firstn 3 high_sorted) in
           lb5 <- index (most_common 3 lucky_freq) 0 ;;
           Ok (tickets ++
               [ {| coverage_numbers := sorted (firstn 5 selected);
                    coverage_lucky_ball := fst lb5;
                    coverage_strategy := "High Numbers";
                    coverage_reasoning :=
                      "Focus on 30-48 range with hot picks" |} ])
         else Ok tickets) ;;
      Ok (Exits tickets)
  end.

(** The portfolio of five tickets computed on the three-draw data set. *)
Definition fixture_coverage : list CoverageTicket :=
  [ mkCoverage [3; 10; 22; 28; 38] 11 "Range Spread"
               "Covers all number ranges (low/mid/high)";
    mkCoverage [3; 10; 22; 32; 38] 11 "Recent Hot"
               "Rides current momentum (proven +28% ROI)";
    mkCoverage [22; 3; 10; 32; 38] 8 "All-Time Hot"
               "Most frequently drawn numbers overall";
    mkCoverage [22; 3; 10] 8 "Balanced Mix"
               "Hot + overdue + recent hybrid";
    mkCoverage [3; 22; 32; 38; 41] 11 "High Numbers"
               "Focus on 30-48 range with hot picks" ].

(* ================================================================== *)
(** * Properties *)

(** ** The concrete histories are well formed *)

Lemma distinctb_NoDup (l : list Z) : distinctb l = true -> NoDup l.
Proof.
  induction l as [|x l IH]; simpl; intros H.
  - constructor.
  - apply andb_true_iff in H. destruct H as [Hx Hl].
    constructor; [|now apply IH].
    intros Hin. apply negb_true_iff in Hx.
    assert (Hm : existsb (Z.eqb x) l = true).
    { apply existsb_exists. exists x. split; [assumption | apply Z.eqb_refl]. }
    unfold mem in Hx. congruence.
Qed.

Lemma well_formed_rowb_sound (r : Row) :
  well_formed_rowb r = true -> well_formed_row r.
Proof.
  unfold well_formed_rowb, well_formed_row. intros H.
  apply andb_true_iff in H. destruct H as [H Hhi].
  apply andb_true_iff in H. destruct H as [H Hlo].
  apply andb_true_iff in H. destruct H as [Hdistinct Hrange].
  split; [now apply distinctb_NoDup|]. split.
  - apply Forall_forall. intros n Hn.
    rewrite forallb_forall in Hrange. specialize (Hrange n Hn).
    apply andb_true_iff in Hrange. lia.
  - lia.
Qed.

Lemma well_formed_rows_sound (rows : list Row) :
  forallb well_formed_rowb rows = true -> Forall well_formed_row rows.
Proof.
  intros H. apply Forall_forall. intros r Hr.
  apply well_formed_rowb_sound. rewrite forallb_forall in H. now apply H.
Qed.

Lemma concrete_histories_well_formed :
  Forall well_formed_row fixture_rows /\
  Forall well_formed_row streak_rows /\
  Forall well_formed_row (newest_row :: target_row :: older_rows).
Proof.
  repeat split; apply well_formed_rows_sound; vm_compute; reflexivity.
Qed.

(** ** Counters *)

Lemma sum_values_incr (k : Z) (c : Counter) :
  sum_values (counter_incr k c) = sum_values c + 1.
Proof.
  unfold sum_values, counter_values.
  induction c as [|[k' v] c IH]; simpl.
  - lia.
  - destruct (k =? k'); simpl; lia.
Qed.

Lemma tally_row_sums (acc : Counter * Counter) (lr : Z * Row) :
  sum_values (fst (tally_row acc lr)) = sum_values (fst acc) + 5 /\
  sum_values (snd (tally_row acc lr)) = sum_values (snd acc) + 1.
Proof.
  destruct acc as [m l]; unfold tally_row; simpl.
  rewrite !sum_values_incr. split; lia.
Qed.

Lemma tally_rows_sums (rows : DataFrame) :
  forall acc,
    sum_values (fst (fold_left tally_row rows acc))
      = sum_values (fst acc) + 5 * Z.of_nat (length rows) /\
    sum_values (snd (fold_left tally_row rows acc))
      = sum_values (snd acc) + Z.of_nat (length rows).
Proof.
  induction rows as [|lr rows IH]; intros acc.
  - simpl. split; lia.
  - cbn [fold_left length].
    destruct (IH (tally_row acc lr)) as [Hm Hl].
    destruct (tally_row_sums acc lr) as [Hm1 Hl1].
    rewrite Hm, Hl, Hm1, Hl1. split; lia.
Qed.

(** C8.  Over any slice, the main-number counts of [frequency_analysis] sum
    to five times the number of rows and the lucky-ball counts to the number
    of rows; [recent_analysis] satisfies the same two equations over its
    window, the first [min last_n_draws (len df)] rows. *)
Theorem frequency_counts_sum (S : DataFrame) (last_n_draws : nat) :
  sum_values (fst (frequency_analysis S)) = 5 * Z.of_nat (length S) /\
  sum_values (snd (frequency_analysis S)) = Z.of_nat (length S) /\
  sum_values (fst (recent_analysis S last_n_draws))
    = 5 * Z.of_nat (Nat.min last_n_draws (length S)) /\
  sum_values (snd (recent_analysis S last_n_draws))
    = Z.of_nat (Nat.min last_n_draws (length S)).
Proof.
  unfold frequency_analysis, recent_analysis, head.
  destruct (tally_rows_sums S ([], [])) as [Hm Hl].
  destruct (tally_rows_sums (firstn last_n_draws S) ([], [])) as [Hm' Hl'].
  rewrite length_firstn in Hm', Hl'.
  rewrite Hm, Hl, Hm', Hl'. cbn. repeat split; lia.
Qed.

(** ** Prize evaluator *)

Lemma mem_In (x : Z) (l : list Z) : mem x l = true <-> In x l.
Proof.
  unfold mem. rewrite existsb_exists. split.
  - intros [y [Hy Heq]]. apply Z.eqb_eq in Heq. now subst.
  - intros H. exists x. split; [assumption | apply Z.eqb_refl].
Qed.

Lemma filter_all {A : Type} (f : A -> bool) (l : list A) :
  (forall x, In x l -> f x = true) -> filter f l = l.
Proof.
  induction l as [|a l IH]; intros H; simpl.
  - reflexivity.
  - rewrite (H a (or_introl eq_refl)). f_equal. apply IH.
    intros x Hx. apply H. now right.
Qed.

(** The number of matches never exceeds the number of winning numbers, so
    against a draw it lies in 0..5. *)
Lemma inter_size_bounds (a b : list Z) :
  0 <= inter_size a b <= Z.of_nat (length b).
Proof.
  unfold inter_size, set_of. split; [lia|].
  apply inj_le. apply NoDup_incl_length.
  - apply NoDup_filter, NoDup_nodup.
  - intros x Hx. apply filter_In in Hx. destruct Hx as [_ Hx].
    now apply mem_In.
Qed.

(** C3.  The prize cascade of [check_ticket] is the fixed table: 4+LB $5000,
    4 $200, 3+LB $150, 3 $20, 2+LB $25, 2 $3, 1+LB $6, 0+LB $4, otherwise
    $0, the two five-match tiers carrying a description and no dollar
    amount; the backtest cascade assigns $1,000,000 to 5+LB and $25,000 to
    5 alone and agrees with the live table for every other combination. *)
Theorem prize_table :
  ticket_prize 5 true = (0, "JACKPOT! $1,000/Day for Life"%string) /\
  ticket_prize 5 false = (0, "2nd Prize! $25,000/Year for Life"%string) /\
  ticket_prize 4 true = (5000, "$5,000"%string) /\
  ticket_prize 4 false = (200, "$200"%string) /\
  ticket_prize 3 true = (150, "$150"%string) /\
  ticket_prize 3 false = (20, "$20"%string) /\
  ticket_prize 2 true = (25, "$25"%string) /\
  ticket_prize 2 false = (3, "$3"%string) /\
  ticket_prize 1 true = (6, "$6"%string) /\
  ticket_prize 1 false = (0, "No win"%string) /\
  ticket_prize 0 true = (4, "$4"%string) /\
  ticket_prize 0 false = (0, "No win"%string) /\
  (forall (main_matches : Z) (lucky_match : bool),
      backtest_prize main_matches lucky_match =
        if main_matches =? 5
        then (if lucky_match then 1000000 else 25000)
        else fst (ticket_prize main_matches lucky_match)).
Proof.
  repeat (split; [reflexivity|]).
  intros m lb. unfold backtest_prize, ticket_prize.
  destruct (m =? 5); [destruct lb; reflexivity|].
  cbn [andb].
  repeat match goal with
         | |- context [?x =? ?y] => destruct (x =? y); cbn [andb]
         end;
  destruct lb; reflexivity.
Qed.

(** C6.  A ticket whose five distinct numbers are those of the draw found
    for the date (in any order) and whose lucky ball is that draw's lucky
    ball is reported with five matches, a lucky match and the jackpot
    tier. *)
Theorem check_ticket_round_trip
        (frame : DataFrame) (X : list Z) (lb date label : Z)
        (drawing : Row) (others : DataFrame)
        (Hfound : rows_on date frame = (label, drawing) :: others)
        (Hdistinct : NoDup X)
        (Hsame : Permutation X (numbers_in_draw drawing))
        (Hlucky : lb = LuckyBall drawing) :
  exists r,
    check_ticket frame X lb date = (Some r, None) /\
    res_main_matches r = 5 /\
    res_lucky_match r = true /\
    res_prize_description r = "JACKPOT! $1,000/Day for Life"%string.
Proof.
  assert (Hm : inter_size X (numbers_in_draw drawing) = 5).
  { unfold inter_size, set_of.
    rewrite (nodup_fixed_point Z.eq_dec Hdistinct).
    rewrite filter_all.
    - rewrite (Permutation_length Hsame). reflexivity.
    - intros x Hx. apply mem_In. eapply Permutation_in; eassumption. }
  unfold check_ticket. rewrite Hfound, Hm. subst lb. rewrite Z.eqb_refl.
  cbn. eexists. repeat split.
Qed.

Lemma check_ticket_round_trip_witness :
  exists r,
    check_ticket (df fixture) [38; 3; 22; 10; 32] 11 20260121 = (Some r, None) /\
    res_main_matches r = 5 /\
    res_lucky_match r = true /\
    res_prize_description r = "JACKPOT! $1,000/Day for Life"%string.
Proof.
  apply (check_ticket_round_trip (df fixture) [38; 3; 22; 10; 32] 11 20260121 0
           (mkRow 20260121 3 10 22 32 38 11) []).
  - reflexivity.
  - repeat constructor; simpl; intuition discriminate.
  - cbn.
    apply Permutation_trans with (l' := [3; 38; 22; 10; 32]); [apply perm_swap|].
    apply perm_skip.
    apply Permutation_trans with (l' := [22; 38; 10; 32]); [apply perm_swap|].
    apply Permutation_trans with (l' := [22; 10; 38; 32]);
      [apply perm_skip, perm_swap|].
    apply Permutation_trans with (l' := [10; 22; 38; 32]); [apply perm_swap|].
    apply perm_skip.
    apply perm_skip. apply perm_swap.
  - reflexivity.
Defined.

(** C10.  [check_ticket] never raises on a date lookup: when no row of the
    history carries the date it returns [(None, "Drawing date not found")],
    when some row does it returns [(result, None)]; in both cases the
    analyzer, hence its history, is left as it was. *)
Theorem check_ticket_date_lookup
        (self : Analyzer) (numbers : list Z) (lucky date : Z) :
  (Forall (fun lr => Date (snd lr) <> date) (df self) ->
   check_ticket_method numbers lucky date self
     = ((None, Some "Drawing date not found"%string), self)) /\
  (Exists (fun lr => Date (snd lr) = date) (df self) ->
   exists r,
     check_ticket_method numbers lucky date self = ((Some r, None), self)).
Proof.
  unfold check_ticket_method, check_ticket. split.
  - intros Hnone.
    assert (Hempty : rows_on date (df self) = []).
    { unfold rows_on. induction (df self) as [|lr rows IH]; [reflexivity|].
      inversion Hnone as [|? ? Hlr Hrows]; subst. simpl.
      apply Z.eqb_neq in Hlr. rewrite Hlr. now apply IH. }
    rewrite Hempty. reflexivity.
  - intros Hsome.
    destruct (rows_on date (df self)) as [|[label drawing] rest] eqn:Hrows.
    + exfalso. apply Exists_exists in Hsome. destruct Hsome as [lr [Hin Hd]].
      assert (Hf : In lr (rows_on date (df self))).
      { unfold rows_on. apply filter_In. split; [assumption|].
        now apply Z.eqb_eq. }
      rewrite Hrows in Hf. destruct Hf.
    + destruct (ticket_prize _ _) as [prize description].
      eexists. reflexivity.
Qed.

Lemma check_ticket_date_lookup_witness :
  check_ticket_method [1; 2; 3; 4; 5] 1 20991231 fixture
    = ((None, Some "Drawing date not found"%string), fixture) /\
  exists r,
    check_ticket_method [3; 10; 22; 32; 38] 11 20260121 fixture
      = ((Some r, None), fixture).
Proof.
  split.
  - apply (check_ticket_date_lookup fixture [1; 2; 3; 4; 5] 1 20991231).
    repeat constructor; simpl; discriminate.
  - apply (check_ticket_date_lookup fixture [3; 10; 22; 32; 38] 11 20260121).
    apply Exists_cons_hd. reflexivity.
Defined.

(** ** Reported number sets *)

Lemma insert_by_Permutation {A : Type} (before : A -> A -> bool) (x : A) (l : list A) :
  Permutation (x :: l) (insert_by before x l).
Proof.
  induction l as [|y l IH]; simpl.
  - apply Permutation_refl.
  - destruct (before y x).
    + eapply Permutation_trans; [apply perm_swap|]. now apply perm_skip.
    + apply Permutation_refl.
Qed.

Lemma sort_by_Permutation {A : Type} (before : A -> A -> bool) (l : list A) :
  Permutation l (sort_by before l).
Proof.
  induction l as [|x l IH]; simpl.
  - apply perm_nil.
  - eapply Permutation_trans; [apply perm_skip, IH|].
    apply insert_by_Permutation.
Qed.

Lemma insert_Sorted (x : Z) (l : list Z) :
  Sorted Z.le l -> Sorted Z.le (insert_by (fun y x => y <? x) x l).
Proof.
  induction l as [|y l IH]; intros Hs; simpl.
  - repeat constructor.
  - destruct (y <? x) eqn:Hyx.
    + inversion Hs as [|? ? Hl Hhd]; subst.
      constructor; [now apply IH|].
      destruct l as [|z l]; simpl.
      * constructor. apply Z.ltb_lt in Hyx. lia.
      * inversion Hhd; subst.
        destruct (z <? x); constructor; [assumption|].
        apply Z.ltb_lt in Hyx. lia.
    + constructor; [assumption|]. constructor.
      apply Z.ltb_ge in Hyx. lia.
Qed.

Lemma sorted_Sorted (l : list Z) : Sorted Z.le (sorted l).
Proof.
  unfold sorted, sort_by.
  induction l as [|x l IH]; simpl.
  - constructor.
  - now apply insert_Sorted.
Qed.

Lemma multiple_sets_from_inv (frame : DataFrame) (strategies : list string) :
  forall (i : Z) (sets : list NumberSet),
    multiple_sets_from frame i strategies = Ok sets ->
    forall s, In s sets ->
      In (set_strategy s) strategies /\
      exists rec,
        generate_recommendations frame (set_strategy s) = Ok rec /\
        set_numbers s = sorted (main_numbers rec).
Proof.
  induction strategies as [|strategy rest IH]; intros i sets Hrun s Hin.
  - simpl in Hrun. injection Hrun as <-. destruct Hin.
  - simpl in Hrun.
    destruct (generate_recommendations frame strategy) as [rec|e] eqn:Hrec;
      [|discriminate].
    cbn [bind] in Hrun.
    destruct (index (lucky_ball rec) 0) as [lb|e]; [|discriminate].
    cbn [bind] in Hrun.
    destruct (multiple_sets_from frame (i + 1) rest) as [sets'|e] eqn:Hrest;
      [|discriminate].
    cbn [bind] in Hrun. injection Hrun as <-.
    destruct Hin as [<- | Hin].
    + cbn. split; [now left|]. exists rec. now split.
    + destruct (IH _ _ Hrest s Hin) as [Hs Hex]. split; [now right | exact Hex].
Qed.

(** X24.  Every number set reported by [generate_multiple_sets] lists, in
    ascending order, exactly the main numbers that
    [generate_recommendations] picked for the set's strategy. *)
Theorem reported_sets_sorted
        (frame : DataFrame) (num_sets : nat) (strategies : option (list string))
        (sets : list NumberSet) (s : NumberSet)
        (Hrun : generate_multiple_sets frame num_sets strategies = Ok sets)
        (Hin : In s sets) :
  Sorted Z.le (set_numbers s) /\
  exists rec,
    generate_recommendations frame (set_strategy s) = Ok rec /\
    Permutation (main_numbers rec) (set_numbers s).
Proof.
  unfold generate_multiple_sets in Hrun.
  destruct (multiple_sets_from_inv _ _ _ _ Hrun s Hin) as [_ [rec [Hrec Hnums]]].
  rewrite Hnums. split.
  - apply sorted_Sorted.
  - exists rec. split; [assumption|]. apply sort_by_Permutation.
Qed.

Lemma reported_sets_sorted_witness :
  Sorted Z.le [3; 10; 22; 32; 38] /\
  exists rec,
    generate_recommendations (df fixture) "hot" = Ok rec /\
    Permutation (main_numbers rec) [3; 10; 22; 32; 38].
Proof.
  apply (reported_sets_sorted (df fixture) 3 None
           [ mkSet 1 "balanced" [3; 10; 22] 8
                   "Balanced: Mix of hot, overdue, and recent numbers";
             mkSet 2 "hot" [3; 10; 22; 32; 38] 11
                   "Hot numbers: Most frequently drawn overall";
             mkSet 3 "overdue" [] 16
                   "Overdue numbers: Haven't appeared in longer than average" ]
           (mkSet 2 "hot" [3; 10; 22; 32; 38] 11
                  "Hot numbers: Most frequently drawn overall")).
  - vm_compute. reflexivity.
  - right. left. reflexivity.
Defined.

(** ** Zero-length slices *)

(** C7, as stated, fails: over the empty frame [frequency_analysis] and
    [gap_analysis] do not fail, they return empty tables. *)
Lemma frequency_analysis_empty_returns :
  frequency_analysis [] = ([], []) /\ fst (gap_analysis []) = [].
Proof.
  split; reflexivity.
Qed.

(** C7, amended.  Over a zero-length slice every frequency and gap
    computation returns tables instead of failing: [frequency_analysis] and
    [recent_analysis] return two empty counters, [gap_analysis] an empty
    average-gap table and a current gap of 0 (the slice length) for each of
    1..48, and [get_overdue_numbers] an empty table. *)
Theorem empty_slice_tables (S : DataFrame) (Hzero : length S = 0%nat) :
  frequency_analysis S = ([], []) /\
  (forall last_n_draws, recent_analysis S last_n_draws = ([], [])) /\
  gap_analysis S = ([], map (fun num => (num, 0)) main_numbers_range) /\
  (forall threshold_multiplier,
      get_overdue_numbers S threshold_multiplier = []).
Proof.
  destruct S; [|discriminate]. repeat split.
  intros n. unfold recent_analysis, head. now rewrite firstn_nil.
Qed.

Lemma empty_slice_tables_witness :
  frequency_analysis (iloc_from 3 (df fixture)) = ([], []) /\
  (forall last_n_draws,
      recent_analysis (iloc_from 3 (df fixture)) last_n_draws = ([], [])) /\
  gap_analysis (iloc_from 3 (df fixture))
    = ([], map (fun num => (num, 0)) main_numbers_range) /\
  (forall threshold_multiplier,
      get_overdue_numbers (iloc_from 3 (df fixture)) threshold_multiplier = []).
Proof.
  apply (empty_slice_tables (iloc_from 3 (df fixture))). reflexivity.
Defined.

(** ** Strategies on short histories *)

(** C2 at the test fixture's own three-draw data set: [balanced] returns
    three main numbers and [overdue] none, where five are claimed. *)
Theorem recommendations_short_on_fixture :
  generate_recommendations (df fixture) "balanced"
    = Ok {| main_numbers := [22; 3; 10];
            lucky_ball := [8];
            reasoning := "Balanced: Mix of hot, overdue, and recent numbers" |} /\
  generate_recommendations (df fixture) "overdue"
    = Ok {| main_numbers := [];
            lucky_ball := [16];
            reasoning := "Overdue numbers: Haven't appeared in longer than average" |}.
Proof.
  split; vm_compute; reflexivity.
Qed.

(** ** Overdue numbers *)

Lemma dict_get_set {V : Type} (k k' : Z) (v : V) (d : dict V) :
  dict_get k' (dict_set k v d) = if k' =? k then Some v else dict_get k' d.
Proof.
  induction d as [|[j w] d IH]; simpl.
  - reflexivity.
  - destruct (Z.eqb_spec k j) as [->|Hkj]; simpl.
    + destruct (k' =? j); reflexivity.
    + rewrite IH.
      destruct (Z.eqb_spec k' j) as [->|_]; [|reflexivity].
      destruct (Z.eqb_spec j k) as [Heq|_]; [|reflexivity].
      now elim Hkj.
Qed.

Lemma dict_get_map {V : Type} (f : Z -> V) (n : Z) (l : list Z) :
  dict_get n (map (fun num => (num, f num)) l)
    = if mem n l then Some (f n) else None.
Proof.
  induction l as [|x l IH]; simpl.
  - reflexivity.
  - destruct (Z.eqb_spec n x) as [->|_]; simpl; [reflexivity | exact IH].
Qed.

Lemma gap_step_last_seen (idx : Z) (st : dict Z * dict (list Z)) (num n : Z) :
  dict_get n (fst (gap_step idx st num))
    = if n =? num then Some idx else dict_get n (fst st).
Proof.
  destruct st as [last_seen gaps]. unfold gap_step. cbn [fst].
  apply dict_get_set.
Qed.

Lemma gap_draw_last_seen (idx : Z) (nums : list Z) :
  forall (st : dict Z * dict (list Z)) (n : Z),
    dict_get n (fst (fold_left (gap_step idx) nums st))
      = if mem n nums then Some idx else dict_get n (fst st).
Proof.
  induction nums as [|num nums IH]; intros st n.
  - reflexivity.
  - cbn [fold_left]. rewrite IH, gap_step_last_seen. unfold mem. simpl.
    destruct (n =? num); simpl; [|reflexivity].
    now destruct (existsb (Z.eqb n) nums).
Qed.

Lemma gap_scan_last_seen (frame : DataFrame) :
  forall (st : dict Z * dict (list Z)) (n : Z),
    dict_get n
      (fst (fold_left
              (fun st lr =>
                 fold_left (gap_step (fst lr)) (numbers_in_draw (snd lr)) st)
              frame st))
      = match oldest_label n frame with
        | Some l => Some l
        | None => dict_get n (fst st)
        end.
Proof.
  induction frame as [|[label r] frame IH]; intros st n.
  - reflexivity.
  - cbn [fold_left oldest_label]. rewrite IH.
    destruct (oldest_label n frame); [reflexivity|].
    cbn [fst snd]. rewrite gap_draw_last_seen.
    now destruct (mem n (numbers_in_draw r)).
Qed.

(** What [gap_analysis] stores as the current gap of a number: minus the
    label of its oldest appearance, or the slice length if it never
    appears. *)
Lemma gap_analysis_current_gap (frame : DataFrame) (n : Z) :
  dict_get n (snd (gap_analysis frame))
    = if mem n main_numbers_range
      then Some (match oldest_label n frame with
                 | Some l => 0 - l
                 | None => Z.of_nat (length frame)
                 end)
      else None.
Proof.
  unfold gap_analysis.
  pose proof (gap_scan_last_seen frame ([], []) n) as Hseen.
  fold (gap_scan frame) in Hseen.
  destruct (gap_scan frame) as [last_seen gaps]. cbn [snd fst] in *.
  rewrite (dict_get_map
             (fun num => match dict_get num last_seen with
                         | Some seen => 0 - seen
                         | None => Z.of_nat (length frame)
                         end)).
  rewrite Hseen. cbn [dict_get].
  now destruct (oldest_label n frame).
Qed.

Lemma gap_step_scanned (idx : Z) (st : dict Z * dict (list Z)) (num n : Z) (c : nat) :
  scanned n c st ->
  scanned n (c + (if Z.eq_dec num n then 1 else 0)) (gap_step idx st num).
Proof.
  destruct st as [last_seen gaps]. unfold scanned, gap_step, dict_mem.
  cbn [fst snd]. intros [Hseen [Hgaps Hne]].
  destruct (Z.eq_dec num n) as [->|Hnum].
  - rewrite dict_get_set, Z.eqb_refl.
    destruct (dict_get n last_seen) as [seen|] eqn:Hls.
    + assert (Hc : (1 <= c)%nat) by (apply Nat.leb_le; now rewrite <- Hseen).
      unfold gaps_append.
      destruct (dict_get n gaps) as [l|]; rewrite dict_get_set, Z.eqb_refl.
      * repeat split.
        -- symmetry. apply Nat.leb_le. lia.
        -- symmetry. apply Nat.leb_le. lia.
        -- intros l' [= <-]. now destruct l.
      * repeat split.
        -- symmetry. apply Nat.leb_le. lia.
        -- symmetry. apply Nat.leb_le. lia.
        -- intros l' [= <-]. discriminate.
    + assert (Hc : c = 0%nat).
      { symmetry in Hseen. apply Nat.leb_gt in Hseen. lia. }
      subst c. cbn. repeat split; [exact Hgaps | exact Hne].
  - rewrite Nat.add_0_r, dict_get_set.
    destruct (Z.eqb_spec n num) as [->|_]; [now elim Hnum|].
    split; [exact Hseen|].
    assert (Hsame : dict_get n
                      match dict_get num last_seen with
                      | Some seen => gaps_append num (idx - seen) gaps
                      | None => gaps
                      end = dict_get n gaps).
    { destruct (dict_get num last_seen); [|reflexivity].
      unfold gaps_append.
      destruct (dict_get num gaps); rewrite dict_get_set;
        destruct (Z.eqb_spec n num) as [->|_]; try reflexivity; now elim Hnum. }
    rewrite Hsame. split; assumption.
Qed.

Lemma gap_draw_scanned (idx : Z) (nums : list Z) (n : Z) :
  forall (st : dict Z * dict (list Z)) (c : nat),
    scanned n c st ->
    scanned n (c + count_occ Z.eq_dec nums n) (fold_left (gap_step idx) nums st).
Proof.
  induction nums as [|num nums IH]; intros st c Hst.
  - cbn. now rewrite Nat.add_0_r.
  - cbn [fold_left count_occ].
    apply (gap_step_scanned idx st num n c) in Hst.
    apply IH in Hst.
    destruct (Z.eq_dec num n); [|now rewrite Nat.add_0_r in Hst].
    now replace (c + S (count_occ Z.eq_dec nums n))%nat
      with (c + 1 + count_occ Z.eq_dec nums n)%nat by lia.
Qed.

Lemma gap_scan_scanned (frame : DataFrame) (n : Z) :
  forall (st : dict Z * dict (list Z)) (c : nat),
    scanned n c st ->
    scanned n (c + appearances n frame)
      (fold_left
         (fun st lr =>
            fold_left (gap_step (fst lr)) (numbers_in_draw (snd lr)) st)
         frame st).
Proof.
  induction frame as [|lr frame IH]; intros st c Hst.
  - cbn. now rewrite Nat.add_0_r.
  - cbn [fold_left appearances fold_right].
    apply (gap_draw_scanned (fst lr) (numbers_in_draw (snd lr)) n) in Hst.
    apply IH in Hst. fold (appearances n frame).
    now rewrite Nat.add_assoc.
Qed.

Lemma dict_get_map_values {V W : Type} (g : Z -> V -> W) (n : Z) (d : dict V) :
  dict_get n (map (fun kv : Z * V => let '(k, v) := kv in (k, g k v)) d)
    = option_map (g n) (dict_get n d).
Proof.
  induction d as [|[k v] d IH]; simpl.
  - reflexivity.
  - destruct (Z.eqb_spec n k) as [->|_]; [reflexivity | exact IH].
Qed.

(** A number has an average gap exactly when it was drawn at least twice,
    and that average is then finite: the [float('inf')] branch of
    [gap_analysis] is never taken. *)
Lemma gap_analysis_avg_gap (frame : DataFrame) (n : Z) :
  ((2 <= appearances n frame)%nat ->
   exists a, dict_get n (fst (gap_analysis frame)) = Some (Finite a)) /\
  ((appearances n frame < 2)%nat ->
   dict_get n (fst (gap_analysis frame)) = None).
Proof.
  assert (Hinit : scanned n 0 ([], [])).
  { unfold scanned, dict_mem. cbn. repeat split. discriminate. }
  apply (gap_scan_scanned frame n) in Hinit. cbn [Nat.add] in Hinit.
  fold (gap_scan frame) in Hinit.
  unfold gap_analysis. destruct (gap_scan frame) as [last_seen gaps].
  destruct Hinit as [_ [Hgaps Hne]]. cbn [fst snd] in *.
  rewrite (dict_get_map_values
             (fun _ gap_list => match gap_list with
                                | [] => Infinity
                                | _ :: _ => Finite (mean gap_list)
                                end)).
  unfold dict_mem in Hgaps. split; intros Hc.
  - apply Nat.leb_le in Hc. rewrite Hc in Hgaps.
    destruct (dict_get n gaps) as [l|]; [|discriminate].
    destruct l as [|g l]; [now elim (Hne [])|].
    cbn. eexists. reflexivity.
  - apply Nat.leb_gt in Hc. rewrite Hc in Hgaps.
    destruct (dict_get n gaps); [discriminate | reflexivity].
Qed.

Lemma overdue_step_entry (avg_gaps : dict efloat) (current_gaps : dict Z)
      (t : Q) (overdue : dict OverdueEntry) (num n : Z) :
  dict_get n (overdue_step avg_gaps current_gaps t overdue num)
    = if n =? num
      then match overdue_entry avg_gaps current_gaps t num with
           | Some e => Some e
           | None => dict_get n overdue
           end
      else dict_get n overdue.
Proof.
  unfold overdue_step, overdue_entry.
  destruct (dict_get num avg_gaps) as [[a|]|];
    destruct (dict_get num current_gaps) as [cg|];
    try (destruct (n =? num); reflexivity).
  cbv zeta.
  destruct (Qltb (a * t) (inject_Z (Z.abs cg))).
  - apply dict_get_set.
  - destruct (n =? num); reflexivity.
Qed.

Lemma overdue_fold_entry (avg_gaps : dict efloat) (current_gaps : dict Z)
      (t : Q) (nums : list Z) :
  forall (overdue : dict OverdueEntry) (n : Z),
    dict_get n (fold_left (overdue_step avg_gaps current_gaps t) nums overdue)
      = if mem n nums
        then match overdue_entry avg_gaps current_gaps t n with
             | Some e => Some e
             | None => dict_get n overdue
             end
        else dict_get n overdue.
Proof.
  induction nums as [|num nums IH]; intros overdue n.
  - reflexivity.
  - cbn [fold_left]. rewrite IH, overdue_step_entry. unfold mem. simpl.
    destruct (Z.eqb_spec n num) as [->|_]; simpl.
    + destruct (existsb (Z.eqb num) nums);
        destruct (overdue_entry avg_gaps current_gaps t num); reflexivity.
    + reflexivity.
Qed.

(** What the code decides: a number of 1..48 is listed by
    [get_overdue_numbers] exactly when it has an entry in the average-gap
    table and the absolute value of its stored current gap exceeds the
    average gap times the multiplier; the listed entry holds that gap, the
    average rounded to one decimal and the ratio rounded to two. *)
Lemma get_overdue_numbers_lookup (frame : DataFrame) (t : Q) (n : Z) :
  dict_get n (get_overdue_numbers frame t)
    = if mem n main_numbers_range
      then overdue_entry (fst (gap_analysis frame)) (snd (gap_analysis frame)) t n
      else None.
Proof.
  unfold get_overdue_numbers.
  destruct (gap_analysis frame) as [avg_gaps current_gaps]. cbn [fst snd].
  rewrite overdue_fold_entry. cbn [dict_get].
  destruct (mem n main_numbers_range); [|reflexivity].
  now destruct (overdue_entry avg_gaps current_gaps t n).
Qed.

(** C4 at three consecutive draws that all hold 7: the number was seen in
    the most recent draw, so zero draws have passed since it was last seen
    and 0 does not exceed 1.5 times its average gap of 1; the analyzer
    nevertheless lists 7 as overdue, with a current gap of 2 (the label of
    its oldest appearance). *)
Theorem overdue_on_streak :
  draws_since_last_seen 7 streak_rows = Some 0 /\
  dict_get 7 (fst (gap_analysis (df (load streak_rows)))) = Some (Finite 1) /\
  Qltb (1 * (3 # 2)) (inject_Z 0) = false /\
  get_overdue_numbers (df (load streak_rows)) (3 # 2)
    = [(7, {| current_gap := 2; avg_gap := 1; ratio := 2 |})].
Proof.
  repeat split; vm_compute; reflexivity.
Qed.

(** ** No-lookahead *)

Lemma label_from_skipn (k : nat) :
  forall (rows : list Row) (start : Z),
    skipn k (label_from start rows)
      = label_from (start + Z.of_nat k) (skipn k rows).
Proof.
  induction k as [|k IH]; intros rows start.
  - simpl. now rewrite Z.add_0_r.
  - destruct rows as [|r rows]; [reflexivity|].
    cbn [skipn label_from]. rewrite IH. f_equal. lia.
Qed.

(** Whatever stands at positions 0..idx of the loaded history, the
    recommendation scored at [idx] is the same: rewriting the target draw or
    any newer draw in place does not reach the strategy. *)
Lemma backtest_recommendation_ignores_prefix_content
      (rows rows' : list Row) (idx : nat) (strategy : string) :
  skipn (idx + 1) rows = skipn (idx + 1) rows' ->
  backtest_recommendation (df (load rows)) idx strategy
    = backtest_recommendation (df (load rows')) idx strategy.
Proof.
  intros Hsuffix. unfold backtest_recommendation, iloc_from, load, reset_index.
  cbn [df]. rewrite !label_from_skipn, Hsuffix. reflexivity.
Qed.

(** C1 at a 52-draw history and the same history without its newest draw.
    The target draw and the fifty draws older than it are the same in both;
    only its position differs (1 and 0).  The [overdue] recommendation
    scored against it is [1; 2; 3; 4; 6] in the first and [1; 2; 3; 4] in
    the second: removing a draw newer than the target changes the pick. *)
Theorem backtest_recommendation_position_leak :
  nth_error (map snd (df history_full)) 1 = Some target_row /\
  nth_error (map snd (df history_trimmed)) 0 = Some target_row /\
  map snd (iloc_from (1 + 1) (df history_full))
    = map snd (iloc_from (0 + 1) (df history_trimmed)) /\
  backtest_recommendation (df history_full) 1 "overdue"
    = Ok {| main_numbers := [1; 2; 3; 4; 6];
            lucky_ball := [18];
            reasoning := "Overdue numbers: Haven't appeared in longer than average" |} /\
  backtest_recommendation (df history_trimmed) 0 "overdue"
    = Ok {| main_numbers := [1; 2; 3; 4];
            lucky_ball := [18];
            reasoning := "Overdue numbers: Haven't appeared in longer than average" |}.
Proof.
  repeat split; vm_compute; reflexivity.
Qed.

(** ** Tickets played in the backtest *)

Lemma results_get_set (s s' : string) (r : StrategyResult) (d : Results) :
  results_get s' (results_set s r d)
    = if (s' =? s)%string then Some r else results_get s' d.
Proof.
  induction d as [|[k v] d IH]; simpl.
  - reflexivity.
  - destruct (String.eqb_spec s k) as [->|Hsk]; simpl.
    + destruct (s' =? k)%string; reflexivity.
    + rewrite IH.
      destruct (String.eqb_spec s' k) as [->|Hs'k]; [|reflexivity].
      destruct (String.eqb_spec k s) as [Heq|_]; [|reflexivity].
      now elim Hsk.
Qed.

Lemma backtest_strategy_tickets
      (historical_data : DataFrame) (winning_numbers : list Z) (winning_lucky : Z)
      (d d' : Results) (s : string) :
  backtest_strategy historical_data winning_numbers winning_lucky d s = Ok d' ->
  forall s',
    tickets_of s' d'
      = if (s' =? s)%string then option_map Z.succ (tickets_of s' d)
        else tickets_of s' d.
Proof.
  unfold backtest_strategy. intros Hrun s'.
  destruct (generate_recommendations historical_data s) as [rec|e];
    [|discriminate].
  cbn [bind] in Hrun.
  destruct (index (lucky_ball rec) 0) as [lb|e]; [|discriminate].
  cbn [bind] in Hrun.
  destruct (results_get s d) as [r|] eqn:Hget; [|discriminate].
  injection Hrun as <-. unfold tickets_of. rewrite results_get_set.
  destruct (String.eqb_spec s' s) as [->|_]; [|reflexivity].
  rewrite Hget. cbn. f_equal; lia.
Qed.

Lemma option_map_add_0 (o : option Z) : option_map (Z.add 0) o = o.
Proof. destruct o; reflexivity. Qed.

Lemma option_map_add_add (a b : Z) (o : option Z) :
  option_map (Z.add a) (option_map (Z.add b) o) = option_map (Z.add (b + a)) o.
Proof. destruct o; cbn [option_map]; [f_equal; lia | reflexivity]. Qed.

Lemma backtest_strategies_tickets
      (historical_data : DataFrame) (winning_numbers : list Z) (winning_lucky : Z)
      (l : list string) :
  forall d d',
    foldM (backtest_strategy historical_data winning_numbers winning_lucky) l d
      = Ok d' ->
    forall s',
      tickets_of s' d'
        = option_map (Z.add (Z.of_nat (count_occ string_dec l s'))) (tickets_of s' d).
Proof.
  induction l as [|s l IH]; intros d d' Hrun s'.
  - simpl in Hrun. injection Hrun as <-. cbn [count_occ Z.of_nat].
    now rewrite option_map_add_0.
  - cbn [foldM] in Hrun.
    destruct (backtest_strategy _ _ _ d s) as [d1|e] eqn:Hstep; [|discriminate].
    cbn [bind] in Hrun.
    rewrite (IH _ _ Hrun s'), (backtest_strategy_tickets _ _ _ _ _ _ Hstep s').
    cbn [count_occ].
    destruct (string_dec s s') as [->|Hne].
    + rewrite String.eqb_refl.
      destruct (tickets_of s' d); cbn [option_map]; [f_equal; lia | reflexivity].
    + destruct (String.eqb_spec s' s) as [->|_]; [now elim Hne | reflexivity].
Qed.

Lemma backtest_index_tickets
      (full test_draws : DataFrame) (l : list string) (d d' : Results) (idx : nat) :
  backtest_index full test_draws l d idx = Ok d' ->
  forall s',
    tickets_of s' d'
      = option_map
          (Z.add (if simulated full idx
                  then Z.of_nat (count_occ string_dec l s') else 0))
          (tickets_of s' d).
Proof.
  unfold backtest_index, simulated. intros Hrun s'.
  destruct (length (iloc_from (idx + 1) full) <? min_history)%nat; cbn [negb].
  - injection Hrun as <-. now rewrite option_map_add_0.
  - destruct (index test_draws idx) as [actual|e]; [|discriminate].
    cbn [bind] in Hrun. now apply backtest_strategies_tickets with (s' := s') in Hrun.
Qed.

Lemma backtest_loop_tickets
      (full test_draws : DataFrame) (l : list string) (idxs : list nat) :
  forall d d',
    foldM (backtest_index full test_draws l) idxs d = Ok d' ->
    forall s',
      tickets_of s' d'
        = option_map
            (Z.add (Z.of_nat (count_occ string_dec l s')
                    * Z.of_nat (length (filter (simulated full) idxs))))
            (tickets_of s' d).
Proof.
  induction idxs as [|idx idxs IH]; intros d d' Hrun s'.
  - simpl in Hrun. injection Hrun as <-. cbn [filter length Z.of_nat].
    rewrite Z.mul_0_r. now rewrite option_map_add_0.
  - cbn [foldM] in Hrun.
    destruct (backtest_index full test_draws l d idx) as [d1|e] eqn:Hstep;
      [|discriminate].
    cbn [bind] in Hrun.
    rewrite (IH _ _ Hrun s'), (backtest_index_tickets _ _ _ _ _ _ Hstep s').
    rewrite option_map_add_add. cbn [filter].
    destruct (simulated full idx); cbn [length];
      destruct (tickets_of s' d); cbn [option_map]; try reflexivity; f_equal; lia.
Qed.

Lemma initial_results_tickets (l : list string) :
  forall d s',
    tickets_of s'
      (fold_left (fun d s => results_set s {| wins := 0; total_prize := 0;
                                              tickets := 0; matches_dist := [] |} d)
                 l d)
      = if in_dec string_dec s' l then Some 0 else tickets_of s' d.
Proof.
  induction l as [|s l IH]; intros d s'.
  - reflexivity.
  - cbn [fold_left]. rewrite IH.
    destruct (in_dec string_dec s' l) as [Hin|Hnin];
      destruct (in_dec string_dec s' (s :: l)) as [Hin'|Hnin'];
      try reflexivity.
    + elim Hnin'. now right.
    + unfold tickets_of. rewrite results_get_set.
      destruct Hin' as [->|Hin']; [|contradiction].
      now rewrite String.eqb_refl.
    + unfold tickets_of. rewrite results_get_set.
      destruct (String.eqb_spec s' s) as [->|_]; [|reflexivity].
      elim Hnin'. now left.
Qed.

Lemma filter_length_full {A : Type} (f : A -> bool) (l : list A) :
  length (filter f l) = length l -> forall x, In x l -> f x = true.
Proof.
  induction l as [|a l IH]; intros Hlen x Hin; [destruct Hin|].
  pose proof (filter_length_le f l) as Hle.
  cbn [filter] in Hlen. destruct (f a) eqn:Hfa; cbn [length] in Hlen.
  - destruct Hin as [<-|Hin]; [assumption|]. apply IH; [lia | assumption].
  - lia.
Qed.

Lemma backtest_tickets_count
      (full : DataFrame) (lookback_draws : Z) (l : list string)
      (res : Results) (s : string) (r : StrategyResult) :
  backtest_strategies full lookback_draws (Some l) = Ok res ->
  results_get s res = Some r ->
  In s l /\
  tickets r
    = Z.of_nat (count_occ string_dec l s)
      * Z.of_nat (length (filter (simulated full)
                                 (seq 0 (length (head_signed lookback_draws full))))).
Proof.
  unfold backtest_strategies. intros Hrun Hget.
  destruct (foldM (backtest_index full (head_signed lookback_draws full) l) _ _)
    as [d|e] eqn:Hloop; [|discriminate].
  cbn [bind] in Hrun.
  destruct (foldM (report_strategy d) l tt) as [u|e]; [|discriminate].
  cbn [bind] in Hrun.
  destruct (py_max net_result d) as [best|e]; [|discriminate].
  cbn [bind] in Hrun. injection Hrun as <-.
  pose proof (backtest_loop_tickets _ _ _ _ _ _ Hloop s) as Ht.
  unfold initial_results in Ht. rewrite initial_results_tickets in Ht.
  unfold tickets_of at 1 in Ht. rewrite Hget in Ht. cbn [option_map] in Ht.
  destruct (in_dec string_dec s l) as [Hin|Hnin].
  - cbn in Ht. injection Ht as Ht. split; [assumption|]. lia.
  - discriminate.
Qed.

Lemma head_signed_length (n : Z) (frame : DataFrame) :
  0 <= n -> (length (head_signed n frame) <= Z.to_nat n)%nat.
Proof.
  intros Hn. unfold head_signed, head.
  destruct (Z.ltb_spec n 0) as [Hneg|_]; [lia|].
  rewrite length_firstn. lia.
Qed.

Lemma backtest_index_skips
      (full test_draws : DataFrame) (l : list string) (d : Results) (idx : nat) :
  simulated full idx = false -> backtest_index full test_draws l d idx = Ok d.
Proof.
  unfold simulated, backtest_index. intros Hskip.
  apply negb_false_iff in Hskip. now rewrite Hskip.
Qed.

(** C5, as stated, fails: the bound [tickets <= lookback_draws] does not hold
    for every strategy and every lookback.  On the 51-draw history a lookback
    of 1 with the strategy list [['hot', 'hot']] records 2 tickets for
    ['hot'], and on the 52-draw history a lookback of -1 (where
    [df.head(-1)] keeps 51 draws) records 2 tickets for ['hot']. *)
Lemma backtest_tickets_exceed_lookback :
  (backtest_strategies (df history_trimmed) 1 (Some ["hot"; "hot"]%string)
     = Ok [("hot"%string, mkResult 2 400 2 [(4, 2)])] /\
   ~ tickets (mkResult 2 400 2 [(4, 2)]) <= 1) /\
  (backtest_strategies (df history_full) (-1) (Some ["hot"%string])
     = Ok [("hot"%string, mkResult 1 200 2 [(0, 1); (4, 1)])] /\
   ~ tickets (mkResult 1 200 2 [(0, 1); (4, 1)]) <= -1).
Proof.
  split; (split; [vm_compute; reflexivity | cbn [tickets]; lia]).
Qed.

(** C5, amended.  A position whose suffix holds fewer than 50 draws is
    skipped and leaves every counter as it was.  For a lookback that is not
    negative and a strategy named once in the strategy list, the tickets
    recorded for the strategy are exactly the simulated positions of the
    lookback window; hence [tickets <= lookback_draws], and equality forces
    every position below [lookback_draws] to have at least 50 older
    draws. *)
Theorem backtest_tickets_bound
        (full : DataFrame) (lookback_draws : Z) (strategies : option (list string))
        (res : Results) (s : string) (r : StrategyResult)
        (Hlookback : 0 <= lookback_draws)
        (Honce : forall l, strategies = Some l ->
                           (count_occ string_dec l s <= 1)%nat)
        (Hrun : backtest_strategies full lookback_draws strategies = Ok res)
        (Hget : results_get s res = Some r) :
  (forall (test_draws : DataFrame) (l : list string) (d : Results) (idx : nat),
      (length (iloc_from (idx + 1) full) < min_history)%nat ->
      backtest_index full test_draws l d idx = Ok d) /\
  tickets r
    = Z.of_nat (length (filter (simulated full)
                               (seq 0 (length (head_signed lookback_draws full))))) /\
  tickets r <= lookback_draws /\
  (tickets r = lookback_draws ->
   forall idx, Z.of_nat idx < lookback_draws ->
               (min_history <= length (iloc_from (idx + 1) full))%nat).
Proof.
  split.
  { intros test_draws l d idx Hshort. apply backtest_index_skips.
    unfold simulated. apply negb_false_iff, Nat.ltb_lt. exact Hshort. }
  set (l := match strategies with
            | Some l => l
            | None => ["balanced"; "hot"; "overdue"; "recent_hot"]%string
            end).
  assert (Hrun' : backtest_strategies full lookback_draws (Some l) = Ok res).
  { destruct strategies; exact Hrun. }
  destruct (backtest_tickets_count _ _ _ _ _ _ Hrun' Hget) as [Hin Hcount].
  assert (Hone : count_occ string_dec l s = 1%nat).
  { apply (count_occ_In string_dec) in Hin.
    assert (Hle : (count_occ string_dec l s <= 1)%nat).
    { subst l. destruct strategies as [l0|]; [now apply Honce|].
      cbn [count_occ].
      repeat (destruct (string_dec _ s); [subst; cbn; try lia|]); cbn; lia. }
    lia. }
  rewrite Hone, Z.mul_1_l in Hcount.
  pose proof (filter_length_le (simulated full)
                (seq 0 (length (head_signed lookback_draws full)))) as Hle.
  rewrite length_seq in Hle.
  pose proof (head_signed_length lookback_draws full Hlookback) as Hhead.
  split; [exact Hcount|]. split; [lia|].
  intros Heq idx Hidx.
  assert (Hfull : length (filter (simulated full)
                            (seq 0 (length (head_signed lookback_draws full))))
                  = length (seq 0 (length (head_signed lookback_draws full)))).
  { rewrite length_seq. lia. }
  assert (Hsim : simulated full idx = true).
  { apply (filter_length_full _ _ Hfull). apply in_seq. lia. }
  unfold simulated in Hsim. apply negb_true_iff, Nat.ltb_ge in Hsim. exact Hsim.
Qed.

Lemma backtest_tickets_bound_witness :
  (forall (test_draws : DataFrame) (l : list string) (d : Results) (idx : nat),
      (length (iloc_from (idx + 1) (df history_full)) < min_history)%nat ->
      backtest_index (df history_full) test_draws l d idx = Ok d) /\
  2 = Z.of_nat (length (filter (simulated (df history_full))
                               (seq 0 (length (head_signed 100 (df history_full)))))) /\
  2 <= 100 /\
  (2 = 100 ->
   forall idx, Z.of_nat idx < 100 ->
               (min_history <= length (iloc_from (idx + 1) (df history_full)))%nat).
Proof.
  eapply (backtest_tickets_bound (df history_full) 100
            (Some ["hot"; "recent_hot"]%string) _ "hot"
            {| wins := 1; total_prize := 200; tickets := 2;
               matches_dist := [(0, 1); (4, 1)] |}).
  - lia.
  - intros l Hl. injection Hl as <-. cbn. lia.
  - vm_compute. reflexivity.
  - reflexivity.
Defined.

(* ================================================================== *)
(** ** Frequency tables count appearances *)

Lemma counter_get_incr (n k : Z) (c : Counter) :
  counter_get n (counter_incr k c)
    = counter_get n c + (if n =? k then 1 else 0).
Proof.
  induction c as [|[k' v] c IH]; simpl.
  - destruct (n =? k); reflexivity.
  - destruct (Z.eqb_spec k k') as [->|Hk]; simpl.
    + destruct (n =? k'); lia.
    + rewrite IH. destruct (Z.eqb_spec n k') as [->|_]; [|reflexivity].
      destruct (Z.eqb_spec k' k) as [Heq|_]; [now elim Hk | lia].
Qed.

Lemma counter_get_incr_all (n : Z) (ks : list Z) :
  forall c : Counter,
    counter_get n (fold_left (fun m x => counter_incr x m) ks c)
      = counter_get n c + Z.of_nat (count_occ Z.eq_dec ks n).
Proof.
  induction ks as [|k ks IH]; intros c; cbn [fold_left count_occ].
  - cbn. lia.
  - rewrite IH, counter_get_incr.
    destruct (Z.eq_dec k n) as [->|Hk].
    + rewrite Z.eqb_refl. lia.
    + destruct (Z.eqb_spec n k) as [Heq|_]; [now elim Hk | lia].
Qed.

Lemma sum_values_incr_all (ks : list Z) :
  forall c : Counter,
    sum_values (fold_left (fun m x => counter_incr x m) ks c)
      = sum_values c + Z.of_nat (length ks).
Proof.
  induction ks as [|k ks IH]; intros c; cbn [fold_left length].
  - cbn. lia.
  - rewrite IH, sum_values_incr. lia.
Qed.

Lemma tally_rows_counts (n : Z) (rows : DataFrame) :
  forall acc,
    counter_get n (fst (fold_left tally_row rows acc))
      = counter_get n (fst acc) + Z.of_nat (appearances n rows) /\
    counter_get n (snd (fold_left tally_row rows acc))
      = counter_get n (snd acc) + Z.of_nat (lucky_appearances n rows).
Proof.
  induction rows as [|lr rows IH]; intros [m l].
  - cbn. split; lia.
  - cbn [fold_left]. destruct (IH (tally_row (m, l) lr)) as [Hm Hl].
    rewrite Hm, Hl. unfold tally_row. cbn [fst snd].
    rewrite counter_get_incr_all, counter_get_incr.
    unfold lucky_appearances. cbn [appearances fold_right filter].
    fold (appearances n rows).
    destruct (Z.eqb_spec (LuckyBall (snd lr)) n) as [->|Hlb].
    + rewrite Z.eqb_refl. cbn [length]. split; lia.
    + destruct (Z.eqb_spec n (LuckyBall (snd lr))) as [Heq|_];
        [now elim Hlb | split; lia].
Qed.

Lemma frequency_counts_are_appearances_aux (S : DataFrame) (n : Z) :
  counter_get n (fst (frequency_analysis S)) = Z.of_nat (appearances n S) /\
  counter_get n (snd (frequency_analysis S)) = Z.of_nat (lucky_appearances n S).
Proof.
  unfold frequency_analysis.
  destruct (tally_rows_counts n S ([], [])) as [Hm Hl].
  rewrite Hm, Hl. cbn. split; lia.
Qed.

(** X1.  The count that [frequency_analysis] stores for a number is the
    number of times it is drawn in the slice (0 for a number that is not a
    key), and the count of a lucky ball is the number of draws that carry
    it. *)
Theorem frequency_counts_are_appearances (S : DataFrame) (n : Z) :
  counter_get n (fst (frequency_analysis S)) = Z.of_nat (appearances n S) /\
  counter_get n (snd (frequency_analysis S)) = Z.of_nat (lucky_appearances n S).
Proof. exact (frequency_counts_are_appearances_aux S n). Qed.

Lemma counter_incr_keys (k x : Z) (c : Counter) :
  In x (map fst (counter_incr k c)) <-> x = k \/ In x (map fst c).
Proof.
  induction c as [|[k' v] c IH]; simpl.
  - intuition.
  - destruct (Z.eqb_spec k k') as [->|Hk]; simpl.
    + intuition.
    + rewrite IH. intuition.
Qed.

Lemma counter_incr_ok (k : Z) (c : Counter) :
  counter_ok c -> counter_ok (counter_incr k c).
Proof.
  unfold counter_ok. induction c as [|[k' v] c IH]; simpl; intros [Hnd Hpos].
  - split; repeat constructor; simpl; [intros [] | lia].
  - inversion Hnd as [|? ? Hk' Hnd']; subst.
    inversion Hpos as [|? ? Hv Hpos']; subst. cbn [snd] in Hv.
    destruct (Z.eqb_spec k k') as [->|Hk]; simpl.
    + split; constructor; try assumption. cbn. lia.
    + destruct (IH (conj Hnd' Hpos')) as [Hnd1 Hpos1].
      split; constructor; try assumption.
      rewrite counter_incr_keys. intros [Heq|Hin]; [now elim Hk | contradiction].
Qed.

Lemma counter_incr_all_ok (ks : list Z) :
  forall c, counter_ok c ->
            counter_ok (fold_left (fun m x => counter_incr x m) ks c).
Proof.
  induction ks as [|k ks IH]; intros c Hc; cbn [fold_left].
  - exact Hc.
  - apply IH. now apply counter_incr_ok.
Qed.

Lemma counter_ok_nil : counter_ok [].
Proof. split; constructor. Qed.

Lemma tally_rows_ok (rows : DataFrame) :
  forall acc,
    counter_ok (fst acc) -> counter_ok (snd acc) ->
    counter_ok (fst (fold_left tally_row rows acc)) /\
    counter_ok (snd (fold_left tally_row rows acc)).
Proof.
  induction rows as [|lr rows IH]; intros [m l] Hm Hl.
  - now split.
  - cbn [fold_left]. apply IH; unfold tally_row; cbn [fst snd] in *.
    + now apply counter_incr_all_ok.
    + now apply counter_incr_ok.
Qed.

Lemma frequency_analysis_ok (S : DataFrame) :
  counter_ok (fst (frequency_analysis S)) /\
  counter_ok (snd (frequency_analysis S)).
Proof. apply tally_rows_ok; apply counter_ok_nil. Qed.

Lemma recent_analysis_ok (S : DataFrame) (n : nat) :
  counter_ok (fst (recent_analysis S n)) /\
  counter_ok (snd (recent_analysis S n)).
Proof. apply tally_rows_ok; apply counter_ok_nil. Qed.

(** A key of a well-built counter is a number with a positive count. *)
Lemma counter_ok_mem (c : Counter) (n : Z) :
  counter_ok c ->
  (In n (map fst c) <-> 1 <= counter_get n c).
Proof.
  unfold counter_ok. induction c as [|[k v] c IH]; simpl; intros [Hnd Hpos].
  - split; [intros [] | lia].
  - inversion Hnd as [|? ? Hk Hnd']; subst.
    inversion Hpos as [|? ? Hv Hpos']; subst. cbn [snd] in Hv.
    destruct (Z.eqb_spec n k) as [->|Hn].
    + split; [intros _; lia | intros _; now left].
    + rewrite <- (IH (conj Hnd' Hpos')). split.
      * intros [Heq|Hin]; [now elim Hn | assumption].
      * intros Hin. now right.
Qed.

(** X2.  The tables of [frequency_analysis] and [recent_analysis] list each
    number once and only with a positive count, and a number is a key of the
    main table exactly when it is drawn in the slice. *)
Theorem frequency_tables_well_built (S : DataFrame) (last_n_draws : nat) (n : Z) :
  NoDup (map fst (fst (frequency_analysis S))) /\
  NoDup (map fst (snd (frequency_analysis S))) /\
  NoDup (map fst (fst (recent_analysis S last_n_draws))) /\
  NoDup (map fst (snd (recent_analysis S last_n_draws))) /\
  Forall (fun kv => 1 <= snd kv) (fst (frequency_analysis S)) /\
  Forall (fun kv => 1 <= snd kv) (snd (frequency_analysis S)) /\
  Forall (fun kv => 1 <= snd kv) (fst (recent_analysis S last_n_draws)) /\
  Forall (fun kv => 1 <= snd kv) (snd (recent_analysis S last_n_draws)) /\
  (In n (map fst (fst (frequency_analysis S))) <-> (0 < appearances n S)%nat).
Proof.
  destruct (frequency_analysis_ok S) as [[Hm1 Hm2] [Hl1 Hl2]].
  destruct (recent_analysis_ok S last_n_draws) as [[Hr1 Hr2] [Hq1 Hq2]].
  repeat (split; [assumption|]).
  rewrite (counter_ok_mem _ n (conj Hm1 Hm2)).
  destruct (frequency_counts_are_appearances_aux S n) as [Hc _].
  rewrite Hc. lia.
Qed.

(* ================================================================== *)
(** ** Positional and pair tables *)

Lemma position_step_get (row : Row) (pf : dict Counter) (i j : Z) :
  dict_get i (position_step row pf j)
    = if i =? j
      then option_map (counter_incr (number_at row j)) (dict_get i pf)
      else dict_get i pf.
Proof.
  unfold position_step.
  destruct (dict_get j pf) as [c|] eqn:Hj.
  - rewrite dict_get_set.
    destruct (Z.eqb_spec i j) as [->|_]; [now rewrite Hj | reflexivity].
  - destruct (Z.eqb_spec i j) as [->|_]; [now rewrite Hj | reflexivity].
Qed.

Lemma position_row_get (row : Row) (i : Z) (js : list Z) :
  NoDup js ->
  forall pf : dict Counter,
    dict_get i (fold_left (position_step row) js pf)
      = if mem i js
        then option_map (counter_incr (number_at row i)) (dict_get i pf)
        else dict_get i pf.
Proof.
  induction js as [|j js IH]; intros Hnd pf.
  - reflexivity.
  - inversion Hnd as [|? ? Hj Hnd']; subst.
    cbn [fold_left]. rewrite (IH Hnd'), position_step_get.
    unfold mem. cbn [existsb].
    destruct (Z.eqb_spec i j) as [->|_]; cbn [orb]; [|reflexivity].
    destruct (existsb (Z.eqb j) js) eqn:Hex; [|reflexivity].
    exfalso. apply Hj. apply mem_In. exact Hex.
Qed.

Lemma range_1_6 : range 1 6 = [1; 2; 3; 4; 5].
Proof. reflexivity. Qed.

Lemma positional_rows_get (i : Z) (rows : DataFrame) :
  mem i (range 1 6) = true ->
  forall pf : dict Counter,
    dict_get i
      (fold_left (fun pf lr => fold_left (position_step (snd lr)) (range 1 6) pf)
                 rows pf)
      = option_map
          (fold_left (fun m x => counter_incr x m)
                     (map (fun lr => number_at (snd lr) i) rows))
          (dict_get i pf).
Proof.
  intros Hi. induction rows as [|lr rows IH]; intros pf.
  - cbn. now destruct (dict_get i pf).
  - cbn [fold_left map]. rewrite IH, position_row_get.
    + rewrite Hi. now destruct (dict_get i pf).
    + rewrite range_1_6. repeat constructor; simpl; intuition discriminate.
Qed.

Lemma count_occ_map_filter {A : Type} (f : A -> Z) (n : Z) (l : list A) :
  count_occ Z.eq_dec (map f l) n = length (filter (fun x => f x =? n) l).
Proof.
  induction l as [|a l IH]; cbn [map count_occ filter].
  - reflexivity.
  - destruct (Z.eq_dec (f a) n) as [Heq|Hne].
    + rewrite Heq, Z.eqb_refl. cbn [length]. now rewrite IH.
    + destruct (Z.eqb_spec (f a) n) as [Heq|_]; [now elim Hne | exact IH].
Qed.

Lemma eq_dec_eqb {A : Type} (a n : Z) (x y : A) :
  (if Z.eq_dec a n then x else y) = (if a =? n then x else y).
Proof.
  destruct (Z.eq_dec a n) as [->|Hne].
  - now rewrite Z.eqb_refl.
  - destruct (Z.eqb_spec a n); [contradiction | reflexivity].
Qed.

Lemma appearances_at_cons (i n : Z) (lr : Z * Row) (rows : DataFrame) :
  appearances_at i n (lr :: rows)
    = ((if (number_at (snd lr) i =? n)%Z then 1 else 0) + appearances_at i n rows)%nat.
Proof.
  unfold appearances_at. cbn [filter].
  now destruct (number_at (snd lr) i =? n).
Qed.

Lemma row_count_by_position (r : Row) (n : Z) :
  count_occ Z.eq_dec (numbers_in_draw r) n
    = ((if (number_at r 1 =? n)%Z then 1 else 0)
       + (if (number_at r 2 =? n)%Z then 1 else 0)
       + (if (number_at r 3 =? n)%Z then 1 else 0)
       + (if (number_at r 4 =? n)%Z then 1 else 0)
       + (if (number_at r 5 =? n)%Z then 1 else 0))%nat.
Proof.
  change (number_at r 1) with (Number1 r).
  change (number_at r 2) with (Number2 r).
  change (number_at r 3) with (Number3 r).
  change (number_at r 4) with (Number4 r).
  change (number_at r 5) with (Number5 r).
  unfold numbers_in_draw. cbn [count_occ]. rewrite !eq_dec_eqb.
  destruct (Number1 r =? n), (Number2 r =? n), (Number3 r =? n),
           (Number4 r =? n), (Number5 r =? n); reflexivity.
Qed.

Lemma appearances_by_position (n : Z) (rows : DataFrame) :
  appearances n rows
    = (appearances_at 1 n rows + appearances_at 2 n rows + appearances_at 3 n rows
       + appearances_at 4 n rows + appearances_at 5 n rows)%nat.
Proof.
  induction rows as [|lr rows IH]; [reflexivity|].
  cbn [appearances fold_right]. fold (appearances n rows).
  rewrite IH, row_count_by_position, !appearances_at_cons. lia.
Qed.

(** X3.  For each of the five positions, [positional_analysis] holds a
    counter whose counts sum to the number of rows and whose count for a
    number is the number of rows that carry it at that position; over the
    five positions these counts add up to the count of
    [frequency_analysis]. *)
Theorem positional_counts (S : DataFrame) (n : Z) :
  Forall (fun i =>
            exists c,
              dict_get i (positional_analysis S) = Some c /\
              sum_values c = Z.of_nat (length S) /\
              counter_get n c = Z.of_nat (appearances_at i n S))
         (range 1 6) /\
  counter_get n (fst (frequency_analysis S))
    = Z.of_nat (appearances_at 1 n S + appearances_at 2 n S
                + appearances_at 3 n S + appearances_at 4 n S
                + appearances_at 5 n S).
Proof.
  split.
  - apply Forall_forall. intros i Hi.
    apply mem_In in Hi.
    unfold positional_analysis.
    rewrite (positional_rows_get i S Hi).
    rewrite (dict_get_map (fun _ => [] : Counter)), Hi. cbn [option_map].
    eexists. split; [reflexivity|]. split.
    + rewrite sum_values_incr_all, length_map. cbn. lia.
    + rewrite counter_get_incr_all, count_occ_map_filter. cbn. reflexivity.
  - destruct (frequency_counts_are_appearances_aux S n) as [Hc _].
    now rewrite Hc, appearances_by_position.
Qed.

Lemma pair_sum_incr (k : Z * Z) (c : PairCounter) :
  pair_sum_values (pair_incr k c) = pair_sum_values c + 1.
Proof.
  unfold pair_sum_values.
  induction c as [|[k' v] c IH]; simpl.
  - lia.
  - destruct (pair_eqb k k'); simpl; lia.
Qed.

Lemma pair_sum_incr_all (ps : list (Z * Z)) :
  forall c,
    pair_sum_values (fold_left (fun c p => pair_incr p c) ps c)
      = pair_sum_values c + Z.of_nat (length ps).
Proof.
  induction ps as [|p ps IH]; intros c; cbn [fold_left length].
  - lia.
  - rewrite IH, pair_sum_incr. lia.
Qed.

Lemma pairs_of_length (l : list Z) :
  (2 * length (pairs_of l) = length l * (length l - 1))%nat.
Proof.
  induction l as [|x l IH]; cbn [pairs_of length].
  - reflexivity.
  - rewrite length_app, length_map. nia.
Qed.

Lemma pair_incr_keys (k x : Z * Z) (c : PairCounter) :
  In x (map fst (pair_incr k c)) -> x = k \/ In x (map fst c).
Proof.
  induction c as [|[k' v] c IH]; simpl.
  - intuition.
  - destruct (pair_eqb k k'); simpl; intuition.
Qed.

Lemma pair_incr_all_keys (ps : list (Z * Z)) :
  forall c x,
    In x (map fst (fold_left (fun c p => pair_incr p c) ps c)) ->
    In x ps \/ In x (map fst c).
Proof.
  induction ps as [|p ps IH]; intros c x Hx; cbn [fold_left] in Hx.
  - now right.
  - destruct (IH _ _ Hx) as [Hin|Hin]; [left; now right|].
    apply pair_incr_keys in Hin. destruct Hin as [->|Hin];
      [left; now left | now right].
Qed.

Lemma pairs_of_ordered (l : list Z) :
  StronglySorted Z.le l ->
  forall p, In p (pairs_of l) -> fst p <= snd p /\ In (fst p) l /\ In (snd p) l.
Proof.
  induction l as [|x l IH]; intros Hs p Hp; cbn [pairs_of] in Hp.
  - destruct Hp.
  - inversion Hs as [|? ? Hl Hx]; subst.
    apply in_app_or in Hp. destruct Hp as [Hp|Hp].
    + apply in_map_iff in Hp. destruct Hp as [y [<- Hy]]. cbn [fst snd].
      rewrite Forall_forall in Hx. repeat split;
        [now apply Hx | now left | now right].
    + destruct (IH Hl p Hp) as [Hle [Hf Hsn]].
      repeat split; [assumption | now right | now right].
Qed.

Lemma sorted_StronglySorted (l : list Z) : StronglySorted Z.le (sorted l).
Proof.
  apply Sorted_StronglySorted.
  - intros a b c Hab Hbc. lia.
  - apply sorted_Sorted.
Qed.

(** X4.  [pair_analysis] counts ten pairs per draw, and each key is a pair
    (a, b) with a <= b of two numbers of one draw. *)
Theorem pair_table (S : DataFrame) :
  pair_sum_values (pair_analysis S) = 10 * Z.of_nat (length S) /\
  Forall (fun kv =>
            fst (fst kv) <= snd (fst kv) /\
            exists lr, In lr S /\
                       In (fst (fst kv)) (numbers_in_draw (snd lr)) /\
                       In (snd (fst kv)) (numbers_in_draw (snd lr)))
         (pair_analysis S).
Proof.
  unfold pair_analysis.
  assert (Hgen : forall (rows : DataFrame) (c : PairCounter),
             let c' := fold_left
                         (fun pair_freq lr =>
                            fold_left (fun c p => pair_incr p c)
                                      (pairs_of (sorted (numbers_in_draw (snd lr))))
                                      pair_freq) rows c in
             pair_sum_values c' = pair_sum_values c + 10 * Z.of_nat (length rows) /\
             forall k, In k (map fst c') ->
                       In k (map fst c) \/
                       (fst k <= snd k /\
                        exists lr, In lr rows /\
                                   In (fst k) (numbers_in_draw (snd lr)) /\
                                   In (snd k) (numbers_in_draw (snd lr)))).
  { induction rows as [|lr rows IH]; intros c; cbn zeta.
    - cbn [fold_left length]. split; [lia | intros k Hk; now left].
    - cbn [fold_left length]. specialize (IH
        (fold_left (fun c p => pair_incr p c)
                   (pairs_of (sorted (numbers_in_draw (snd lr)))) c)).
      cbn zeta in IH. destruct IH as [Hsum Hkeys]. split.
      + rewrite Hsum, pair_sum_incr_all.
        pose proof (pairs_of_length (sorted (numbers_in_draw (snd lr)))) as Hlen.
        assert (Hfive : length (sorted (numbers_in_draw (snd lr))) = 5%nat).
        { unfold sorted.
          rewrite <- (Permutation_length (sort_by_Permutation _ _)). reflexivity. }
        rewrite Hfive in Hlen. lia.
      + intros k Hk. destruct (Hkeys k Hk) as [Hin|[Hle [lr' [Hlr' Hnums]]]].
        * apply pair_incr_all_keys in Hin. destruct Hin as [Hin|Hin]; [|now left].
          right.
          destruct (pairs_of_ordered _ (sorted_StronglySorted _) k Hin)
            as [Hle [Hf Hsn]].
          split; [assumption|]. exists lr. split; [now left|].
          split; eapply Permutation_in;
            try (apply Permutation_sym, sort_by_Permutation); eassumption.
        * right. split; [assumption|]. exists lr'. split; [now right | assumption]. }
  specialize (Hgen S []). cbn zeta in Hgen. destruct Hgen as [Hsum Hkeys].
  split; [rewrite Hsum; cbn; lia|].
  apply Forall_forall. intros kv Hkv.
  destruct (Hkeys (fst kv)) as [[]|H]; [|exact H].
  apply in_map. exact Hkv.
Qed.

(* ================================================================== *)
(** ** Ranked selections *)

Lemma sort_by_In {A : Type} (before : A -> A -> bool) (l : list A) (x : A) :
  In x (sort_by before l) <-> In x l.
Proof.
  split; apply Permutation_in;
    [apply Permutation_sym|]; apply sort_by_Permutation.
Qed.

Lemma sort_by_length {A : Type} (before : A -> A -> bool) (l : list A) :
  length (sort_by before l) = length l.
Proof. symmetry. apply Permutation_length, sort_by_Permutation. Qed.

Lemma In_firstn {A : Type} (n : nat) (l : list A) (x : A) :
  In x (firstn n l) -> In x l.
Proof.
  revert l. induction n as [|n IH]; intros [|a l] Hx; cbn in Hx;
    try contradiction.
  destruct Hx as [->|Hx]; [now left | right; now apply IH].
Qed.

Lemma NoDup_firstn_keep {A : Type} (n : nat) (l : list A) :
  NoDup l -> NoDup (firstn n l).
Proof.
  revert l. induction n as [|n IH]; intros [|a l] Hnd; cbn;
    try constructor.
  - inversion Hnd as [|? ? Ha Hl]; subst.
    intros Hin. apply Ha. eapply In_firstn. exact Hin.
  - inversion Hnd; subst. now apply IH.
Qed.

(** The keys of a ranked prefix of a table: each once, all from the table. *)
Lemma ranked_keys {V : Type} (before : Z * V -> Z * V -> bool)
      (n : nat) (d : list (Z * V)) :
  NoDup (map fst d) ->
  NoDup (map fst (firstn n (sort_by before d))) /\
  (forall x, In x (map fst (firstn n (sort_by before d))) -> In x (map fst d)).
Proof.
  intros Hnd. rewrite <- firstn_map. split.
  - apply NoDup_firstn_keep.
    eapply Permutation_NoDup; [|exact Hnd].
    apply Permutation_map, sort_by_Permutation.
  - intros x Hx. apply In_firstn in Hx.
    eapply Permutation_in; [|exact Hx].
    apply Permutation_sym, Permutation_map, sort_by_Permutation.
Qed.

Lemma dict_keys_get {V : Type} (n : Z) (d : dict V) :
  In n (map fst d) <-> dict_get n d <> None.
Proof.
  induction d as [|[k v] d IH]; simpl.
  - split; [intros [] | intros H; now elim H].
  - destruct (Z.eqb_spec n k) as [->|Hn].
    + split; [discriminate | now left].
    + rewrite <- IH. split; [intros [Heq|Hin] | intros Hin].
      * now elim Hn.
      * assumption.
      * now right.
Qed.

Lemma dict_set_keys_NoDup {V : Type} (k : Z) (v : V) (d : dict V) :
  NoDup (map fst d) -> NoDup (map fst (dict_set k v d)).
Proof.
  induction d as [|[j w] d IH]; simpl; intros Hnd.
  - repeat constructor. intros [].
  - inversion Hnd as [|? ? Hj Hnd']; subst.
    destruct (Z.eqb_spec k j) as [->|Hk]; simpl.
    + now constructor.
    + constructor; [|now apply IH].
      rewrite dict_keys_get, dict_get_set.
      destruct (Z.eqb_spec j k) as [Heq|_]; [now elim Hk|].
      now rewrite <- dict_keys_get.
Qed.

Lemma get_overdue_numbers_keys (frame : DataFrame) (t : Q) :
  NoDup (map fst (get_overdue_numbers frame t)).
Proof.
  unfold get_overdue_numbers.
  destruct (gap_analysis frame) as [avg_gaps current_gaps].
  assert (Hgen : forall nums (overdue : dict OverdueEntry),
             NoDup (map fst overdue) ->
             NoDup (map fst (fold_left (overdue_step avg_gaps current_gaps t)
                                       nums overdue))).
  { induction nums as [|num nums IH]; intros overdue Hnd; cbn [fold_left].
    - exact Hnd.
    - apply IH. unfold overdue_step.
      destruct (dict_get num avg_gaps) as [[a|]|];
        destruct (dict_get num current_gaps) as [cg|]; try exact Hnd.
      cbv zeta. destruct (Qltb _ _); [|exact Hnd].
      now apply dict_set_keys_NoDup. }
  apply Hgen. constructor.
Qed.

(** A listed overdue number was drawn at least twice. *)
Lemma get_overdue_numbers_drawn (frame : DataFrame) (t : Q) (n : Z) :
  In n (map fst (get_overdue_numbers frame t)) ->
  In n main_numbers_range /\ (2 <= appearances n frame)%nat.
Proof.
  rewrite dict_keys_get, get_overdue_numbers_lookup.
  destruct (mem n main_numbers_range) eqn:Hmem; [|intros H; now elim H].
  intros Hentry. split; [now apply mem_In|].
  destruct (le_lt_dec 2 (appearances n frame)) as [Hle|Hlt]; [exact Hle|].
  exfalso. apply Hentry. unfold overdue_entry.
  destruct (gap_analysis_avg_gap frame n) as [_ Hnone].
  now rewrite (Hnone Hlt).
Qed.

Lemma max_from_In {A : Type} (key : A -> Z) (l : list A) :
  forall best, In (max_from key best l) (best :: l).
Proof.
  induction l as [|x l IH]; intros best; cbn [max_from].
  - now left.
  - specialize (IH (if key best <? key x then x else best)).
    destruct IH as [Heq|Hin].
    + rewrite <- Heq. destruct (key best <? key x); [right; now left | now left].
    + right. now right.
Qed.

Lemma max_from_ge {A : Type} (key : A -> Z) (l : list A) :
  forall best y, In y (best :: l) -> key y <= key (max_from key best l).
Proof.
  induction l as [|x l IH]; intros best y Hy; cbn [max_from].
  - destruct Hy as [->|[]]. lia.
  - destruct (Z.ltb_spec (key best) (key x)) as [Hlt|Hge].
    + destruct Hy as [<-|[<-|Hy]].
      * pose proof (IH x x (or_introl eq_refl)). lia.
      * apply IH. now left.
      * apply IH. now right.
    + destruct Hy as [<-|[<-|Hy]].
      * apply IH. now left.
      * pose proof (IH best best (or_introl eq_refl)). lia.
      * apply IH. now right.
Qed.

Lemma py_max_spec {A : Type} (key : A -> Z) (l : list A) (m : A) :
  py_max key l = Ok m ->
  In m l /\ forall y, In y l -> key y <= key m.
Proof.
  destruct l as [|x l]; [discriminate|]. cbn. intros [= <-]. split.
  - apply max_from_In.
  - intros y Hy. now apply max_from_ge.
Qed.

Lemma index_In {A : Type} (l : list A) (i : nat) (a : A) :
  index l i = Ok a -> In a l.
Proof.
  unfold index. destruct (nth_error l i) eqn:Hnth; [|discriminate].
  intros [= <-]. eapply nth_error_In. exact Hnth.
Qed.

Lemma appearances_cons (n : Z) (lr : Z * Row) (rows : DataFrame) :
  appearances n (lr :: rows)
    = (count_occ Z.eq_dec (numbers_in_draw (snd lr)) n + appearances n rows)%nat.
Proof. reflexivity. Qed.

Lemma appearances_firstn (n : Z) (k : nat) (rows : DataFrame) :
  (appearances n (firstn k rows) <= appearances n rows)%nat.
Proof.
  revert rows. induction k as [|k IH]; intros [|lr rows]; cbn [firstn];
    try (cbn; lia).
  rewrite !appearances_cons. specialize (IH rows). lia.
Qed.

Lemma lucky_appearances_firstn (n : Z) (k : nat) (rows : DataFrame) :
  (lucky_appearances n (firstn k rows) <= lucky_appearances n rows)%nat.
Proof.
  unfold lucky_appearances.
  revert rows. induction k as [|k IH]; intros [|lr rows]; cbn [firstn filter];
    try (cbn; lia).
  specialize (IH rows). destruct (LuckyBall (snd lr) =? n); cbn [length]; lia.
Qed.

(** Keys of the tables are numbers and balls drawn in the slice. *)
Lemma frequency_keys_drawn (S : DataFrame) (n : Z) :
  (In n (map fst (fst (frequency_analysis S))) <-> (0 < appearances n S)%nat) /\
  (In n (map fst (snd (frequency_analysis S))) <-> (0 < lucky_appearances n S)%nat).
Proof.
  destruct (frequency_analysis_ok S) as [Hm Hl].
  destruct (frequency_counts_are_appearances_aux S n) as [Hcm Hcl].
  rewrite (counter_ok_mem _ n Hm), (counter_ok_mem _ n Hl), Hcm, Hcl.
  split; lia.
Qed.

Lemma recent_keys_drawn (S : DataFrame) (k : nat) (n : Z) :
  (In n (map fst (fst (recent_analysis S k))) -> (0 < appearances n S)%nat) /\
  (In n (map fst (snd (recent_analysis S k))) -> (0 < lucky_appearances n S)%nat).
Proof.
  change (recent_analysis S k) with (frequency_analysis (firstn k S)).
  destruct (frequency_keys_drawn (firstn k S) n) as [Hm Hl].
  pose proof (appearances_firstn n k S).
  pose proof (lucky_appearances_firstn n k S).
  rewrite Hm, Hl. split; lia.
Qed.

(* ================================================================== *)
(** ** What every recommendation satisfies *)

Lemma extend_new_NoDup (k : nat) (nums selected : list Z) :
  NoDup selected -> NoDup nums -> NoDup (extend_new k nums selected).
Proof.
  intros Hs Hn. unfold extend_new.
  apply NoDup_app; [exact Hs | |].
  - apply NoDup_firstn_keep, NoDup_filter, Hn.
  - intros x Hx Hx'. apply In_firstn, filter_In in Hx'.
    destruct Hx' as [_ Hmem]. apply negb_true_iff in Hmem.
    apply mem_In in Hx. congruence.
Qed.

Lemma extend_new_In (k : nat) (nums selected : list Z) (x : Z) :
  In x (extend_new k nums selected) -> In x selected \/ In x nums.
Proof.
  unfold extend_new. intros Hx. apply in_app_or in Hx.
  destruct Hx as [Hx|Hx]; [now left | right].
  apply In_firstn, filter_In in Hx. tauto.
Qed.

Lemma append_first_new_NoDup (candidates selected : list Z) :
  NoDup selected -> NoDup (append_first_new candidates selected).
Proof.
  intros Hs. induction candidates as [|num rest IH]; cbn [append_first_new].
  - exact Hs.
  - destruct (mem num selected) eqn:Hmem; cbn [negb]; [exact IH|].
    apply NoDup_app; [exact Hs | repeat constructor; intros [] |].
    intros x Hx [<-|[]]. apply mem_In in Hx. congruence.
Qed.

Lemma append_first_new_In (candidates selected : list Z) (x : Z) :
  In x (append_first_new candidates selected) ->
  In x selected \/ In x candidates.
Proof.
  induction candidates as [|num rest IH]; cbn [append_first_new].
  - now left.
  - destruct (negb (mem num selected)).
    + intros Hx. apply in_app_or in Hx.
      destruct Hx as [Hx|[<-|[]]]; [now left | right; now left].
    + intros Hx. destruct (IH Hx); [now left | right; now right].
Qed.

Lemma append_first_new_keeps (candidates selected : list Z) (x : Z) :
  In x selected -> In x (append_first_new candidates selected).
Proof.
  intros Hx. induction candidates as [|num rest IH]; cbn [append_first_new].
  - exact Hx.
  - destruct (negb (mem num selected)); [apply in_or_app; now left | exact IH].
Qed.

Lemma append_first_new_length (candidates selected : list Z) :
  (length selected <= length (append_first_new candidates selected)
   <= length selected + 1)%nat.
Proof.
  induction candidates as [|num rest IH]; cbn [append_first_new].
  - lia.
  - destruct (negb (mem num selected)); [|exact IH].
    rewrite length_app. cbn. lia.
Qed.

Lemma region_freq_In (region : list Z) (main_freq : Counter) (kv : Z * Z) :
  In kv (region_freq region main_freq) ->
  In (fst kv) region /\ In (fst kv) (map fst main_freq) /\
  snd kv = counter_get (fst kv) main_freq.
Proof.
  unfold region_freq. intros Hkv. apply in_map_iff in Hkv.
  destruct Hkv as [n [<- Hn]]. apply filter_In in Hn. destruct Hn as [Hr Hm].
  cbn [fst snd]. repeat split; try assumption.
  apply dict_keys_get. unfold dict_mem in Hm.
  destruct (dict_get n main_freq); [discriminate | discriminate].
Qed.

Lemma range_In (lo hi x : Z) : In x (range lo hi) <-> lo <= x < hi.
Proof.
  unfold range. rewrite in_map_iff. split.
  - intros [i [<- Hi]]. apply in_seq in Hi. lia.
  - intros Hx. exists (Z.to_nat (x - lo)). split; [lia|].
    apply in_seq. lia.
Qed.

Lemma lucky_appearances_pos (lb : Z) (frame : DataFrame) :
  (0 < lucky_appearances lb frame)%nat <->
  exists lr, In lr frame /\ LuckyBall (snd lr) = lb.
Proof.
  unfold lucky_appearances. split.
  - intros Hpos.
    destruct (filter (fun lr => LuckyBall (snd lr) =? lb) frame) as [|lr l] eqn:Hf;
      [cbn in Hpos; lia|].
    assert (Hin : In lr (filter (fun lr => LuckyBall (snd lr) =? lb) frame))
      by (rewrite Hf; now left).
    apply filter_In in Hin. destruct Hin as [Hin Heq].
    exists lr. split; [assumption | now apply Z.eqb_eq].
  - intros [lr [Hin Heq]].
    assert (Hf : In lr (filter (fun lr => LuckyBall (snd lr) =? lb) frame)).
    { apply filter_In. split; [assumption | now apply Z.eqb_eq]. }
    destruct (filter _ frame); [destruct Hf | cbn; lia].
Qed.

Lemma get_overdue_lucky_ball_drawn (frame : DataFrame) (lb : Z) :
  get_overdue_lucky_ball frame = Ok lb -> (0 < lucky_appearances lb frame)%nat.
Proof.
  unfold get_overdue_lucky_ball.
  set (step := fun (seen : dict Z) (lr : Z * Row) =>
                 if dict_mem (LuckyBall (snd lr)) seen then seen
                 else dict_set (LuckyBall (snd lr)) (fst lr) seen).
  assert (Hgen : forall rows (seen : dict Z) b,
             In b (map fst (fold_left step rows seen)) ->
             In b (map fst seen) \/
             exists lr, In lr rows /\ LuckyBall (snd lr) = b).
  { induction rows as [|lr rows IH]; intros seen b Hb; cbn [fold_left] in Hb.
    - now left.
    - destruct (IH _ _ Hb) as [Hin|[lr' [Hlr' Heq]]].
      + unfold step in Hin.
        destruct (dict_mem (LuckyBall (snd lr)) seen); [now left|].
        apply dict_keys_get in Hin. rewrite dict_get_set in Hin.
        destruct (Z.eqb_spec b (LuckyBall (snd lr))) as [->|_].
        * right. exists lr. split; [now left | reflexivity].
        * left. now apply dict_keys_get.
      + right. exists lr'. split; [now right | assumption]. }
  destruct (py_max _ (fold_left step frame [])) as [m|e] eqn:Hmax;
    [|discriminate].
  cbn [bind]. intros [= <-].
  apply py_max_spec in Hmax. destruct Hmax as [Hin _].
  apply lucky_appearances_pos.
  destruct (Hgen frame [] (fst m)) as [[]|H]; [|exact H].
  now apply in_map.
Qed.

Lemma top_keys {V : Type} (before : Z * V -> Z * V -> bool)
      (k n : nat) (d : list (Z * V)) :
  NoDup (map fst d) ->
  NoDup (firstn k (map fst (firstn n (sort_by before d)))) /\
  (length (firstn k (map fst (firstn n (sort_by before d)))) <= k)%nat /\
  (forall x, In x (firstn k (map fst (firstn n (sort_by before d)))) ->
             In x (map fst d)).
Proof.
  intros Hnd. destruct (ranked_keys before n d Hnd) as [Hnd' Hin]. split.
  - now apply NoDup_firstn_keep.
  - split; [apply firstn_le_length|].
    intros x Hx. apply Hin. eapply In_firstn. exact Hx.
Qed.

Lemma appearances_pos (x : Z) (frame : DataFrame) :
  (0 < appearances x frame)%nat ->
  exists lr, In lr frame /\ In x (numbers_in_draw (snd lr)).
Proof.
  induction frame as [|lr frame IH]; [cbn; lia|].
  rewrite appearances_cons. intros Hpos.
  destruct (Nat.eq_dec (count_occ Z.eq_dec (numbers_in_draw (snd lr)) x) 0)
    as [Hz|Hnz].
  - destruct IH as [lr' [Hin Hx]]; [lia|]. exists lr'. split; [now right | exact Hx].
  - exists lr. split; [now left|].
    apply (count_occ_In Z.eq_dec). lia.
Qed.

Lemma Ok_inj {A : Type} (a b : A) : Ok a = Ok b -> a = b.
Proof. intros H. now injection H. Qed.

Lemma hot_style_pick (frame : DataFrame) (main lucky : Counter)
      (before : Z * Z -> Z * Z -> bool) (n : nat) (l : list (Z * Z))
      (why : string) (rec : Recommendation) :
  NoDup (map fst main) ->
  (forall x, In x (map fst main) -> (0 < appearances x frame)%nat) ->
  (forall x, In x (map fst lucky) -> (0 < lucky_appearances x frame)%nat) ->
  (forall kv, In kv l -> In kv lucky) ->
  (top <- index l 0 ;;
   Ok {| main_numbers := firstn 5 (map fst (firstn n (sort_by before main)));
         lucky_ball := [fst top];
         reasoning := why |}) = Ok rec ->
  valid_pick frame rec.
Proof.
  intros Hnd Hmain Hlucky Hl Hrun.
  destruct (index l 0) as [top|e] eqn:Htop; [|discriminate].
  cbv beta match delta [bind] in Hrun. apply Ok_inj in Hrun; subst rec.
  destruct (top_keys before 5 n main Hnd) as [H1 [H2 H3]].
  unfold valid_pick. cbv beta match delta [main_numbers lucky_ball].
  repeat split; try assumption.
  - intros x Hx. apply Hmain, H3, Hx.
  - exists (fst top). split; [reflexivity|].
    apply Hlucky. apply in_map. apply Hl. eapply index_In. exact Htop.
Qed.

Lemma valid_pick_in_range (frame : DataFrame) (rec : Recommendation) :
  valid_pick frame rec ->
  Forall well_formed_row (map snd frame) ->
  Forall (fun x => 1 <= x <= 48) (main_numbers rec) /\
  Forall (fun lb => 1 <= lb <= 18) (lucky_ball rec).
Proof.
  intros [_ [_ [Hdrawn [lb [Hlb Hlbdrawn]]]]] Hwf.
  rewrite Forall_forall in Hwf. split.
  - apply Forall_forall. intros x Hx.
    destruct (appearances_pos x frame (Hdrawn x Hx)) as [lr [Hin Hnum]].
    destruct (Hwf (snd lr) (in_map snd _ _ Hin)) as [_ [Hrange _]].
    rewrite Forall_forall in Hrange. now apply Hrange.
  - rewrite Hlb. constructor; [|constructor].
    apply lucky_appearances_pos in Hlbdrawn.
    destruct Hlbdrawn as [lr [Hin <-]].
    now destruct (Hwf (snd lr) (in_map snd _ _ Hin)) as [_ [_ Hrange]].
Qed.

Lemma generate_recommendations_valid
      (frame : DataFrame) (strategy : string) (rec : Recommendation) :
  generate_recommendations frame strategy = Ok rec -> valid_pick frame rec.
Proof.
  unfold generate_recommendations.
  destruct (frequency_analysis_ok frame) as [[Hm _] [Hl _]].
  destruct (recent_analysis_ok frame 50) as [[Hrm _] [Hrl _]].
  pose proof (fun n => proj1 (proj1 (frequency_keys_drawn frame n))) as Hmd.
  pose proof (fun n => proj1 (proj2 (frequency_keys_drawn frame n))) as Hld.
  pose proof (fun n => proj1 (recent_keys_drawn frame 50 n)) as Hrmd.
  pose proof (fun n => proj2 (recent_keys_drawn frame 50 n)) as Hrld.
  pose proof (get_overdue_numbers_keys frame (3 # 2)) as Hod.
  pose proof (get_overdue_numbers_drawn frame (3 # 2)) as Hodd.
  destruct (frequency_analysis frame) as [main_freq lucky_freq].
  destruct (recent_analysis frame 50) as [recent_main recent_lucky].
  cbn [fst snd] in Hm, Hl, Hrm, Hrl, Hmd, Hld, Hrmd, Hrld.
  cbv beta match zeta.
  set (overdue := get_overdue_numbers frame (3 # 2)) in *.
  destruct (strategy =? "hot")%string.
  { intros Hrun.
    eapply (hot_style_pick frame main_freq lucky_freq _ _ _ _ rec Hm Hmd Hld);
      [|exact Hrun].
    intros kv Hkv. unfold most_common in Hkv.
    apply In_firstn in Hkv. now apply sort_by_In in Hkv. }
  destruct (strategy =? "cold")%string.
  { intros Hrun.
    eapply (hot_style_pick frame main_freq lucky_freq _ _ _ _ rec Hm Hmd Hld);
      [|exact Hrun].
    intros kv Hkv. now apply sort_by_In in Hkv. }
  destruct (strategy =? "overdue")%string.
  { intros Hrun.
    destruct (get_overdue_lucky_ball frame) as [lb|e] eqn:Hlb; [|discriminate].
    cbv beta match delta [bind] in Hrun. apply Ok_inj in Hrun; subst rec.
    destruct (ranked_keys
                (fun y x : Z * OverdueEntry => Qltb (ratio (snd x)) (ratio (snd y)))
                5 overdue Hod) as [H1 H2].
    unfold valid_pick, overdue_sorted. cbv beta match delta [main_numbers lucky_ball].
    repeat split.
    - exact H1.
    - rewrite length_map. apply firstn_le_length.
    - intros x Hx. destruct (Hodd x (H2 x Hx)). lia.
    - exists lb. split; [reflexivity|]. now apply get_overdue_lucky_ball_drawn. }
  destruct (strategy =? "recent_hot")%string.
  { intros Hrun.
    eapply (hot_style_pick frame recent_main recent_lucky _ _ _ _ rec
              Hrm Hrmd Hrld); [|exact Hrun].
    intros kv Hkv. unfold most_common in Hkv.
    apply In_firstn in Hkv. now apply sort_by_In in Hkv. }
  destruct (strategy =? "jackpot_spread")%string.
  { intros Hrun.
    destruct (py_max snd (region_freq (range 1 13) main_freq)) as [s1|e] eqn:H1;
      cbv beta match delta [bind] in Hrun; [|discriminate].
    destruct (py_max snd (region_freq (range 13 25) main_freq)) as [s2|e] eqn:H2;
      cbv beta match delta [bind] in Hrun; [|discriminate].
    destruct (py_max snd (region_freq (range 25 37) main_freq)) as [s3|e] eqn:H3;
      cbv beta match delta [bind] in Hrun; [|discriminate].
    destruct (py_max snd (region_freq (range 37 49) main_freq)) as [s4|e] eqn:H4;
      cbv beta match delta [bind] in Hrun; [|discriminate].
    destruct (index (most_common 1 lucky_freq) 0) as [top|e] eqn:Htop;
      [|discriminate].
    cbv beta match delta [bind] in Hrun. apply Ok_inj in Hrun; subst rec.
    apply py_max_spec in H1, H2, H3, H4.
    destruct H1 as [H1 _], H2 as [H2 _], H3 as [H3 _], H4 as [H4 _].
    apply region_freq_In in H1, H2, H3, H4.
    destruct H1 as [R1 [K1 _]], H2 as [R2 [K2 _]],
             H3 as [R3 [K3 _]], H4 as [R4 [K4 _]].
    apply range_In in R1, R2, R3, R4.
    set (cands := map fst (most_common 20 recent_main)).
    assert (Hsel : NoDup [fst s1; fst s2; fst s3; fst s4]).
    { repeat constructor; cbn [In]; lia. }
    unfold valid_pick. cbv beta match delta [main_numbers lucky_ball].
    repeat split.
    - eapply Permutation_NoDup; [apply sort_by_Permutation|].
      apply NoDup_firstn_keep. now apply append_first_new_NoDup.
    - unfold sorted. rewrite sort_by_length. apply firstn_le_length.
    - intros x Hx. unfold sorted in Hx. apply sort_by_In in Hx.
      apply In_firstn, append_first_new_In in Hx.
      destruct Hx as [Hx|Hx].
      + apply Hmd. cbn [In] in Hx.
        destruct Hx as [<-|[<-|[<-|[<-|[]]]]]; assumption.
      + apply Hrmd. unfold cands, most_common in Hx.
        exact (proj2 (ranked_keys _ 20 recent_main Hrm) x Hx).
    - exists (fst top). split; [reflexivity|].
      apply Hld, in_map. apply index_In in Htop. unfold most_common in Htop.
      apply In_firstn in Htop. now apply sort_by_In in Htop. }
  intros Hrun.
  destruct (index (most_common 3 lucky_freq) 1) as [second|e] eqn:Hsecond;
    [|discriminate].
  cbv beta match delta [bind] in Hrun. apply Ok_inj in Hrun; subst rec.
  destruct (ranked_keys (fun y x : Z * Z => snd x <? snd y) 15 main_freq Hm)
    as [Hh1 Hh2].
  destruct (ranked_keys (fun y x : Z * Z => snd x <? snd y) 10 recent_main Hrm)
    as [Hr1 Hr2].
  destruct (ranked_keys
              (fun y x : Z * OverdueEntry => Qltb (ratio (snd x)) (ratio (snd y)))
              10 overdue Hod) as [Ho1 Ho2].
  unfold valid_pick, most_common, overdue_sorted. cbv beta match delta [main_numbers lucky_ball].
  repeat split.
  - apply NoDup_firstn_keep.
    repeat apply extend_new_NoDup; try assumption. constructor.
  - apply firstn_le_length.
  - intros x Hx. apply In_firstn in Hx.
    apply extend_new_In in Hx. destruct Hx as [Hx|Hx];
      [|now apply Hrmd, Hr2].
    apply extend_new_In in Hx. destruct Hx as [Hx|Hx];
      [|destruct (Hodd x (Ho2 x Hx)); lia].
    apply extend_new_In in Hx. destruct Hx as [[]|Hx]. now apply Hmd, Hh2.
  - exists (fst second). split; [reflexivity|].
    apply Hld, in_map. apply index_In in Hsecond. unfold most_common in Hsecond.
    apply In_firstn in Hsecond. now apply sort_by_In in Hsecond.
Qed.

(** X5.  Whatever the strategy name and the history, a recommendation that
    [generate_recommendations] returns holds at most five main numbers,
    pairwise distinct and each drawn in the history, and exactly one lucky
    ball, drawn in the history; over well-formed draws the main numbers
    therefore lie in 1..48 and the lucky ball in 1..18. *)
Theorem recommendation_picks_valid
        (frame : DataFrame) (strategy : string) (rec : Recommendation)
        (Hrun : generate_recommendations frame strategy = Ok rec) :
  NoDup (main_numbers rec) /\
  (length (main_numbers rec) <= 5)%nat /\
  (forall x, In x (main_numbers rec) -> (0 < appearances x frame)%nat) /\
  (exists lb, lucky_ball rec = [lb] /\ (0 < lucky_appearances lb frame)%nat) /\
  (Forall well_formed_row (map snd frame) ->
   Forall (fun x => 1 <= x <= 48) (main_numbers rec) /\
   Forall (fun lb => 1 <= lb <= 18) (lucky_ball rec)).
Proof.
  pose proof (generate_recommendations_valid frame strategy rec Hrun) as Hv.
  pose proof (valid_pick_in_range frame rec Hv) as Hr.
  destruct Hv as [H1 [H2 [H3 H4]]]. repeat split; try assumption; now apply Hr.
Qed.

Lemma first_row_keys (lr : Z * Row) (rest : DataFrame) :
  NoDup (numbers_in_draw (snd lr)) ->
  (5 <= length (fst (frequency_analysis (lr :: rest))))%nat /\
  (1 <= length (snd (frequency_analysis (lr :: rest))))%nat.
Proof.
  intros Hnd. split.
  - rewrite <- (length_map fst).
    change 5%nat with (length (numbers_in_draw (snd lr))).
    apply NoDup_incl_length; [exact Hnd|].
    intros x Hx. apply frequency_keys_drawn. rewrite appearances_cons.
    apply (count_occ_In Z.eq_dec) in Hx. lia.
  - rewrite <- (length_map fst).
    assert (Hin : In (LuckyBall (snd lr))
                     (map fst (snd (frequency_analysis (lr :: rest))))).
    { apply frequency_keys_drawn. apply lucky_appearances_pos.
      exists lr. split; [now left | reflexivity]. }
    destruct (map fst (snd (frequency_analysis (lr :: rest))));
      [destruct Hin | cbn; lia].
Qed.

Lemma hot_style_five (main : Counter) (before : Z * Z -> Z * Z -> bool)
      (n : nat) (l : list (Z * Z)) (why : string) :
  (5 <= length main)%nat -> (5 <= n)%nat -> (1 <= length l)%nat ->
  exists rec,
    (top <- index l 0 ;;
     Ok {| main_numbers := firstn 5 (map fst (firstn n (sort_by before main)));
           lucky_ball := [fst top];
           reasoning := why |}) = Ok rec /\
    length (main_numbers rec) = 5%nat.
Proof.
  intros Hmain Hn Hl.
  destruct l as [|top l]; [cbn in Hl; lia|].
  eexists. split; [reflexivity|].
  cbv beta match delta [main_numbers].
  rewrite length_firstn, length_map, length_firstn, sort_by_length. lia.
Qed.

(** X6.  On a non-empty history of well-formed draws the strategies [hot],
    [cold] and [recent_hot] do not raise and return exactly five pairwise
    distinct main numbers in 1..48 and one lucky ball in 1..18. *)
Theorem frequency_strategies_return_five
        (frame : DataFrame) (strategy : string)
        (Hnonempty : frame <> [])
        (Hwf : Forall well_formed_row (map snd frame))
        (Hstrategy : In strategy ["hot"; "cold"; "recent_hot"]%string) :
  exists rec,
    generate_recommendations frame strategy = Ok rec /\
    length (main_numbers rec) = 5%nat /\
    NoDup (main_numbers rec) /\
    Forall (fun x => 1 <= x <= 48) (main_numbers rec) /\
    exists lb, lucky_ball rec = [lb] /\ 1 <= lb <= 18.
Proof.
  destruct frame as [|lr rest]; [now elim Hnonempty|].
  assert (Hnd : NoDup (numbers_in_draw (snd lr))).
  { inversion Hwf as [|? ? [Hnd _] _]; subst. exact Hnd. }
  destruct (first_row_keys lr rest Hnd) as [Hmain Hlucky].
  destruct (first_row_keys lr (firstn 49 rest) Hnd) as [Hrmain Hrlucky].
  change (frequency_analysis (lr :: firstn 49 rest))
    with (recent_analysis (lr :: rest) 50) in Hrmain, Hrlucky.
  assert (Hex : exists rec,
             generate_recommendations (lr :: rest) strategy = Ok rec /\
             length (main_numbers rec) = 5%nat).
  { unfold generate_recommendations.
    destruct (frequency_analysis (lr :: rest)) as [main_freq lucky_freq].
    destruct (recent_analysis (lr :: rest) 50) as [recent_main recent_lucky].
    cbn [fst snd] in Hmain, Hlucky, Hrmain, Hrlucky.
    cbv beta match zeta.
    destruct Hstrategy as [<-|[<-|[<-|[]]]].
    - change ("hot" =? "hot")%string with true. cbv beta match.
      apply hot_style_five; try lia.
      unfold most_common. rewrite length_firstn, sort_by_length. lia.
    - change ("cold" =? "hot")%string with false.
      change ("cold" =? "cold")%string with true. cbv beta match.
      apply hot_style_five; try lia.
      unfold sorted_by_count. rewrite sort_by_length. lia.
    - change ("recent_hot" =? "hot")%string with false.
      change ("recent_hot" =? "cold")%string with false.
      change ("recent_hot" =? "overdue")%string with false.
      change ("recent_hot" =? "recent_hot")%string with true. cbv beta match.
      apply hot_style_five; try lia.
      unfold most_common. rewrite length_firstn, sort_by_length. lia. }
  destruct Hex as [rec [Hrec Hlen]]. exists rec.
  pose proof (generate_recommendations_valid _ _ _ Hrec) as Hv.
  destruct (valid_pick_in_range _ _ Hv Hwf) as [Hr1 Hr2].
  destruct Hv as [Hnodup [_ [_ [lb [Hlb _]]]]].
  repeat split; try assumption.
  exists lb. split; [assumption|].
  rewrite Hlb in Hr2. now inversion Hr2.
Qed.

(* ================================================================== *)
(** ** Ranked picks are the best ranked *)

Section SortSpec.
Context {A : Type}.
Variable before : A -> A -> bool.
Hypothesis before_asym : forall x y, before x y = true -> before y x = false.
Hypothesis before_ntrans :
  forall x y z, before y x = false -> before z y = false -> before z x = false.

Lemma insert_by_In (x y : A) (l : list A) :
  In y (insert_by before x l) -> y = x \/ In y l.
Proof.
  intros Hy. apply (Permutation_in _ (Permutation_sym (insert_by_Permutation before x l))) in Hy.
  destruct Hy as [<-|Hy]; [now left | now right].
Qed.

Lemma insert_by_sorted (x : A) (l : list A) :
  StronglySorted (fun a b => before b a = false) l ->
  StronglySorted (fun a b => before b a = false) (insert_by before x l).
Proof.
  induction l as [|y l IH]; intros Hs; cbn [insert_by].
  - repeat constructor.
  - inversion Hs as [|? ? Hl Hy]; subst.
    destruct (before y x) eqn:Hyx.
    + constructor; [now apply IH|].
      apply Forall_forall. intros z Hz. apply insert_by_In in Hz.
      destruct Hz as [->|Hz]; [now apply before_asym|].
      rewrite Forall_forall in Hy. now apply Hy.
    + constructor; [exact Hs|].
      constructor; [exact Hyx|].
      rewrite Forall_forall in Hy |- *. intros z Hz.
      eapply before_ntrans; [exact Hyx | now apply Hy].
Qed.

Lemma sort_by_sorted (l : list A) :
  StronglySorted (fun a b => before b a = false) (sort_by before l).
Proof.
  induction l as [|x l IH]; cbn [sort_by fold_right].
  - constructor.
  - now apply insert_by_sorted.
Qed.

Lemma sorted_prefix_dominates (l : list A) :
  StronglySorted (fun a b => before b a = false) l ->
  forall n a b, In a (firstn n l) -> In b (skipn n l) -> before b a = false.
Proof.
  intros Hs. induction Hs as [|x l Hl IH Hx]; intros n a b Ha Hb.
  - destruct n; destruct Ha.
  - destruct n as [|n]; [destruct Ha|].
    cbn [firstn skipn] in Ha, Hb. destruct Ha as [<-|Ha].
    + rewrite Forall_forall in Hx. apply Hx.
      rewrite <- (firstn_skipn n l). apply in_or_app. now right.
    + now apply (IH n).
Qed.

(** An element left out of the first [n] of the sorted list does not sort
    strictly before any of the first [n]. *)
Lemma ranked_prefix_best (n : nat) (l : list A) (a b : A) :
  In a (firstn n (sort_by before l)) ->
  In b l -> ~ In b (firstn n (sort_by before l)) ->
  before b a = false.
Proof.
  intros Ha Hb Hnb.
  apply (sorted_prefix_dominates _ (sort_by_sorted l) n); [exact Ha|].
  apply (sort_by_In before) in Hb.
  rewrite <- (firstn_skipn n (sort_by before l)) in Hb.
  apply in_app_or in Hb. destruct Hb; [contradiction | assumption].
Qed.
End SortSpec.

Lemma counter_get_In (c : Counter) (k v : Z) :
  NoDup (map fst c) -> In (k, v) c -> counter_get k c = v.
Proof.
  induction c as [|[k' v'] c IH]; intros Hnd Hin; [destruct Hin|].
  inversion Hnd as [|? ? Hk Hnd']; subst. cbn [counter_get].
  destruct Hin as [[= -> ->]|Hin].
  - now rewrite Z.eqb_refl.
  - destruct (Z.eqb_spec k k') as [->|_]; [|now apply IH].
    elim Hk. change k' with (fst (k', v)). now apply in_map.
Qed.

Lemma firstn_5_10 {A : Type} (l : list A) :
  firstn 5 (firstn 10 l) = firstn 5 l.
Proof. now rewrite firstn_firstn. Qed.

Lemma NoDup_keys_unique {V : Type} (d : list (Z * V)) (k : Z) (v w : V) :
  NoDup (map fst d) -> In (k, v) d -> In (k, w) d -> v = w.
Proof.
  induction d as [|[k' u] d IH]; intros Hnd Hv Hw; [destruct Hv|].
  inversion Hnd as [|? ? Hk Hnd']; subst.
  destruct Hv as [Hv|Hv]; destruct Hw as [Hw|Hw].
  - congruence.
  - injection Hv as -> _. elim Hk. change k with (fst (k, w)). now apply in_map.
  - injection Hw as -> _. elim Hk. change k with (fst (k, v)). now apply in_map.
  - now apply IH.
Qed.

(** The first [n] keys of a table ranked by [before]: a key of the table
    that is not among them does not sort strictly before one that is. *)
Lemma ranked_keys_best {V : Type} (before : Z * V -> Z * V -> bool)
      (n : nat) (d : list (Z * V)) (x y : Z) (vx vy : V) :
  (forall a b, before a b = true -> before b a = false) ->
  (forall a b c, before b a = false -> before c b = false -> before c a = false) ->
  NoDup (map fst d) ->
  In x (map fst (firstn n (sort_by before d))) ->
  ~ In y (map fst (firstn n (sort_by before d))) ->
  In (x, vx) d -> In (y, vy) d ->
  before (y, vy) (x, vx) = false.
Proof.
  intros Hasym Hnt Hnd Hx Hy Hxd Hyd.
  apply (ranked_prefix_best before Hasym Hnt n d); [|exact Hyd|].
  - apply in_map_iff in Hx. destruct Hx as [[x' v'] [Heq Hin]].
    cbn [fst] in Heq. subst x'.
    assert (Hd : In (x, v') d).
    { apply (sort_by_In before). eapply In_firstn. exact Hin. }
    now rewrite (NoDup_keys_unique d x vx v' Hnd Hxd Hd).
  - intros Hin. apply Hy.
    change y with (fst (y, vy)). now apply in_map.
Qed.

Lemma counter_In_get (c : Counter) (k : Z) :
  In k (map fst c) -> In (k, counter_get k c) c.
Proof.
  induction c as [|[k' v] c IH]; intros Hin; [destruct Hin|].
  cbn [counter_get].
  destruct (Z.eqb_spec k k') as [->|Hk]; [now left|].
  right. apply IH. destruct Hin as [Heq|Hin]; [now elim Hk | exact Hin].
Qed.

(** X7.  The [hot] pick holds the most drawn numbers: no number left out
    was drawn more often than a number picked.  The [cold] pick holds the
    least drawn among the numbers drawn at least once: no drawn number left
    out was drawn less often than a number picked. *)
Theorem ranked_picks_extremal
        (frame : DataFrame) (rec : Recommendation) (x y : Z) :
  (generate_recommendations frame "hot" = Ok rec ->
   In x (main_numbers rec) -> ~ In y (main_numbers rec) ->
   (appearances y frame <= appearances x frame)%nat) /\
  (generate_recommendations frame "cold" = Ok rec ->
   In x (main_numbers rec) -> ~ In y (main_numbers rec) ->
   (0 < appearances y frame)%nat ->
   (appearances x frame <= appearances y frame)%nat).
Proof.
  unfold generate_recommendations.
  destruct (frequency_analysis_ok frame) as [[Hm _] _].
  pose proof (fun n => proj1 (frequency_counts_are_appearances_aux frame n)) as Hc.
  pose proof (fun n => proj1 (frequency_keys_drawn frame n)) as Hk.
  destruct (frequency_analysis frame) as [main_freq lucky_freq].
  destruct (recent_analysis frame 50) as [recent_main recent_lucky].
  cbn [fst snd] in Hm, Hc, Hk. cbv beta match zeta.
  change ("hot" =? "hot")%string with true.
  change ("cold" =? "hot")%string with false.
  change ("cold" =? "cold")%string with true.
  cbv beta match. split.
  - intros Hrun Hx Hy.
    destruct (index (most_common 1 lucky_freq) 0) as [top|e]; [|discriminate].
    cbv beta match delta [bind] in Hrun. apply Ok_inj in Hrun. subst rec.
    cbv beta match delta [main_numbers] in Hx, Hy.
    unfold most_common in Hx, Hy.
    rewrite <- firstn_map, firstn_5_10, firstn_map in Hx, Hy.
    destruct (in_dec Z.eq_dec y (map fst main_freq)) as [Hyk|Hyk].
    + assert (Hxk : In x (map fst main_freq)).
      { now apply (ranked_keys (fun a b : Z * Z => snd b <? snd a) 5 main_freq Hm). }
      pose proof (ranked_keys_best (fun a b : Z * Z => snd b <? snd a) 5 main_freq
                    x y (counter_get x main_freq) (counter_get y main_freq)) as Hbest.
      cbn [snd] in Hbest.
      assert (Hle : (counter_get x main_freq <? counter_get y main_freq) = false).
      { apply Hbest; try assumption; try (now apply counter_In_get).
        - intros a b Hab. apply Z.ltb_lt in Hab. apply Z.ltb_ge. lia.
        - intros a b c Hab Hbc. apply Z.ltb_ge in Hab, Hbc. apply Z.ltb_ge. lia. }
      apply Z.ltb_ge in Hle. rewrite !Hc in Hle. lia.
    + assert (Hz : ~ (0 < appearances y frame)%nat) by (rewrite <- Hk; exact Hyk).
      lia.
  - intros Hrun Hx Hy Hdrawn.
    destruct (index (sorted_by_count lucky_freq) 0) as [bottom|e]; [|discriminate].
    cbv beta match delta [bind] in Hrun. apply Ok_inj in Hrun. subst rec.
    cbv beta match delta [main_numbers] in Hx, Hy.
    unfold sorted_by_count in Hx, Hy.
    rewrite <- firstn_map, firstn_5_10, firstn_map in Hx, Hy.
    assert (Hyk : In y (map fst main_freq)) by now apply Hk.
    assert (Hxk : In x (map fst main_freq)).
    { now apply (ranked_keys (fun a b : Z * Z => snd a <? snd b) 5 main_freq Hm). }
    pose proof (ranked_keys_best (fun a b : Z * Z => snd a <? snd b) 5 main_freq
                  x y (counter_get x main_freq) (counter_get y main_freq)) as Hbest.
    cbn [snd] in Hbest.
    assert (Hle : (counter_get y main_freq <? counter_get x main_freq) = false).
    { apply Hbest; try assumption; try (now apply counter_In_get).
      - intros a b Hab. apply Z.ltb_lt in Hab. apply Z.ltb_ge. lia.
      - intros a b c Hab Hbc. apply Z.ltb_ge in Hab, Hbc. apply Z.ltb_ge. lia. }
    apply Z.ltb_ge in Hle. rewrite !Hc in Hle. lia.
Qed.

(* ================================================================== *)
(** ** Edge cases of the strategies *)

(** X8.  On an empty history every strategy name makes
    [generate_recommendations] raise: [ValueError] (a [max] over nothing)
    for [overdue] and [jackpot_spread], [IndexError] (an index into an empty
    ranking) for [hot], [cold], [recent_hot], [balanced] and any other
    name. *)
Theorem recommendations_raise_on_empty (strategy : string) :
  generate_recommendations [] strategy
    = Raise (if ((strategy =? "hot") || (strategy =? "cold"))%string then IndexError
             else if (strategy =? "overdue")%string then ValueError
             else if (strategy =? "recent_hot")%string then IndexError
             else if (strategy =? "jackpot_spread")%string then ValueError
             else IndexError).
Proof.
  unfold generate_recommendations.
  change (frequency_analysis []) with (([], []) : Counter * Counter).
  change (recent_analysis [] 50) with (([], []) : Counter * Counter).
  cbv beta match zeta.
  destruct (strategy =? "hot")%string; [reflexivity|].
  destruct (strategy =? "cold")%string; [reflexivity|].
  destruct (strategy =? "overdue")%string; [reflexivity|].
  destruct (strategy =? "recent_hot")%string; [reflexivity|].
  destruct (strategy =? "jackpot_spread")%string; reflexivity.
Qed.

Lemma recent_is_overall (frame : DataFrame) (n : nat) :
  (length frame <= n)%nat -> recent_analysis frame n = frequency_analysis frame.
Proof.
  intros Hlen. unfold recent_analysis, frequency_analysis, head.
  now rewrite firstn_all2.
Qed.

(** X9.  While the history holds at most 50 draws the recent window is the
    whole history, so [recent_hot] picks the same main numbers and the same
    lucky ball as [hot], or raises the same exception. *)
Theorem recent_hot_is_hot_on_short_history
        (frame : DataFrame) (Hshort : (length frame <= 50)%nat) :
  match generate_recommendations frame "hot",
        generate_recommendations frame "recent_hot" with
  | Ok a, Ok b => main_numbers a = main_numbers b /\ lucky_ball a = lucky_ball b
  | Raise e, Raise e' => e = e'
  | _, _ => False
  end.
Proof.
  unfold generate_recommendations.
  rewrite (recent_is_overall frame 50 Hshort).
  destruct (frequency_analysis frame) as [main_freq lucky_freq].
  cbv beta match zeta.
  change ("hot" =? "hot")%string with true.
  change ("recent_hot" =? "hot")%string with false.
  change ("recent_hot" =? "cold")%string with false.
  change ("recent_hot" =? "overdue")%string with false.
  change ("recent_hot" =? "recent_hot")%string with true.
  cbv beta match.
  destruct (index (most_common 1 lucky_freq) 0) as [top|e];
    cbv beta match delta [bind main_numbers lucky_ball]; [split|]; reflexivity.
Qed.

Lemma recent_hot_is_hot_on_short_history_witness :
  match generate_recommendations (df fixture) "hot",
        generate_recommendations (df fixture) "recent_hot" with
  | Ok a, Ok b => main_numbers a = main_numbers b /\ lucky_ball a = lucky_ball b
  | Raise e, Raise e' => e = e'
  | _, _ => False
  end.
Proof.
  apply (recent_hot_is_hot_on_short_history (df fixture)). cbn. lia.
Defined.

Lemma region_freq_get (region : list Z) (main_freq : Counter) (y : Z) :
  In y region -> In y (map fst main_freq) ->
  In (y, counter_get y main_freq) (region_freq region main_freq).
Proof.
  intros Hr Hk. unfold region_freq.
  apply in_map_iff. exists y. split; [reflexivity|].
  apply filter_In. split; [exact Hr|].
  unfold dict_mem. apply dict_keys_get in Hk.
  destruct (dict_get y main_freq); [reflexivity | now elim Hk].
Qed.

Lemma quarter_pick (frame : DataFrame) (lo hi : Z) (s : Z * Z) :
  py_max snd (region_freq (range lo hi) (fst (frequency_analysis frame))) = Ok s ->
  lo <= fst s < hi /\
  (0 < appearances (fst s) frame)%nat /\
  forall y, lo <= y < hi ->
            (appearances y frame <= appearances (fst s) frame)%nat.
Proof.
  intros Hmax. apply py_max_spec in Hmax. destruct Hmax as [Hin Hbest].
  pose proof (region_freq_In _ _ _ Hin) as [Hr [Hk Hv]].
  apply range_In in Hr.
  pose proof (fun n => proj1 (frequency_counts_are_appearances_aux frame n)) as Hc.
  pose proof (fun n => proj1 (frequency_keys_drawn frame n)) as Hd.
  split; [exact Hr|]. split; [now apply Hd|].
  intros y Hy.
  destruct (Nat.eq_dec (appearances y frame) 0) as [Hz|Hnz]; [lia|].
  assert (Hyk : In y (map fst (fst (frequency_analysis frame)))).
  { apply Hd. lia. }
  pose proof (Hbest _ (region_freq_get (range lo hi) _ y
                         (proj2 (range_In lo hi y) Hy) Hyk)) as Hle.
  cbn [snd] in Hle. rewrite Hv, !Hc in Hle. lia.
Qed.

(** X10.  A [jackpot_spread] pick is sorted, holds four or five numbers,
    and for each quarter 1-12, 13-24, 25-36, 37-48 it holds a number of that
    quarter that was drawn at least as often as every number of the
    quarter. *)
Theorem jackpot_spread_covers_quarters
        (frame : DataFrame) (rec : Recommendation)
        (Hrun : generate_recommendations frame "jackpot_spread" = Ok rec) :
  Sorted Z.le (main_numbers rec) /\
  (4 <= length (main_numbers rec) <= 5)%nat /\
  Forall (fun quarter : Z * Z =>
            exists x,
              In x (main_numbers rec) /\
              fst quarter <= x < snd quarter /\
              forall y, fst quarter <= y < snd quarter ->
                        (appearances y frame <= appearances x frame)%nat)
         [(1, 13); (13, 25); (25, 37); (37, 49)].
Proof.
  unfold generate_recommendations in Hrun.
  pose proof (quarter_pick frame 1 13) as Q1.
  pose proof (quarter_pick frame 13 25) as Q2.
  pose proof (quarter_pick frame 25 37) as Q3.
  pose proof (quarter_pick frame 37 49) as Q4.
  destruct (frequency_analysis frame) as [main_freq lucky_freq].
  destruct (recent_analysis frame 50) as [recent_main recent_lucky].
  cbn [fst] in Q1, Q2, Q3, Q4. cbv beta match zeta in Hrun.
  change ("jackpot_spread" =? "hot")%string with false in Hrun.
  change ("jackpot_spread" =? "cold")%string with false in Hrun.
  change ("jackpot_spread" =? "overdue")%string with false in Hrun.
  change ("jackpot_spread" =? "recent_hot")%string with false in Hrun.
  change ("jackpot_spread" =? "jackpot_spread")%string with true in Hrun.
  cbv beta match in Hrun.
  destruct (py_max snd (region_freq (range 1 13) main_freq)) as [s1|e];
    cbv beta match delta [bind] in Hrun; [|discriminate].
  destruct (py_max snd (region_freq (range 13 25) main_freq)) as [s2|e];
    cbv beta match delta [bind] in Hrun; [|discriminate].
  destruct (py_max snd (region_freq (range 25 37) main_freq)) as [s3|e];
    cbv beta match delta [bind] in Hrun; [|discriminate].
  destruct (py_max snd (region_freq (range 37 49) main_freq)) as [s4|e];
    cbv beta match delta [bind] in Hrun; [|discriminate].
  destruct (index (most_common 1 lucky_freq) 0) as [top|e];
    cbv beta match delta [bind] in Hrun; [|discriminate].
  apply Ok_inj in Hrun. subst rec. cbv beta match delta [main_numbers].
  specialize (Q1 s1 eq_refl). specialize (Q2 s2 eq_refl).
  specialize (Q3 s3 eq_refl). specialize (Q4 s4 eq_refl).
  set (cands := map fst (most_common 20 recent_main)).
  set (selected := append_first_new cands [fst s1; fst s2; fst s3; fst s4]).
  pose proof (append_first_new_length cands [fst s1; fst s2; fst s3; fst s4])
    as Hlen.
  fold selected in Hlen. cbn [length] in Hlen.
  assert (Hall : firstn 5 selected = selected) by (apply firstn_all2; lia).
  rewrite Hall.
  assert (Hkeep : forall x, In x [fst s1; fst s2; fst s3; fst s4] ->
                            In x (sorted selected)).
  { intros x Hx. unfold sorted. apply sort_by_In.
    now apply append_first_new_keeps. }
  split; [apply sorted_Sorted|].
  split; [unfold sorted; rewrite sort_by_length; lia|].
  repeat constructor; cbn [fst snd].
  - exists (fst s1). split; [apply Hkeep; cbn; tauto|].
    destruct Q1 as [? [_ ?]]. now split.
  - exists (fst s2). split; [apply Hkeep; cbn; tauto|].
    destruct Q2 as [? [_ ?]]. now split.
  - exists (fst s3). split; [apply Hkeep; cbn; tauto|].
    destruct Q3 as [? [_ ?]]. now split.
  - exists (fst s4). split; [apply Hkeep; cbn; tauto|].
    destruct Q4 as [? [_ ?]]. now split.
Qed.

(* ================================================================== *)
(** ** Instances on the three-draw data set *)

Lemma recommendation_picks_valid_witness :
  NoDup [22; 3; 10] /\
  (length [22; 3; 10] <= 5)%nat /\
  (forall x, In x [22; 3; 10] -> (0 < appearances x (df fixture))%nat) /\
  (exists lb, [8] = [lb] /\ (0 < lucky_appearances lb (df fixture))%nat) /\
  (Forall well_formed_row (map snd (df fixture)) ->
   Forall (fun x => 1 <= x <= 48) [22; 3; 10] /\
   Forall (fun lb => 1 <= lb <= 18) [8]).
Proof.
  apply (recommendation_picks_valid (df fixture) "balanced"
           {| main_numbers := [22; 3; 10];
              lucky_ball := [8];
              reasoning := "Balanced: Mix of hot, overdue, and recent numbers" |}).
  vm_compute. reflexivity.
Defined.

Lemma frequency_strategies_return_five_witness :
  exists rec,
    generate_recommendations (df fixture) "cold" = Ok rec /\
    length (main_numbers rec) = 5%nat /\
    NoDup (main_numbers rec) /\
    Forall (fun x => 1 <= x <= 48) (main_numbers rec) /\
    exists lb, lucky_ball rec = [lb] /\ 1 <= lb <= 18.
Proof.
  apply (frequency_strategies_return_five (df fixture) "cold").
  - cbn. discriminate.
  - apply well_formed_rows_sound. vm_compute. reflexivity.
  - right. left. reflexivity.
Defined.

Lemma ranked_picks_extremal_witness :
  (appearances 6 (df fixture) <= appearances 22 (df fixture))%nat /\
  (appearances 3 (df fixture) <= appearances 22 (df fixture))%nat.
Proof.
  split.
  - apply (proj1 (ranked_picks_extremal (df fixture)
                    {| main_numbers := [22; 3; 10; 32; 38];
                       lucky_ball := [11];
                       reasoning := "Hot numbers: Most frequently drawn overall" |}
                    22 6)).
    + vm_compute. reflexivity.
    + cbn. tauto.
    + cbn. intuition discriminate.
  - apply (proj2 (ranked_picks_extremal (df fixture)
                    {| main_numbers := [3; 10; 32; 38; 6];
                       lucky_ball := [11];
                       reasoning := "Cold numbers: Least frequently drawn" |}
                    3 22)).
    + vm_compute. reflexivity.
    + cbn. tauto.
    + cbn. intuition discriminate.
    + vm_compute. lia.
Defined.

Lemma jackpot_spread_covers_quarters_witness :
  Sorted Z.le [3; 10; 22; 28; 38] /\
  (4 <= length [3; 10; 22; 28; 38] <= 5)%nat /\
  Forall (fun quarter : Z * Z =>
            exists x,
              In x [3; 10; 22; 28; 38] /\
              fst quarter <= x < snd quarter /\
              forall y, fst quarter <= y < snd quarter ->
                        (appearances y (df fixture) <= appearances x (df fixture))%nat)
         [(1, 13); (13, 25); (25, 37); (37, 49)].
Proof.
  apply (jackpot_spread_covers_quarters (df fixture)
           {| main_numbers := [3; 10; 22; 28; 38];
              lucky_ball := [11];
              reasoning := "Jackpot spread: Maximum coverage across number ranges" |}).
  vm_compute. reflexivity.
Defined.

(* ================================================================== *)
(** ** The average gap is a span divided by a count *)

Lemma gap_step_summary (idx : Z) (st : dict Z * dict (list Z)) (num n : Z)
      (s : option (Z * Z * nat)) :
  summary_ok n s st ->
  summary_ok n (if Z.eq_dec num n then bump idx s else s) (gap_step idx st num).
Proof.
  destruct st as [last_seen gaps]. unfold summary_ok, gap_step. cbn [fst snd].
  destruct (Z.eq_dec num n) as [->|Hnum].
  - destruct s as [[[f l] c]|]; cbn [bump].
    + intros [Hseen Hgaps]. rewrite Hseen, dict_get_set, Z.eqb_refl.
      split; [reflexivity|]. right. unfold gaps_append.
      destruct Hgaps as [[-> [-> Hnone]]|[g [Hg [Hlen [Hne Hsum]]]]].
      * rewrite Hnone, dict_get_set, Z.eqb_refl.
        exists [idx - l]. repeat split; [discriminate | cbn; lia].
      * rewrite Hg, dict_get_set, Z.eqb_refl.
        exists (g ++ [idx - l]). repeat split.
        -- rewrite length_app. cbn. lia.
        -- now destruct g.
        -- rewrite fold_right_app. cbn [fold_right].
           assert (Hacc : forall (a : Z) (g0 : list Z),
                      fold_right Z.add a g0 = fold_right Z.add 0 g0 + a).
           { intros a g0. induction g0 as [|x g0 IH]; cbn; lia. }
           rewrite Hacc. lia.
    + intros [Hseen Hgaps]. rewrite Hseen, dict_get_set, Z.eqb_refl.
      split; [reflexivity|]. left. now repeat split.
  - assert (Hls : forall v, dict_get n (dict_set num v last_seen)
                            = dict_get n last_seen).
    { intros v. rewrite dict_get_set.
      destruct (Z.eqb_spec n num) as [->|_]; [now elim Hnum | reflexivity]. }
    assert (Hgs : dict_get n
                    match dict_get num last_seen with
                    | Some seen => gaps_append num (idx - seen) gaps
                    | None => gaps
                    end = dict_get n gaps).
    { destruct (dict_get num last_seen); [|reflexivity].
      unfold gaps_append.
      destruct (dict_get num gaps); rewrite dict_get_set;
        destruct (Z.eqb_spec n num) as [->|_]; try reflexivity; now elim Hnum. }
    rewrite Hls, Hgs. tauto.
Qed.

Lemma gap_draw_summary (idx : Z) (nums : list Z) (n : Z) :
  forall (st : dict Z * dict (list Z)) (s : option (Z * Z * nat)),
    summary_ok n s st ->
    summary_ok n (Nat.iter (count_occ Z.eq_dec nums n) (bump idx) s)
               (fold_left (gap_step idx) nums st).
Proof.
  induction nums as [|num nums IH]; intros st s Hst.
  - exact Hst.
  - cbn [fold_left count_occ].
    apply (gap_step_summary idx st num n s) in Hst. apply IH in Hst.
    destruct (Z.eq_dec num n); [|exact Hst].
    now rewrite Nat.iter_succ_r.
Qed.

Lemma gap_scan_summary (frame : DataFrame) (n : Z) :
  forall (st : dict Z * dict (list Z)) (s : option (Z * Z * nat)),
    summary_ok n s st ->
    summary_ok n (frame_summary n frame s)
      (fold_left
         (fun st lr =>
            fold_left (gap_step (fst lr)) (numbers_in_draw (snd lr)) st)
         frame st).
Proof.
  unfold frame_summary.
  induction frame as [|lr frame IH]; intros st s Hst.
  - exact Hst.
  - cbn [fold_left]. apply IH. now apply gap_draw_summary.
Qed.

Lemma oldest_none_appearances (n : Z) (frame : DataFrame) :
  oldest_label n frame = None -> appearances n frame = 0%nat.
Proof.
  induction frame as [|[label r] frame IH]; [reflexivity|].
  cbn [oldest_label]. rewrite appearances_cons. cbn [snd].
  destruct (oldest_label n frame); [discriminate|].
  destruct (mem n (numbers_in_draw r)) eqn:Hmem; [discriminate|].
  intros _. rewrite (IH eq_refl).
  assert (Hz : count_occ Z.eq_dec (numbers_in_draw r) n = 0%nat).
  { apply count_occ_not_In. intros Hin. apply mem_In in Hin. congruence. }
  now rewrite Hz.
Qed.

Lemma iter_bump (idx : Z) (k : nat) (s : option (Z * Z * nat)) :
  Nat.iter (S k) (bump idx) s
    = Some (match s with Some (f, _, _) => f | None => idx end,
            idx,
            (match s with Some (_, _, c) => c | None => 0 end + S k)%nat).
Proof.
  induction k as [|k IH].
  - destruct s as [[[f l] c]|]; cbn; repeat f_equal; lia.
  - rewrite Nat.iter_succ, IH. cbn [bump]. repeat f_equal. lia.
Qed.

Lemma count_occ_mem (nums : list Z) (n : Z) :
  mem n nums = negb (count_occ Z.eq_dec nums n =? 0)%nat.
Proof.
  destruct (mem n nums) eqn:Hmem.
  - apply mem_In, (count_occ_In Z.eq_dec) in Hmem.
    symmetry. apply negb_true_iff, Nat.eqb_neq. lia.
  - symmetry. apply negb_false_iff, Nat.eqb_eq.
    apply (count_occ_not_In Z.eq_dec). intros Hin. apply mem_In in Hin. congruence.
Qed.

Lemma frame_summary_spec (n : Z) (frame : DataFrame) :
  forall s : option (Z * Z * nat),
    frame_summary n frame s
      = match oldest_label n frame with
        | None => s
        | Some l =>
            Some (match s with
                  | Some (f, _, _) => f
                  | None => match newest_label n frame with
                            | Some f => f
                            | None => 0
                            end
                  end,
                  l,
                  (match s with Some (_, _, c) => c | None => 0 end
                   + appearances n frame)%nat)
        end.
Proof.
  unfold frame_summary.
  induction frame as [|[label r] frame IH]; intros s.
  - reflexivity.
  - cbn [fold_left oldest_label newest_label fst snd].
    rewrite IH, appearances_cons, count_occ_mem. cbn [snd].
    destruct (count_occ Z.eq_dec (numbers_in_draw r) n) as [|k] eqn:Hk.
    + cbn [Nat.iter Nat.eqb negb].
      destruct (oldest_label n frame); [|reflexivity].
      destruct s as [[[f l'] c]|]; reflexivity.
    + rewrite iter_bump. cbn [Nat.eqb negb].
      destruct (oldest_label n frame) as [l|] eqn:Hold.
      * destruct s as [[[f l'] c]|]; do 2 f_equal; lia.
      * rewrite (oldest_none_appearances n frame Hold).
        destruct s as [[[f l'] c]|]; do 2 f_equal; lia.
Qed.

Lemma gap_scan_summary_of (frame : DataFrame) (n : Z) :
  summary_ok n (frame_summary n frame None) (gap_scan frame).
Proof.
  apply (gap_scan_summary frame n ([], []) None). split; reflexivity.
Qed.

Lemma average_gap_value (frame : DataFrame) (n f l : Z) :
  newest_label n frame = Some f ->
  oldest_label n frame = Some l ->
  (2 <= appearances n frame)%nat ->
  dict_get n (fst (gap_analysis frame))
    = Some (Finite (Qred (Qmake (l - f) (Pos.of_nat (appearances n frame - 1))))).
Proof.
  intros Hf Hl Hc.
  pose proof (gap_scan_summary_of frame n) as Hs.
  rewrite frame_summary_spec, Hl, Hf in Hs. cbn [Nat.add] in Hs.
  unfold gap_analysis. destruct (gap_scan frame) as [last_seen gaps].
  cbn [summary_ok fst snd] in Hs |- *.
  destruct Hs as [_ [[Hone _]|[g [Hg [Hlen [Hne Hsum]]]]]]; [lia|].
  rewrite (dict_get_map_values
             (fun _ gap_list => match gap_list with
                                | [] => Infinity
                                | _ :: _ => Finite (mean gap_list)
                                end)), Hg.
  cbn [option_map]. destruct g as [|x g]; [now elim Hne|].
  unfold mean. rewrite Hsum. do 4 f_equal. lia.
Qed.

(** X11.  For a number drawn at least twice, the average gap that
    [gap_analysis] reports is the distance between the labels of its oldest
    and of its most recent appearance divided by the number of appearances
    minus one, and for a number of 1..48 the current gap it reports is minus
    the label of the oldest appearance. *)
Theorem gap_tables_closed_form
        (frame : DataFrame) (n newest oldest : Z)
        (Hnewest : newest_label n frame = Some newest)
        (Holdest : oldest_label n frame = Some oldest)
        (Htwice : (2 <= appearances n frame)%nat)
        (Hrange : 1 <= n <= 48) :
  dict_get n (fst (gap_analysis frame))
    = Some (Finite (Qred (Qmake (oldest - newest)
                                (Pos.of_nat (appearances n frame - 1))))) /\
  dict_get n (snd (gap_analysis frame)) = Some (0 - oldest).
Proof.
  split; [now apply average_gap_value|].
  rewrite gap_analysis_current_gap, Holdest.
  assert (Hin : mem n main_numbers_range = true).
  { apply mem_In, range_In. lia. }
  now rewrite Hin.
Qed.

Lemma gap_tables_closed_form_witness :
  dict_get 6 (fst (gap_analysis (iloc_from 2 (df history_full))))
    = Some (Finite (Qred (Qmake (4 - 2)
              (Pos.of_nat (appearances 6 (iloc_from 2 (df history_full)) - 1))))) /\
  dict_get 6 (snd (gap_analysis (iloc_from 2 (df history_full)))) = Some (0 - 4).
Proof.
  apply (gap_tables_closed_form (iloc_from 2 (df history_full)) 6 2 4).
  - vm_compute. reflexivity.
  - vm_compute. reflexivity.
  - vm_compute. lia.
  - lia.
Defined.

Lemma newest_label_from (n : Z) (rows : list Row) :
  forall start f, newest_label n (label_from start rows) = Some f -> start <= f.
Proof.
  induction rows as [|r rows IH]; intros start f; cbn [label_from newest_label].
  - discriminate.
  - destruct (mem n (numbers_in_draw r)).
    + intros [= <-]. lia.
    + intros H. apply IH in H. lia.
Qed.

Lemma oldest_label_from (n : Z) (rows : list Row) :
  forall start l, oldest_label n (label_from start rows) = Some l -> start <= l.
Proof.
  induction rows as [|r rows IH]; intros start l; cbn [label_from oldest_label].
  - discriminate.
  - destruct (oldest_label n (label_from (start + 1) rows)) as [l'|] eqn:Hrest.
    + intros [= <-]. apply IH in Hrest. lia.
    + destruct (mem n (numbers_in_draw r)); [|discriminate].
      intros [= <-]. lia.
Qed.

Lemma appearances_oldest (n : Z) (frame : DataFrame) :
  (1 <= appearances n frame)%nat -> exists l, oldest_label n frame = Some l.
Proof.
  intros Hc. destruct (oldest_label n frame) as [l|] eqn:Hold; [now exists l|].
  rewrite (oldest_none_appearances n frame Hold) in Hc. lia.
Qed.

(** In a loaded history whose rows hold no number twice, a number drawn at
    least twice has its oldest appearance at a later label than its most
    recent one. *)
Lemma repeated_number_span (n : Z) (rows : list Row) :
  Forall (fun r => NoDup (numbers_in_draw r)) rows ->
  forall start,
    (2 <= appearances n (label_from start rows))%nat ->
    exists f l,
      newest_label n (label_from start rows) = Some f /\
      oldest_label n (label_from start rows) = Some l /\
      start <= f < l.
Proof.
  induction 1 as [|r rows Hr Hrows IH]; intros start Hc.
  - cbn in Hc. lia.
  - cbn [label_from] in Hc |- *. rewrite appearances_cons in Hc. cbn [snd] in Hc.
    cbn [newest_label oldest_label].
    assert (Hle : (count_occ Z.eq_dec (numbers_in_draw r) n <= 1)%nat).
    { now apply (NoDup_count_occ Z.eq_dec). }
    rewrite count_occ_mem.
    destruct (count_occ Z.eq_dec (numbers_in_draw r) n) as [|k] eqn:Hk;
      cbn [Nat.eqb negb].
    + destruct (IH (start + 1)) as [f [l [Hf [Hl Hfl]]]]; [lia|].
      exists f, l. rewrite Hf, Hl. repeat split; lia.
    + destruct (appearances_oldest n (label_from (start + 1) rows))
        as [l Hl]; [lia|].
      exists start, l. rewrite Hl. repeat split; try lia.
      apply oldest_label_from in Hl. lia.
Qed.

Lemma Qltb_lt (a b : Q) : Qltb a b = true <-> (a < b)%Q.
Proof. unfold Qltb, Qlt. apply Z.ltb_lt. Qed.

(** X12.  In a loaded history of draws that hold no number twice, every
    number of 1..48 drawn at least three times is listed by
    [get_overdue_numbers] at the default multiplier 1.5, however recently it
    was drawn. *)
Theorem thrice_drawn_is_overdue
        (rows : list Row) (n : Z)
        (Hrows : Forall (fun r => NoDup (numbers_in_draw r)) rows)
        (Hn : 1 <= n <= 48)
        (Hthrice : (3 <= appearances n (df (load rows)))%nat) :
  dict_mem n (get_overdue_numbers (df (load rows)) (3 # 2)) = true.
Proof.
  assert (Hrange : In n main_numbers_range) by (apply range_In; lia).
  unfold load, reset_index in *. cbn [df] in *.
  destruct (repeated_number_span n rows Hrows 0) as [f [l [Hf [Hl Hfl]]]]; [lia|].
  unfold dict_mem. rewrite get_overdue_numbers_lookup.
  rewrite (proj2 (mem_In n main_numbers_range) Hrange).
  unfold overdue_entry.
  rewrite (average_gap_value _ n f l Hf Hl) by lia.
  rewrite gap_analysis_current_gap, Hl, (proj2 (mem_In n main_numbers_range) Hrange).
  cbv zeta.
  set (c := appearances n (label_from 0 rows)) in *.
  assert (Hlt : Qltb (Qred (Qmake (l - f) (Pos.of_nat (c - 1))) * (3 # 2))
                     (inject_Z (Z.abs (0 - l))) = true).
  { apply Qltb_lt. rewrite Qred_correct.
    unfold Qlt, Qmult, inject_Z. cbn [Qnum Qden].
    rewrite Pos2Z.inj_mul.
    assert (Hp : Z.pos (Pos.of_nat (c - 1)) = Z.of_nat (c - 1)).
    { rewrite <- positive_nat_Z, Nat2Pos.id by lia. reflexivity. }
    rewrite Hp. nia. }
  now rewrite Hlt.
Qed.

Lemma thrice_drawn_is_overdue_witness :
  dict_mem 7 (get_overdue_numbers (df (load streak_rows)) (3 # 2)) = true.
Proof.
  apply (thrice_drawn_is_overdue streak_rows 7).
  - repeat constructor; cbn; intuition discriminate.
  - lia.
  - vm_compute. lia.
Defined.

(* ================================================================== *)
(** ** Backtest results *)

Lemma foldM_invariant {A B : Type} (P : A -> Prop) (f : A -> B -> result A)
      (l : list B) :
  (forall a b a', In b l -> P a -> f a b = Ok a' -> P a') ->
  forall a a', P a -> foldM f l a = Ok a' -> P a'.
Proof.
  induction l as [|b l IH]; intros Hstep a a' Ha Hrun.
  - cbn in Hrun. apply Ok_inj in Hrun. now subst.
  - cbn [foldM] in Hrun. destruct (f a b) as [a1|e] eqn:Hf; [|discriminate].
    cbv beta match delta [bind] in Hrun.
    apply (IH (fun a0 b0 a0' Hb => Hstep a0 b0 a0' (or_intror Hb)) a1 a');
      [|exact Hrun].
    apply (Hstep a b a1); [now left | exact Ha | exact Hf].
Qed.

Lemma backtest_prize_bounds (m : Z) (lb : bool) :
  0 <= backtest_prize m lb <= 1000000.
Proof.
  unfold backtest_prize.
  repeat match goal with
         | |- context [?x =? ?y] => destruct (x =? y); cbn [andb]
         end;
  destruct lb; lia.
Qed.

Lemma results_keys_set (s x : string) (r : StrategyResult) (d : Results) :
  In x (map fst (results_set s r d)) <-> x = s \/ In x (map fst d).
Proof.
  induction d as [|[k v] d IH]; simpl.
  - intuition.
  - destruct (String.eqb_spec s k) as [->|Hk]; simpl.
    + intuition.
    + rewrite IH. intuition.
Qed.

Lemma results_set_ok (s : string) (r : StrategyResult) (d : Results) :
  results_ok d -> result_ok r -> results_ok (results_set s r d).
Proof.
  unfold results_ok. intros [Hnd Hall] Hr.
  induction d as [|[k v] d IH]; simpl.
  - split; [constructor; [intros [] | constructor]
           | constructor; [exact Hr | constructor]].
  - inversion Hnd as [|? ? Hk Hnd']; subst.
    inversion Hall as [|? ? Hv Hall']; subst.
    destruct (String.eqb_spec s k) as [->|Hsk]; simpl.
    + split; constructor; assumption.
    + destruct (IH Hnd' Hall') as [Hnd1 Hall1].
      split; constructor; try assumption.
      rewrite results_keys_set. intros [Heq|Hin]; [now elim Hsk | contradiction].
Qed.

Lemma results_get_In (s : string) (r : StrategyResult) (d : Results) :
  results_get s d = Some r -> In (s, r) d.
Proof.
  induction d as [|[k v] d IH]; simpl; [discriminate|].
  destruct (String.eqb_spec s k) as [->|_].
  - intros [= ->]. now left.
  - intros H. right. now apply IH.
Qed.

Lemma In_results_get (s : string) (r : StrategyResult) (d : Results) :
  NoDup (map fst d) -> In (s, r) d -> results_get s d = Some r.
Proof.
  induction d as [|[k v] d IH]; intros Hnd Hin; [destruct Hin|].
  inversion Hnd as [|? ? Hk Hnd']; subst. simpl.
  destruct Hin as [[= -> ->]|Hin].
  - now rewrite String.eqb_refl.
  - destruct (String.eqb_spec s k) as [->|_]; [|now apply IH].
    elim Hk. change k with (fst (k, r)). now apply in_map.
Qed.

Lemma counter_incr_Forall (P : Z * Z -> Prop) (k : Z) (c : Counter) :
  (forall v, 1 <= v -> P (k, v)) ->
  (forall k' v, P (k', v) -> 1 <= v -> P (k', v + 1)) ->
  Forall (fun kv => P kv /\ 1 <= snd kv) c ->
  Forall (fun kv => P kv /\ 1 <= snd kv) (counter_incr k c).
Proof.
  intros Hnew Hup. induction c as [|[k' v] c IH]; intros Hall; simpl.
  - constructor; [|constructor]. cbn. split; [apply Hnew|]; lia.
  - inversion Hall as [|? ? [Hp Hv] Hall']; subst. cbn [snd] in Hv.
    destruct (k =? k').
    + constructor; [|assumption]. cbn. split; [now apply Hup | lia].
    + constructor; [now split | now apply IH].
Qed.

Lemma backtest_strategy_ok
      (historical_data : DataFrame) (winning_numbers : list Z) (winning_lucky : Z)
      (d d' : Results) (s : string) :
  length winning_numbers = 5%nat ->
  results_ok d ->
  backtest_strategy historical_data winning_numbers winning_lucky d s = Ok d' ->
  results_ok d'.
Proof.
  unfold backtest_strategy. intros Hfive Hd Hrun.
  destruct (generate_recommendations historical_data s) as [rec|e];
    [|discriminate].
  cbv beta match delta [bind] in Hrun.
  destruct (index (lucky_ball rec) 0) as [lb|e]; [|discriminate].
  cbv beta match delta [bind] in Hrun.
  destruct (results_get s d) as [r|] eqn:Hget; [|discriminate].
  apply Ok_inj in Hrun. subst d'.
  apply results_set_ok; [exact Hd|].
  destruct Hd as [_ Hall]. rewrite Forall_forall in Hall.
  pose proof (Hall _ (results_get_In _ _ _ Hget)) as [Hsum [Hwins [Hprize Hdist]]].
  cbn [snd] in *.
  pose proof (inter_size_bounds (main_numbers rec) winning_numbers) as Hm.
  rewrite Hfive in Hm.
  pose proof (backtest_prize_bounds
                (inter_size (main_numbers rec) winning_numbers)
                (lb =? winning_lucky)) as Hp.
  unfold result_ok. cbn [matches_dist tickets wins total_prize].
  repeat split.
  - rewrite sum_values_incr. lia.
  - destruct (0 <? _); lia.
  - destruct (0 <? _); lia.
  - lia.
  - lia.
  - apply (counter_incr_Forall (fun kv => 0 <= fst kv <= 5)); cbn [fst];
      try (intros; lia); exact Hdist.
Qed.

Lemma initial_results_ok (strategies : list string) :
  results_ok (initial_results strategies).
Proof.
  unfold initial_results.
  assert (Hgen : forall l d, results_ok d ->
             results_ok (fold_left
                           (fun d s =>
                              results_set s {| wins := 0; total_prize := 0;
                                               tickets := 0; matches_dist := [] |} d)
                           l d)).
  { induction l as [|s l IH]; intros d Hd; cbn [fold_left]; [exact Hd|].
    apply IH, results_set_ok; [exact Hd|].
    unfold result_ok. cbn. repeat split; try lia. constructor. }
  apply Hgen. split; constructor.
Qed.

Lemma backtest_loop_ok (full test_draws : DataFrame) (l : list string)
      (idxs : list nat) (d d' : Results) :
  results_ok d ->
  foldM (backtest_index full test_draws l) idxs d = Ok d' ->
  results_ok d'.
Proof.
  apply (foldM_invariant results_ok). intros a idx a' _ Ha Hstep.
  unfold backtest_index in Hstep.
  destruct (length (iloc_from (idx + 1) full) <? min_history)%nat.
  - apply Ok_inj in Hstep. now subst.
  - destruct (index test_draws idx) as [actual|e]; [|discriminate].
    cbv beta match delta [bind] in Hstep.
    revert Hstep. apply (foldM_invariant results_ok); [|exact Ha].
    intros b s b' _ Hb Hs. eapply backtest_strategy_ok; [|exact Hb|exact Hs].
    reflexivity.
Qed.

Lemma report_strategies_tickets (d : Results) (l : list string) :
  forall u u', foldM (report_strategy d) l u = Ok u' ->
               forall s, In s l -> exists r, results_get s d = Some r /\ tickets r <> 0.
Proof.
  induction l as [|s l IH]; intros u u' Hrun x Hx; [destruct Hx|].
  cbn [foldM] in Hrun. unfold report_strategy at 1 in Hrun.
  destruct (results_get s d) as [r|] eqn:Hget; [|discriminate].
  destruct (Z.eqb_spec (tickets r) 0) as [Hz|Hnz]; [discriminate|].
  cbv beta match delta [bind] in Hrun.
  destruct Hx as [<-|Hx]; [now exists r | now apply (IH _ _ Hrun)].
Qed.

(** X13.  In the results that [backtest_strategies] returns, the keys are
    the requested strategies, and every strategy's record is consistent: at
    least one ticket, the match distribution sums to the tickets and has
    keys in 0..5 only, wins lie between 0 and the tickets, and the total
    prize between 0 and 1,000,000 per ticket. *)
Theorem backtest_results_consistent
        (full : DataFrame) (lookback_draws : Z) (strategies : list string)
        (res : Results) (s : string) (r : StrategyResult)
        (Hrun : backtest_strategies full lookback_draws (Some strategies) = Ok res)
        (Hin : In (s, r) res) :
  In s strategies /\
  results_get s res = Some r /\
  1 <= tickets r /\
  sum_values (matches_dist r) = tickets r /\
  Forall (fun kv => 0 <= fst kv <= 5) (matches_dist r) /\
  0 <= wins r <= tickets r /\
  0 <= total_prize r <= 1000000 * tickets r.
Proof.
  pose proof Hrun as Hrun0.
  unfold backtest_strategies in Hrun.
  destruct (foldM (backtest_index full (head_signed lookback_draws full) strategies) _ _)
    as [d|e] eqn:Hloop; [|discriminate].
  cbv beta match delta [bind] in Hrun.
  destruct (foldM (report_strategy d) strategies tt) as [u|e] eqn:Hreport;
    [|discriminate].
  cbv beta match delta [bind] in Hrun.
  destruct (py_max net_result d) as [best|e]; [|discriminate].
  cbv beta match delta [bind] in Hrun. apply Ok_inj in Hrun. subst d.
  pose proof (backtest_loop_ok _ _ _ _ _ _ (initial_results_ok strategies) Hloop)
    as [Hnd Hall].
  pose proof (In_results_get s r res Hnd Hin) as Hget.
  destruct (backtest_tickets_count _ _ _ _ _ _ Hrun0 Hget) as [Hs _].
  destruct (report_strategies_tickets _ _ _ _ Hreport s Hs) as [r' [Hget' Hnz]].
  rewrite Hget in Hget'. injection Hget' as <-.
  rewrite Forall_forall in Hall.
  destruct (Hall _ Hin) as [Hsum [Hwins [Hprize Hdist]]]. cbn [snd] in *.
  repeat split; try assumption; try lia.
  eapply Forall_impl; [|exact Hdist]. intros kv [Hk _]. exact Hk.
Qed.

Lemma backtest_results_consistent_witness :
  In "overdue"%string ["balanced"; "hot"; "overdue"; "recent_hot"]%string /\
  results_get "overdue"
    [("balanced"%string, mkResult 1 200 1 [(4, 1)]);
     ("hot"%string, mkResult 1 200 1 [(4, 1)]);
     ("overdue"%string, mkResult 1 20 1 [(3, 1)]);
     ("recent_hot"%string, mkResult 1 200 1 [(4, 1)])]
    = Some (mkResult 1 20 1 [(3, 1)]) /\
  1 <= 1 /\
  sum_values [(3, 1)] = 1 /\
  Forall (fun kv : Z * Z => 0 <= fst kv <= 5) [(3, 1)] /\
  0 <= 1 <= 1 /\
  0 <= 20 <= 1000000 * 1.
Proof.
  apply (backtest_results_consistent (df history_trimmed) 1
           ["balanced"; "hot"; "overdue"; "recent_hot"]%string
           [("balanced"%string, mkResult 1 200 1 [(4, 1)]);
            ("hot"%string, mkResult 1 200 1 [(4, 1)]);
            ("overdue"%string, mkResult 1 20 1 [(3, 1)]);
            ("recent_hot"%string, mkResult 1 200 1 [(4, 1)])]
           "overdue" (mkResult 1 20 1 [(3, 1)])).
  - vm_compute. reflexivity.
  - right. right. left. reflexivity.
Defined.

Lemma foldM_unchanged {A B : Type} (f : A -> B -> result A) (l : list B) (a : A) :
  (forall b, In b l -> f a b = Ok a) -> foldM f l a = Ok a.
Proof.
  induction l as [|b l IH]; intros Hstep; cbn [foldM]; [reflexivity|].
  rewrite (Hstep b (or_introl eq_refl)). cbv beta match delta [bind].
  apply IH. intros b' Hb'. apply Hstep. now right.
Qed.

(** X14.  With at most 50 draws in the history no position has the 50 older
    draws the backtest asks for, every strategy ends with zero tickets, and
    [backtest_strategies] raises [ZeroDivisionError] in its report instead of
    returning, whatever the lookback and the (non-empty) strategy list. *)
Theorem backtest_raises_on_short_history
        (full : DataFrame) (lookback_draws : Z) (strategies : option (list string))
        (Hshort : (length full <= 50)%nat)
        (Hsome : strategies <> Some []) :
  backtest_strategies full lookback_draws strategies = Raise ZeroDivisionError.
Proof.
  unfold backtest_strategies.
  set (l := match strategies with
            | Some l => l
            | None => ["balanced"; "hot"; "overdue"; "recent_hot"]%string
            end).
  assert (Hl : exists s rest, l = s :: rest).
  { unfold l. destruct strategies as [[|s rest]|]; [now elim Hsome | |]; eauto. }
  destruct Hl as [s [rest Hl]].
  rewrite foldM_unchanged.
  - cbv beta match delta [bind]. rewrite Hl. cbn [foldM].
    unfold report_strategy at 1.
    pose proof (initial_results_tickets (s :: rest) [] s) as Ht.
    fold (initial_results (s :: rest)) in Ht.
    destruct (in_dec string_dec s (s :: rest)) as [_|Hn]; [|elim Hn; now left].
    unfold tickets_of in Ht.
    destruct (results_get s (initial_results (s :: rest))) as [r|];
      [|discriminate].
    cbn [option_map] in Ht. injection Ht as Ht. rewrite Ht. reflexivity.
  - intros idx _. unfold backtest_index.
    assert (Hlt : (length (iloc_from (idx + 1) full) <? min_history)%nat = true).
    { apply Nat.ltb_lt. unfold iloc_from, min_history. rewrite length_skipn. lia. }
    now rewrite Hlt.
Qed.

Lemma backtest_raises_on_short_history_witness :
  backtest_strategies (df fixture) 10 (Some ["balanced"; "hot"]%string)
    = Raise ZeroDivisionError.
Proof.
  apply (backtest_raises_on_short_history (df fixture) 10
           (Some ["balanced"; "hot"]%string)).
  - cbn. lia.
  - discriminate.
Defined.

(* ================================================================== *)
(** ** Checking tickets *)

Lemma inter_size_ext (a a' b b' : list Z) :
  (forall x, In x a <-> In x a') ->
  (forall x, In x b <-> In x b') ->
  inter_size a b = inter_size a' b'.
Proof.
  intros Ha Hb. unfold inter_size, set_of. f_equal.
  apply Permutation_length, NoDup_Permutation.
  - apply NoDup_filter, NoDup_nodup.
  - apply NoDup_filter, NoDup_nodup.
  - intros x. rewrite !filter_In, !nodup_In, !mem_In, Ha, Hb. reflexivity.
Qed.

Lemma check_ticket_found (frame : DataFrame) (numbers : list Z) (lucky date : Z)
      (label : Z) (drawing : Row) (others : DataFrame) :
  rows_on date frame = (label, drawing) :: others ->
  check_ticket frame numbers lucky date
    = (Some (score_against drawing numbers lucky), None).
Proof.
  intros Hrows. unfold check_ticket, score_against. rewrite Hrows.
  now destruct (ticket_prize _ _).
Qed.

Lemma check_ticket_result (frame : DataFrame) (numbers : list Z) (lucky date : Z)
      (r : CheckResult) :
  fst (check_ticket frame numbers lucky date) = Some r ->
  exists lr, In lr frame /\ Date (snd lr) = date /\
             r = score_against (snd lr) numbers lucky.
Proof.
  destruct (rows_on date frame) as [|[label drawing] others] eqn:Hrows.
  - unfold check_ticket. rewrite Hrows. discriminate.
  - rewrite (check_ticket_found _ _ _ _ _ _ _ Hrows). cbn [fst]. intros [= <-].
    assert (Hin : In (label, drawing) (rows_on date frame))
      by (rewrite Hrows; now left).
    apply filter_In in Hin. destruct Hin as [Hin Hd].
    exists (label, drawing). cbn [snd]. repeat split; [assumption|].
    now apply Z.eqb_eq.
Qed.

(** X15.  The outcome of [check_ticket] depends on the ticket's numbers only
    as a set: two tickets that hold the same numbers, in any order and with
    any repetition, get the same match count, prize and description for the
    same lucky ball and date. *)
Theorem check_ticket_numbers_as_set
        (frame : DataFrame) (numbers numbers' : list Z) (lucky date : Z)
        (Hsame : forall x, In x numbers <-> In x numbers') :
  match fst (check_ticket frame numbers lucky date),
        fst (check_ticket frame numbers' lucky date) with
  | Some r, Some r' =>
      res_main_matches r = res_main_matches r' /\
      res_lucky_match r = res_lucky_match r' /\
      res_prize r = res_prize r' /\
      res_prize_description r = res_prize_description r'
  | None, None => True
  | _, _ => False
  end.
Proof.
  destruct (rows_on date frame) as [|[label drawing] others] eqn:Hrows.
  - unfold check_ticket. rewrite Hrows. exact I.
  - rewrite !(check_ticket_found _ _ _ _ _ _ _ Hrows). cbn [fst].
    unfold score_against.
    cbv beta match zeta delta [res_main_matches res_lucky_match res_prize
                               res_prize_description].
    rewrite (inter_size_ext numbers numbers' _ _ Hsame (fun x => iff_refl _)).
    repeat split.
Qed.

Lemma check_ticket_numbers_as_set_witness :
  match fst (check_ticket (df fixture) [3; 10; 22] 8 20260121),
        fst (check_ticket (df fixture) [22; 3; 3; 10] 8 20260121) with
  | Some r, Some r' =>
      res_main_matches r = res_main_matches r' /\
      res_lucky_match r = res_lucky_match r' /\
      res_prize r = res_prize r' /\
      res_prize_description r = res_prize_description r'
  | None, None => True
  | _, _ => False
  end.
Proof.
  apply (check_ticket_numbers_as_set (df fixture) [3; 10; 22] [22; 3; 3; 10]
           8 20260121).
  intros x. cbn. tauto.
Defined.

Lemma ticket_prize_facts (m : Z) (lb : bool) :
  0 <= m <= 5 ->
  0 <= fst (ticket_prize m lb) <= 5000 /\
  (0 < fst (ticket_prize m lb) <-> m < 5 /\ (lb = true \/ 2 <= m)).
Proof.
  intros Hm.
  assert (Hcases : m = 0 \/ m = 1 \/ m = 2 \/ m = 3 \/ m = 4 \/ m = 5) by lia.
  destruct Hcases as [->|[->|[->|[->|[->| ->]]]]]; destruct lb; cbn;
    (split; [lia|]); split; intros H; try lia;
    try (split; [lia|]); try (now left); try (right; lia);
    try (destruct H as [_ [H|H]]; [discriminate | lia]).
Qed.

(** X16.  A result returned by [check_ticket] scores the ticket against a
    draw of the history that carries the requested date; its match count is
    between 0 and 5 and its prize between 0 and 5000 dollars, and the prize
    is positive exactly when fewer than five numbers match and either the
    lucky ball matches or at least two numbers do: five matches are
    reported with a prize of 0. *)
Theorem check_ticket_result_bounds
        (frame : DataFrame) (numbers : list Z) (lucky date : Z) (r : CheckResult)
        (Hres : fst (check_ticket frame numbers lucky date) = Some r) :
  (exists lr, In lr frame /\ Date (snd lr) = date /\
              res_winning_numbers r = numbers_in_draw (snd lr) /\
              res_winning_lucky r = LuckyBall (snd lr)) /\
  res_main_matches r = inter_size numbers (res_winning_numbers r) /\
  res_lucky_match r = (lucky =? res_winning_lucky r) /\
  0 <= res_main_matches r <= 5 /\
  0 <= res_prize r <= 5000 /\
  (0 < res_prize r <->
   res_main_matches r < 5 /\ (res_lucky_match r = true \/ 2 <= res_main_matches r)).
Proof.
  destruct (check_ticket_result _ _ _ _ _ Hres) as [lr [Hin [Hd ->]]].
  unfold score_against.
  cbv beta match zeta delta [res_main_matches res_lucky_match res_prize
                             res_winning_numbers res_winning_lucky].
  pose proof (inter_size_bounds numbers (numbers_in_draw (snd lr))) as Hm.
  change (Z.of_nat (length (numbers_in_draw (snd lr)))) with 5 in Hm.
  destruct (ticket_prize_facts _ (lucky =? LuckyBall (snd lr)) Hm) as [Hp Hpos].
  split; [exists lr; repeat split; assumption|].
  repeat split; try lia; apply Hpos.
Qed.

Lemma check_ticket_result_bounds_witness :
  (exists lr, In lr (df fixture) /\ Date (snd lr) = 20260121 /\
              [3; 10; 22; 32; 38] = numbers_in_draw (snd lr) /\
              11 = LuckyBall (snd lr)) /\
  5 = inter_size [3; 10; 22; 32; 38] [3; 10; 22; 32; 38] /\
  true = (11 =? 11) /\
  0 <= 5 <= 5 /\
  0 <= 0 <= 5000 /\
  (0 < 0 <-> 5 < 5 /\ (true = true \/ 2 <= 5)).
Proof.
  apply (check_ticket_result_bounds (df fixture) [3; 10; 22; 32; 38] 11 20260121
           {| res_main_matches := 5;
              res_lucky_match := true;
              res_prize := 0;
              res_prize_description := "JACKPOT! $1,000/Day for Life";
              res_winning_numbers := [3; 10; 22; 32; 38];
              res_winning_lucky := 11;
              res_your_numbers := [3; 10; 22; 32; 38];
              res_your_lucky := 11 |}).
  vm_compute. reflexivity.
Defined.

(* ================================================================== *)
(** ** Ticket ledger *)

Lemma StronglySorted_last {A : Type} (R : A -> A -> Prop) (l : list A) (z : A) :
  StronglySorted R (l ++ [z]) -> forall a, In a l -> R a z.
Proof.
  induction l as [|x l IH]; intros Hs a Ha; [destruct Ha|].
  cbn [app] in Hs. inversion Hs as [|? ? Hl Hx]; subst.
  destruct Ha as [<-|Ha].
  - rewrite Forall_forall in Hx. apply Hx, in_or_app. right. now left.
  - now apply IH.
Qed.

(** The last row of [next_drawings] carries the greatest date among the
    rows on or after the play date. *)
Lemma next_drawings_last (frame : DataFrame) (play_date : Z)
      (z : Z * Row) (others : DataFrame) :
  rev (next_drawings frame play_date) = z :: others ->
  In z frame /\ play_date <= Date (snd z) /\
  forall lr, In lr frame -> play_date <= Date (snd lr) ->
             Date (snd lr) <= Date (snd z).
Proof.
  intros Hrev. unfold next_drawings in Hrev.
  set (before := fun y x : Z * Row => Date (snd y) <? Date (snd x)) in *.
  set (later := filter (fun lr : Z * Row => play_date <=? Date (snd lr)) frame) in *.
  assert (Hsorted : sort_by before later = rev others ++ [z]).
  { rewrite <- (rev_involutive (sort_by before later)), Hrev. reflexivity. }
  assert (Hz : In z later).
  { apply (sort_by_In before). rewrite Hsorted. apply in_or_app. right. now left. }
  apply filter_In in Hz. destruct Hz as [Hzin Hzd]. apply Z.leb_le in Hzd.
  repeat split; try assumption.
  intros lr Hin Hd.
  assert (Hlr : In lr (sort_by before later)).
  { apply sort_by_In, filter_In. split; [assumption | now apply Z.leb_le]. }
  rewrite Hsorted in Hlr. apply in_app_or in Hlr.
  destruct Hlr as [Hlr|[<-|[]]]; [|lia].
  assert (Hs : StronglySorted (fun a b => before b a = false) (rev others ++ [z])).
  { rewrite <- Hsorted. apply sort_by_sorted.
    - intros x y Hxy. unfold before in *. apply Z.ltb_lt in Hxy. apply Z.ltb_ge. lia.
    - intros x y w Hyx Hwy. unfold before in *.
      apply Z.ltb_ge in Hyx, Hwy. apply Z.ltb_ge. lia. }
  pose proof (StronglySorted_last _ _ _ Hs lr Hlr) as Hle.
  unfold before in Hle. apply Z.ltb_ge in Hle. exact Hle.
Qed.

Lemma check_saved_ticket_latest (label : Z) (first : Row) (rest : DataFrame)
      (ticket : Ticket) :
  (forall lr, In lr rest -> Date (snd lr) <= Date first) ->
  check_saved_ticket ((label, first) :: rest) ticket
    = if ticket_date_played ticket <=? Date first
      then Some {| ticket_date_played := ticket_date_played ticket;
                   ticket_numbers := ticket_numbers ticket;
                   ticket_lucky_ball := ticket_lucky_ball ticket;
                   ticket_strategy := ticket_strategy ticket;
                   ticket_cost := ticket_cost ticket;
                   ticket_result :=
                     Some (score_against first (ticket_numbers ticket)
                                         (ticket_lucky_ball ticket));
                   ticket_winnings :=
                     res_prize (score_against first (ticket_numbers ticket)
                                              (ticket_lucky_ball ticket)) |}
      else None.
Proof.
  intros Hlatest. unfold check_saved_ticket.
  set (frame := (label, first) :: rest).
  set (play := ticket_date_played ticket).
  assert (Hall : forall lr, In lr frame -> Date (snd lr) <= Date first).
  { intros lr [<-|Hin]; [cbn; lia | now apply Hlatest]. }
  destruct (rev (next_drawings frame play)) as [|[zl z] others] eqn:Hrev.
  - destruct (Z.leb_spec play (Date first)) as [Hle|_]; [|reflexivity].
    exfalso.
    assert (Hin : In (label, first) (next_drawings frame play)).
    { unfold next_drawings. apply sort_by_In, filter_In.
      split; [now left | now apply Z.leb_le]. }
    apply in_rev in Hin. rewrite Hrev in Hin. destruct Hin.
  - destruct (next_drawings_last _ _ _ _ Hrev) as [Hzin [Hzd Hmax]].
    cbn [snd] in Hzd, Hmax.
    pose proof (Hall _ Hzin) as Hzle. cbn [snd] in Hzle.
    assert (Hple : play <= Date first) by lia.
    pose proof (Hmax (label, first) (or_introl eq_refl) Hple) as Hfz.
    cbn [snd] in Hfz.
    assert (Hdate : Date z = Date first) by lia.
    rewrite Hdate.
    assert (Hrows : exists others', rows_on (Date first) frame
                                    = (label, first) :: others').
    { unfold rows_on, frame. cbn [filter snd]. rewrite Z.eqb_refl. eauto. }
    destruct Hrows as [others' Hrows].
    rewrite (check_ticket_found _ _ _ _ _ _ _ Hrows).
    destruct (Z.leb_spec play (Date first)); [reflexivity | lia].
Qed.

Lemma collect_entries {A B : Type} (g : A -> option B) (l : list A) :
  forall acc,
    fold_left (fun results t =>
                 match g t with
                 | Some entry => results ++ [entry]
                 | None => results
                 end) l acc
      = acc ++ flat_map (fun t => match g t with
                                  | Some entry => [entry]
                                  | None => []
                                  end) l.
Proof.
  induction l as [|t l IH]; intros acc; cbn [fold_left flat_map].
  - now rewrite app_nil_r.
  - rewrite IH. destruct (g t); [now rewrite <- app_assoc | reflexivity].
Qed.

Lemma flat_map_filter_map {A B : Type} (c : A -> bool) (h : A -> B) (l : list A) :
  flat_map (fun t => match (if c t then Some (h t) else None) with
                     | Some entry => [entry]
                     | None => []
                     end) l
    = map h (filter c l).
Proof.
  induction l as [|t l IH]; cbn [flat_map filter]; [reflexivity|].
  rewrite IH. now destruct (c t).
Qed.

(** X17.  When the first row of the history carries the latest date (the
    order the loader establishes), [check_all_tickets] scores every saved
    ticket played on or before that date against that most recent draw,
    whatever the ticket's own play date, keeps the tickets in file order, and
    leaves out the tickets played after it. *)
Theorem check_all_tickets_uses_latest_draw
        (label : Z) (first : Row) (rest : DataFrame) (tickets : list Ticket)
        (Hlatest : forall lr, In lr rest -> Date (snd lr) <= Date first) :
  check_all_tickets ((label, first) :: rest) (Some tickets)
    = map (fun ticket =>
             {| ticket_date_played := ticket_date_played ticket;
                ticket_numbers := ticket_numbers ticket;
                ticket_lucky_ball := ticket_lucky_ball ticket;
                ticket_strategy := ticket_strategy ticket;
                ticket_cost := ticket_cost ticket;
                ticket_result :=
                  Some (score_against first (ticket_numbers ticket)
                                      (ticket_lucky_ball ticket));
                ticket_winnings :=
                  res_prize (score_against first (ticket_numbers ticket)
                                           (ticket_lucky_ball ticket)) |})
          (filter (fun ticket => ticket_date_played ticket <=? Date first) tickets).
Proof.
  unfold check_all_tickets. rewrite collect_entries. cbn [app].
  rewrite <- flat_map_filter_map. apply flat_map_ext. intros ticket.
  now rewrite (check_saved_ticket_latest label first rest ticket Hlatest).
Qed.

Lemma check_all_tickets_uses_latest_draw_witness :
  check_all_tickets (df fixture)
    (Some [mkTicket 20260119 [5; 17; 22; 42; 48] 16 "hot" 2 None 0;
           mkTicket 20260125 [1; 2; 3; 4; 5] 1 "custom" 2 None 0])
    = [mkTicket 20260119 [5; 17; 22; 42; 48] 16 "hot" 2
         (Some (score_against (mkRow 20260121 3 10 22 32 38 11)
                              [5; 17; 22; 42; 48] 16))
         0].
Proof.
  apply (check_all_tickets_uses_latest_draw 0 (mkRow 20260121 3 10 22 32 38 11)
           (label_from 1 [mkRow 20260120 6 9 28 41 45 8;
                          mkRow 20260119 5 17 22 42 48 16])
           [mkTicket 20260119 [5; 17; 22; 42; 48] 16 "hot" 2 None 0;
            mkTicket 20260125 [1; 2; 3; 4; 5] 1 "custom" 2 None 0]).
  intros lr [<-|[<-|[]]]; cbn; lia.
Defined.

(** X18.  [save_ticket] stores the ticket's numbers sorted and appends the
    ticket after the tickets already in the file, so that a later
    [check_all_tickets] returns what it returned before followed by the
    entry for the new ticket, if that ticket can be checked. *)
Theorem save_then_check_all
        (frame : DataFrame) (numbers : list Z) (lucky : Z) (strategy : string)
        (date_played : Z) (cost : Q) (ticket_file : TicketFile) :
  let saved := save_ticket numbers lucky strategy date_played cost ticket_file in
  Sorted Z.le (ticket_numbers (fst saved)) /\
  Permutation numbers (ticket_numbers (fst saved)) /\
  snd saved = Some (match ticket_file with Some l => l | None => [] end
                    ++ [fst saved]) /\
  check_all_tickets frame (snd saved)
    = check_all_tickets frame ticket_file
      ++ match check_saved_ticket frame (fst saved) with
         | Some entry => [entry]
         | None => []
         end.
Proof.
  cbv zeta. unfold save_ticket. cbn [fst snd ticket_numbers].
  split; [apply sorted_Sorted|].
  split; [apply sort_by_Permutation|].
  split; [reflexivity|].
  unfold check_all_tickets.
  destruct ticket_file as [l|].
  - rewrite fold_left_app. cbn [fold_left].
    destruct (check_saved_ticket frame _); [reflexivity | now rewrite app_nil_r].
  - cbn [app fold_left]. now destruct (check_saved_ticket frame _).
Qed.

(* ================================================================== *)
(** ** More edge cases of the backtest and of the reported sets *)

(** X19.  With an empty strategy list [backtest_strategies] simulates
    nothing and raises [ValueError] when it looks for the best strategy,
    whatever the history and the lookback. *)
Theorem backtest_raises_without_strategies
        (full : DataFrame) (lookback_draws : Z) :
  backtest_strategies full lookback_draws (Some []) = Raise ValueError.
Proof.
  unfold backtest_strategies. rewrite foldM_unchanged; [reflexivity|].
  intros idx Hidx. apply in_seq in Hidx. unfold backtest_index.
  destruct (length (iloc_from (idx + 1) full) <? min_history)%nat; [reflexivity|].
  unfold index.
  destruct (nth_error (head_signed lookback_draws full) idx) eqn:Hnth; [reflexivity|].
  apply nth_error_None in Hnth. lia.
Qed.

Lemma multiple_sets_from_shape (frame : DataFrame) (strategies : list string) :
  forall (i : Z) (sets : list NumberSet),
    multiple_sets_from frame i strategies = Ok sets ->
    map set_strategy sets = strategies /\
    map set_number sets
      = map (fun k => i + Z.of_nat k) (seq 0 (length strategies)) /\
    Forall (fun s =>
              exists rec,
                generate_recommendations frame (set_strategy s) = Ok rec /\
                lucky_ball rec = [set_lucky_ball s] /\
                set_reasoning s = reasoning rec) sets.
Proof.
  induction strategies as [|strategy rest IH]; intros i sets Hrun.
  - cbn in Hrun. apply Ok_inj in Hrun. subst sets. repeat split. constructor.
  - cbn [multiple_sets_from] in Hrun.
    destruct (generate_recommendations frame strategy) as [rec|e] eqn:Hrec;
      [|discriminate].
    cbv beta match delta [bind] in Hrun.
    destruct (index (lucky_ball rec) 0) as [lb|e] eqn:Hlb; [|discriminate].
    cbv beta match delta [bind] in Hrun.
    destruct (multiple_sets_from frame (i + 1) rest) as [sets'|e] eqn:Hrest;
      [|discriminate].
    cbv beta match delta [bind] in Hrun. apply Ok_inj in Hrun. subst sets.
    destruct (IH _ _ Hrest) as [Hs [Hn Hall]].
    cbn [map length seq set_strategy set_number]. rewrite Hs, Hn.
    split; [reflexivity|]. split.
    + f_equal; [lia|]. rewrite <- seq_shift, map_map.
      apply map_ext. intros k. lia.
    + constructor; [|exact Hall].
      cbn [set_strategy set_lucky_ball set_reasoning].
      exists rec. repeat split; [assumption|].
      destruct (generate_recommendations_valid _ _ _ Hrec)
        as [_ [_ [_ [lb' [Hlb' _]]]]].
      rewrite Hlb' in Hlb |- *. cbn in Hlb. apply Ok_inj in Hlb. now subst.
Qed.

Lemma multiple_sets_from_total (frame : DataFrame) (strategies : list string) :
  (forall s, In s strategies ->
             exists rec, generate_recommendations frame s = Ok rec) ->
  forall i, exists sets, multiple_sets_from frame i strategies = Ok sets.
Proof.
  induction strategies as [|strategy rest IH]; intros Hall i.
  - now exists [].
  - cbn [multiple_sets_from].
    destruct (Hall strategy (or_introl eq_refl)) as [rec Hrec]. rewrite Hrec.
    cbv beta match delta [bind].
    destruct (generate_recommendations_valid _ _ _ Hrec)
      as [_ [_ [_ [lb [Hlb _]]]]].
    rewrite Hlb. cbn [index nth_error]. cbv beta match delta [bind].
    destruct (IH (fun s Hs => Hall s (or_intror Hs)) (i + 1)) as [sets Hsets].
    rewrite Hsets. cbv beta match delta [bind]. eauto.
Qed.

(** X20.  [generate_multiple_sets] returns whenever each of the first
    [num_sets] requested strategies returns a recommendation, and what it
    returns is one set per such strategy, in the requested order, numbered
    1, 2, ..., carrying that recommendation's lucky ball and reasoning. *)
Theorem generate_multiple_sets_shape
        (frame : DataFrame) (num_sets : nat) (strategies : list string) :
  ((forall s, In s (firstn num_sets strategies) ->
              exists rec, generate_recommendations frame s = Ok rec) ->
   exists sets, generate_multiple_sets frame num_sets (Some strategies) = Ok sets) /\
  (forall sets,
      generate_multiple_sets frame num_sets (Some strategies) = Ok sets ->
      map set_strategy sets = firstn num_sets strategies /\
      map set_number sets = map (fun k => 1 + Z.of_nat k) (seq 0 (length sets)) /\
      Forall (fun s =>
                exists rec,
                  generate_recommendations frame (set_strategy s) = Ok rec /\
                  lucky_ball rec = [set_lucky_ball s] /\
                  set_reasoning s = reasoning rec) sets).
Proof.
  unfold generate_multiple_sets. split.
  - intros Hall. now apply multiple_sets_from_total.
  - intros sets Hrun.
    destruct (multiple_sets_from_shape _ _ _ _ Hrun) as [Hs [Hn Hall]].
    repeat split; try assumption.
    rewrite Hn. f_equal. f_equal.
    rewrite <- Hs. now rewrite length_map.
Qed.

Lemma generate_multiple_sets_shape_witness :
  (exists sets,
      generate_multiple_sets (df fixture) 2 (Some ["hot"; "cold"; "zzz"]%string)
        = Ok sets) /\
  map set_strategy
      [mkSet 1 "hot" [3; 10; 22; 32; 38] 11
             "Hot numbers: Most frequently drawn overall";
       mkSet 2 "cold" [3; 6; 10; 32; 38] 11
             "Cold numbers: Least frequently drawn"]
    = firstn 2 ["hot"; "cold"; "zzz"]%string.
Proof.
  split.
  - apply (proj1 (generate_multiple_sets_shape (df fixture) 2
                    ["hot"; "cold"; "zzz"]%string)).
    intros s [<-|[<-|[]]]; eexists; vm_compute; reflexivity.
  - apply (proj2 (generate_multiple_sets_shape (df fixture) 2
                    ["hot"; "cold"; "zzz"]%string)).
    vm_compute. reflexivity.
Defined.

(* ================================================================== *)
(** ** The overdue lucky ball *)

Lemma dict_get_In {V : Type} (k : Z) (v : V) (d : dict V) :
  dict_get k d = Some v -> In (k, v) d.
Proof.
  induction d as [|[j w] d IH]; simpl; [discriminate|].
  destruct (Z.eqb_spec k j) as [->|_].
  - intros [= ->]. now left.
  - intros H. right. now apply IH.
Qed.

Lemma dict_In_get {V : Type} (k : Z) (v : V) (d : dict V) :
  NoDup (map fst d) -> In (k, v) d -> dict_get k d = Some v.
Proof.
  induction d as [|[j w] d IH]; intros Hnd Hin; [destruct Hin|].
  inversion Hnd as [|? ? Hj Hnd']; subst. simpl.
  destruct Hin as [[= -> ->]|Hin].
  - now rewrite Z.eqb_refl.
  - destruct (Z.eqb_spec k j) as [->|_]; [|now apply IH].
    elim Hj. change j with (fst (j, v)). now apply in_map.
Qed.

Lemma lucky_first_seen (frame : DataFrame) :
  forall (seen : dict Z) (b : Z),
    NoDup (map fst seen) ->
    NoDup (map fst (fold_left overdue_lucky_step frame seen)) /\
    dict_get b (fold_left overdue_lucky_step frame seen)
      = match dict_get b seen with
        | Some x => Some x
        | None => lucky_newest_label b frame
        end.
Proof.
  induction frame as [|[label r] frame IH]; intros seen b Hnd.
  - cbn [fold_left lucky_newest_label]. split; [exact Hnd|].
    now destruct (dict_get b seen).
  - cbn [fold_left lucky_newest_label].
    unfold overdue_lucky_step at 2 4. cbn [fst snd]. cbv zeta.
    unfold dict_mem.
    destruct (dict_get (LuckyBall r) seen) as [x|] eqn:Hlb.
    + destruct (IH seen b Hnd) as [Hnd' Hget]. split; [exact Hnd'|].
      rewrite Hget. destruct (dict_get b seen) eqn:Hb; [reflexivity|].
      destruct (Z.eqb_spec (LuckyBall r) b) as [Heq|_]; [|reflexivity].
      rewrite Heq in Hlb. congruence.
    + destruct (IH (dict_set (LuckyBall r) label seen) b
                   (dict_set_keys_NoDup _ _ _ Hnd)) as [Hnd' Hget].
      split; [exact Hnd'|]. rewrite Hget, dict_get_set.
      destruct (Z.eqb_spec b (LuckyBall r)) as [->|Hne].
      * now rewrite Hlb, Z.eqb_refl.
      * destruct (dict_get b seen); [reflexivity|].
        destruct (Z.eqb_spec (LuckyBall r) b) as [Heq|_];
          [now elim Hne | reflexivity].
Qed.

Lemma lucky_newest_label_from (b : Z) (rows : list Row) :
  forall start q, lucky_newest_label b (label_from start rows) = Some q ->
                  start <= q.
Proof.
  induction rows as [|r rows IH]; intros start q;
    cbn [label_from lucky_newest_label].
  - discriminate.
  - destruct (LuckyBall r =? b).
    + intros [= <-]. lia.
    + intros H. apply IH in H. lia.
Qed.

(** X21.  On a loaded history [_get_overdue_lucky_ball] returns, among the
    lucky balls that were drawn, one whose most recent appearance lies
    furthest back; a ball that was never drawn is never returned.  It raises
    ([ValueError]) only on an empty history. *)
Theorem overdue_lucky_ball_longest_unseen (rows : list Row) :
  match get_overdue_lucky_ball (df (load rows)) with
  | Ok lb =>
      exists p,
        lucky_newest_label lb (df (load rows)) = Some p /\
        forall b q, lucky_newest_label b (df (load rows)) = Some q -> q <= p
  | Raise e => e = ValueError /\ rows = []
  end.
Proof.
  unfold load, reset_index. cbn [df]. unfold get_overdue_lucky_ball.
  pose proof (fun b => lucky_first_seen (label_from 0 rows) [] b (NoDup_nil _))
    as Hseen.
  change (fold_left _ (label_from 0 rows) [])
    with (fold_left overdue_lucky_step (label_from 0 rows) []).
  set (last_seen := fold_left overdue_lucky_step (label_from 0 rows) []) in *.
  destruct (py_max (fun x : Z * Z => Z.abs (snd x)) last_seen) as [m|e] eqn:Hmax;
    cbv beta match delta [bind].
  - apply py_max_spec in Hmax. destruct Hmax as [Hin Hbest].
    destruct (Hseen (fst m)) as [Hnd Hget]. cbn [dict_get] in Hget.
    assert (Hm : dict_get (fst m) last_seen = Some (snd m)).
    { apply dict_In_get; [exact Hnd | now destruct m]. }
    rewrite Hm in Hget. exists (snd m). split; [now symmetry|].
    intros b q Hq.
    destruct (Hseen b) as [_ Hb]. cbn [dict_get] in Hb. rewrite Hq in Hb.
    apply dict_get_In in Hb. apply Hbest in Hb. cbn [snd] in Hb.
    apply lucky_newest_label_from in Hq.
    symmetry in Hget. apply lucky_newest_label_from in Hget. lia.
  - destruct last_seen as [|x l] eqn:Hls; [|discriminate].
    cbn in Hmax. injection Hmax as <-. split; [reflexivity|].
    destruct rows as [|r rows]; [reflexivity|]. exfalso.
    destruct (Hseen (LuckyBall r)) as [_ Hget].
    cbn [label_from lucky_newest_label dict_get] in Hget.
    rewrite Z.eqb_refl in Hget. discriminate.
Qed.

(** X22.  Rewriting the content of the draw scored at a backtest position,
    or of any newer draw, leaves the recommendation scored there unchanged:
    the strategy reads only the rows after the position. *)
Theorem backtest_recommendation_reads_suffix_only
        (rows rows' : list Row) (idx : nat) (strategy : string)
        (Hsuffix : skipn (idx + 1) rows = skipn (idx + 1) rows') :
  backtest_recommendation (df (load rows)) idx strategy
    = backtest_recommendation (df (load rows')) idx strategy /\
  simulated (df (load rows)) idx = simulated (df (load rows')) idx.
Proof.
  unfold backtest_recommendation, simulated, iloc_from, load, reset_index.
  cbn [df]. rewrite !label_from_skipn, Hsuffix. split; reflexivity.
Qed.

Lemma backtest_recommendation_reads_suffix_only_witness :
  backtest_recommendation (df (load (newest_row :: target_row :: older_rows))) 1 "hot"
    = backtest_recommendation
        (df (load (target_row :: newest_row :: older_rows))) 1 "hot" /\
  simulated (df (load (newest_row :: target_row :: older_rows))) 1
    = simulated (df (load (target_row :: newest_row :: older_rows))) 1.
Proof.
  apply (backtest_recommendation_reads_suffix_only
           (newest_row :: target_row :: older_rows)
           (target_row :: newest_row :: older_rows) 1 "hot").
  reflexivity.
Defined.

(* ================================================================== *)
(** ** Repeated strategy names *)

(** X23.  A strategy that is named k times in the list passed to
    [backtest_strategies] is simulated k times at every simulated position:
    its record counts k tickets per position whose suffix holds at least 50
    draws, so with a repeated name the tickets can exceed the lookback. *)
Theorem backtest_tickets_multiplicity
        (full : DataFrame) (lookback_draws : Z) (strategies : list string)
        (res : Results) (s : string) (r : StrategyResult)
        (Hrun : backtest_strategies full lookback_draws (Some strategies) = Ok res)
        (Hget : results_get s res = Some r) :
  tickets r
    = Z.of_nat (count_occ string_dec strategies s)
      * Z.of_nat (length (filter (simulated full)
                                 (seq 0 (length (head_signed lookback_draws full))))).
Proof.
  now destruct (backtest_tickets_count _ _ _ _ _ _ Hrun Hget).
Qed.

Lemma backtest_tickets_multiplicity_witness :
  2 = Z.of_nat (count_occ string_dec ["hot"; "hot"]%string "hot"%string)
      * Z.of_nat (length (filter (simulated (df history_trimmed))
                                 (seq 0 (length (head_signed 1 (df history_trimmed)))))).
Proof.
  apply (backtest_tickets_multiplicity (df history_trimmed) 1
           ["hot"; "hot"]%string
           [("hot"%string, mkResult 2 400 2 [(4, 2)])]
           "hot" (mkResult 2 400 2 [(4, 2)])).
  - vm_compute. reflexivity.
  - reflexivity.
Defined.

(* ================================================================== *)
(** ** Order of the reported main numbers *)

Lemma hot_pick_not_ascending : ~ Sorted Z.le [22; 3; 10; 32; 38].
Proof.
  intros Hs. inversion Hs as [|? ? _ Hhd]; subst.
  inversion Hhd as [|? ? Hle]; subst. lia.
Qed.

(* ================================================================== *)
(** ** Jackpot coverage portfolio *)

Lemma jackpot_spread_sorted (frame : DataFrame) (rec : Recommendation) :
  generate_recommendations frame "jackpot_spread" = Ok rec ->
  Sorted Z.le (main_numbers rec).
Proof.
  unfold generate_recommendations. intros Hrun.
  destruct (frequency_analysis frame) as [main_freq lucky_freq].
  destruct (recent_analysis frame 50) as [recent_main recent_lucky].
  cbv beta match zeta in Hrun.
  change ("jackpot_spread" =? "hot")%string with false in Hrun.
  change ("jackpot_spread" =? "cold")%string with false in Hrun.
  change ("jackpot_spread" =? "overdue")%string with false in Hrun.
  change ("jackpot_spread" =? "recent_hot")%string with false in Hrun.
  change ("jackpot_spread" =? "jackpot_spread")%string with true in Hrun.
  cbv beta match in Hrun.
  cbv beta match delta [bind] in Hrun.
  repeat match type of Hrun with
         | context [match ?c with Ok _ => _ | Raise _ => _ end] =>
             destruct c; [|discriminate]
         end.
  apply Ok_inj in Hrun. subst rec. cbv beta match delta [main_numbers].
  apply sorted_Sorted.
Qed.

Lemma Exits_inj {A : Type} (a b : A) : Exits a = Exits b -> a = b.
Proof. intros H. now injection H. Qed.

Ltac step_run H :=
  let rec go c :=
    lazymatch c with
    | match ?c' with Ok _ => _ | Raise _ => _ end => go c'
    | match ?c' with Exits _ => _ | Spins => _ end => go c'
    | _ => destruct c eqn:?; cbv beta match in H; try discriminate H
    end in
  lazymatch type of H with
  | match ?c with Ok _ => _ | Raise _ => _ end = _ => go c
  | match ?c with Exits _ => _ | Spins => _ end = _ => go c
  end.

(** X25.  When [generate_jackpot_coverage] returns, it returns between one
    and five tickets, [max(1, min(5, num_tickets, int(budget / 2)))] of them,
    named in the fixed order Range Spread, Recent Hot, All-Time Hot, Balanced
    Mix, High Numbers.  The numbers of the Range Spread, Recent Hot and High
    Numbers tickets are in ascending order; the All-Time Hot and Balanced Mix
    tickets carry the pick of [generate_recommendations] for ['hot'] and
    ['balanced'] exactly as it was returned. *)
Theorem jackpot_coverage_report
        (frame : DataFrame) (num_tickets : Z) (budget : Q)
        (tickets : list CoverageTicket)
        (Hrun : generate_jackpot_coverage frame num_tickets budget
                = Ok (Exits tickets)) :
  length tickets
    = Z.to_nat (Z.max 1 (Z.min 5 (Z.min num_tickets
                                        (int_of_float (budget / 2))))) /\
  map coverage_strategy tickets
    = firstn (length tickets)
             ["Range Spread"; "Recent Hot"; "All-Time Hot"; "Balanced Mix";
              "High Numbers"]%string /\
  (forall t, In t tickets ->
             In (coverage_strategy t)
                ["Range Spread"; "Recent Hot"; "High Numbers"]%string ->
             Sorted Z.le (coverage_numbers t)) /\
  (forall t, In t tickets -> coverage_strategy t = "All-Time Hot"%string ->
             exists rec, generate_recommendations frame "hot" = Ok rec /\
                         coverage_numbers t = main_numbers rec) /\
  (forall t, In t tickets -> coverage_strategy t = "Balanced Mix"%string ->
             exists rec, generate_recommendations frame "balanced" = Ok rec /\
                         coverage_numbers t = main_numbers rec).
Proof.
  unfold generate_jackpot_coverage in Hrun.
  pose proof (jackpot_spread_sorted frame) as Hspread.
  destruct (frequency_analysis frame) as [main_freq lucky_freq].
  destruct (recent_analysis frame 50) as [recent_main recent_lucky].
  cbv beta match zeta in Hrun.
  set (n := Z.min num_tickets (int_of_float (budget / 2))) in *.
  destruct (generate_recommendations frame "jackpot_spread") as [rec1|e];
    cbv beta match delta [bind] in Hrun; [|discriminate].
  specialize (Hspread rec1 eq_refl).
  destruct (index (lucky_ball rec1) 0) as [lb1|e];
    cbv beta match delta [bind] in Hrun; [|discriminate].
  destruct (Z.leb_spec 2 n) as [H2|H2]; destruct (Z.leb_spec 3 n) as [H3|H3];
    destruct (Z.leb_spec 4 n) as [H4|H4]; destruct (Z.leb_spec 5 n) as [H5|H5];
    try (exfalso; lia); cbv beta match in Hrun; repeat step_run Hrun;
    apply Ok_inj, Exits_inj in Hrun; subst tickets; cbn [app].
  all: split; [cbn [length]; lia|].
  all: split; [reflexivity|].
  all: split; [|split]; intros t Hin Hname; cbn [In] in Hin;
    repeat (destruct Hin as [<-|Hin]); try contradiction;
    cbn [coverage_strategy coverage_numbers] in *;
    try discriminate Hname;
    try exact Hspread; try apply sorted_Sorted;
    try (exfalso; cbn in Hname; intuition discriminate);
    try (eexists; split; reflexivity).
Qed.

Lemma jackpot_coverage_report_witness :
  length fixture_coverage
    = Z.to_nat (Z.max 1 (Z.min 5 (Z.min 5 (int_of_float (10 / 2))))) /\
  map coverage_strategy fixture_coverage
    = firstn (length fixture_coverage)
             ["Range Spread"; "Recent Hot"; "All-Time Hot"; "Balanced Mix";
              "High Numbers"]%string /\
  (forall t, In t fixture_coverage ->
             In (coverage_strategy t)
                ["Range Spread"; "Recent Hot"; "High Numbers"]%string ->
             Sorted Z.le (coverage_numbers t)) /\
  (forall t, In t fixture_coverage ->
             coverage_strategy t = "All-Time Hot"%string ->
             exists rec, generate_recommendations (df fixture) "hot" = Ok rec /\
                         coverage_numbers t = main_numbers rec) /\
  (forall t, In t fixture_coverage ->
             coverage_strategy t = "Balanced Mix"%string ->
             exists rec, generate_recommendations (df fixture) "balanced" = Ok rec /\
                         coverage_numbers t = main_numbers rec).
Proof.
  apply (jackpot_coverage_report (df fixture) 5 10 fixture_coverage).
  vm_compute. reflexivity.
Defined.

(* ================================================================== *)
(** ** Report paths that hand the pick on unsorted *)

(** C9.  The code breaks the claim on the three-draw history of the test
    suite.  For strategy ['hot'] [generate_recommendations] returns the main
    numbers 22, 3, 10, 32, 38 in frequency order, which is not ascending.
    The route [/api/recommendations/hot] reports them in that order, and so
    does the All-Time Hot ticket of [generate_jackpot_coverage], whose
    Recent Hot and High Numbers tickets are sorted; [generate_multiple_sets]
    reports the same pick sorted. *)
Theorem hot_pick_reported_unsorted :
  generate_recommendations (df fixture) "hot"
    = Ok {| main_numbers := [22; 3; 10; 32; 38];
            lucky_ball := [11];
            reasoning := "Hot numbers: Most frequently drawn overall" |} /\
  ~ Sorted Z.le [22; 3; 10; 32; 38] /\
  get_recommendations fixture "hot"
    = Success {| json_numbers := [22; 3; 10; 32; 38];
                 json_lucky_ball := 11;
                 json_strategy := "Hot numbers: Most frequently drawn overall" |} /\
  generate_jackpot_coverage (df fixture) 5 10 = Ok (Exits fixture_coverage) /\
  option_map coverage_numbers (nth_error fixture_coverage 2)
    = Some [22; 3; 10; 32; 38] /\
  generate_multiple_sets (df fixture) 1 (Some ["hot"%string])
    = Ok [mkSet 1 "hot" [3; 10; 22; 32; 38] 11
                "Hot numbers: Most frequently drawn overall"].
Proof.
  split; [vm_compute; reflexivity|].
  split; [exact hot_pick_not_ascending|].
  split; [vm_compute; reflexivity|].
  split; [vm_compute; reflexivity|].
  split; [reflexivity|].
  vm_compute. reflexivity.
Qed.
